(** * config_parser.py: a shallow embedding of [ConfigParser] and its properties

    The source is one Python class.  A session object holds the dictionary
    [constants] and the XML tree [xml_root]; [parse_line] dispatches a line to
    [parse_global] (declarations) or [evaluate_expression] (postfix
    arithmetic), and [add_to_xml] appends one node per declaration.

    Conventions of the embedding.
    - A Python [str] is a [string]; a character is a code point below 256
      (Latin-1), and the character classes below are the ones CPython uses on
      that range.  Text with a character above U+00FF is outside the model:
      every statement below is about lines of Latin-1 characters.
    - A Python value is an [int] (unbounded, [Z]) or a [list] of values.
    - Methods run in a state-and-exception monad over the session; a raised
      exception carries the session as it was when it was raised.
    - The interpreter is 64-bit CPython with its default settings: the
      limit of 4300 digits on conversions between [int] and [str], and the
      size checks of list repetition, are part of the model.  The
      interpreter's recursion limit and the memory of the machine are not:
      an allocation that passes CPython's own size checks succeeds. *)

From Stdlib Require Import ZArith String Ascii List Bool Lia DecimalString DecimalPos.
From stdpp Require Import gmap strings.

Set Warnings "-register-all".
Local Open Scope string_scope.

(* ===================================================================== *)
(** ** Python string methods used by the source                           *)
(* ===================================================================== *)

Module Py.

(** [str.isspace] on one character, which is also the class [\s] of [re]
    on [str] patterns: TAB..CR, FS..US, space, NEL and NBSP. *)
Definition isspace_char (c : ascii) : bool :=
  let n := N_of_ascii c in
  ((9 <=? n) && (n <=? 13) || (28 <=? n) && (n <=? 32)
   || (n =? 133) || (n =? 160))%N.

(** The decimal digits [0-9]. *)
Definition isdecimal_char (c : ascii) : bool :=
  let n := N_of_ascii c in ((48 <=? n) && (n <=? 57))%N.

(** [str.isdigit] on one character of Latin-1: the decimal digits and the
    superscript digits U+00B2, U+00B3, U+00B9.  (Above U+00FF there are
    further digits, decimal and not; they are not characters of this
    model.) *)
Definition isdigit_char (c : ascii) : bool :=
  let n := N_of_ascii c in
  (isdecimal_char c || (n =? 178) || (n =? 179) || (n =? 185))%N.

Fixpoint all_chars (p : ascii -> bool) (s : string) : bool :=
  match s with
  | EmptyString => true
  | String c s' => p c && all_chars p s'
  end.

(** [s.isdigit()]: non-empty and every character is a digit. *)
Definition isdigit (s : string) : bool :=
  match s with
  | EmptyString => false
  | _ => all_chars isdigit_char s
  end.

(** [bool(s)]: a string is truthy when it is not empty. *)
Definition truthy (s : string) : bool :=
  match s with EmptyString => false | _ => true end.

(** [s.startswith(prefix)]. *)
Fixpoint startswith (prefix s : string) : bool :=
  match prefix, s with
  | EmptyString, _ => true
  | String a p', String b s' => Ascii.eqb a b && startswith p' s'
  | String _ _, EmptyString => false
  end.

(** [s.endswith(suffix)]: some tail of [s] is [suffix]. *)
Fixpoint endswith (suffix s : string) : bool :=
  String.eqb s suffix ||
  match s with
  | EmptyString => false
  | String _ s' => endswith suffix s'
  end.

(** [s[lo:hi]] with Python's treatment of negative and out-of-range
    indices. *)
Definition slice (s : string) (lo hi : Z) : string :=
  let n := Z.of_nat (String.length s) in
  let norm i := (if i <? 0 then Z.max 0 (i + n) else Z.min i n)%Z in
  String.substring (Z.to_nat (norm lo)) (Z.to_nat (norm hi - norm lo)) s.

(** [s[lo:]]. *)
Definition slice_from (s : string) (lo : Z) : string :=
  slice s lo (Z.of_nat (String.length s)).

(** [s.split(sep)] for a one-character separator: cut at every occurrence;
    the result always has at least one piece ([''.split(',') == ['']]). *)
Fixpoint split (sep : ascii) (s : string) : list string :=
  match s with
  | EmptyString => [EmptyString]
  | String c s' =>
      if Ascii.eqb c sep then EmptyString :: split sep s'
      else match split sep s' with
           | piece :: pieces => String c piece :: pieces
           | [] => [String c EmptyString]
           end
  end.

(** Cut at every character of a class. *)
Fixpoint split_where (p : ascii -> bool) (s : string) : list string :=
  match s with
  | EmptyString => [EmptyString]
  | String c s' =>
      if p c then EmptyString :: split_where p s'
      else match split_where p s' with
           | piece :: pieces => String c piece :: pieces
           | [] => [String c EmptyString]
           end
  end.

(** [s.split()]: cut at whitespace and drop the empty pieces, so that runs
    of whitespace count as one separator and none is produced at the ends. *)
Definition split_whitespace (s : string) : list string :=
  List.filter truthy (split_where isspace_char s).

Fixpoint lstrip (s : string) : string :=
  match s with
  | EmptyString => EmptyString
  | String c s' => if isspace_char c then lstrip s' else s
  end.

Fixpoint rstrip (s : string) : string :=
  match s with
  | EmptyString => EmptyString
  | String c s' =>
      match rstrip s' with
      | EmptyString => if isspace_char c then EmptyString else String c EmptyString
      | r => String c r
      end
  end.

(** [s.strip()]. *)
Definition strip (s : string) : string := rstrip (lstrip s).

(** Value of a string of decimal digits, most significant first. *)
Fixpoint decimal_value (acc : Z) (s : string) : Z :=
  match s with
  | EmptyString => acc
  | String c s' => decimal_value (10 * acc + (Z.of_N (N_of_ascii c) - 48))%Z s'
  end.

(** The decimal text of an integer: what [str(i)] returns when it
    returns. *)
Definition decimal_text (i : Z) : string := NilZero.string_of_int (Z.to_int i).

(** [sys.get_int_max_str_digits()]: the largest number of digits that
    [int(s)] reads and [str(i)] writes. *)
Definition int_max_str_digits : nat := 4300.

(** [sep.join(pieces)]. *)
Fixpoint join (sep : string) (pieces : list string) : string :=
  match pieces with
  | [] => EmptyString
  | [x] => x
  | x :: rest => x +:+ sep +:+ join sep rest
  end.

End Py.

(* ===================================================================== *)
(** ** The fragment of [re] used by [parse_global]                        *)
(* ===================================================================== *)

Module Re.

(** A pattern is a sequence of items.  Repetition is greedy and applies to a
    character class, as everywhere in the source's pattern. *)
Inductive item :=
| Lit (text : string)                       (* literal text *)
| Class (p : ascii -> bool)                 (* one character of a class *)
| Rep (least : nat) (p : ascii -> bool)     (* class* (least 0), class+ (least 1) *)
| Open                                      (* ( *)
| Close.                                    (* ) *)

(** Remove a literal from the front of the subject. *)
Fixpoint eat (text s : string) : option string :=
  match text, s with
  | EmptyString, _ => Some s
  | String a t', String b s' => if Ascii.eqb a b then eat t' s' else None
  | String _ _, EmptyString => None
  end.

(** Length of the longest run at the front of [s] inside the class. *)
Fixpoint span (p : ascii -> bool) (s : string) : nat :=
  match s with
  | String c s' => if p c then S (span p s') else 0
  | EmptyString => 0
  end.

Fixpoint drop (n : nat) (s : string) : string :=
  match n, s with
  | O, _ => s
  | S n', String _ s' => drop n' s'
  | S _, EmptyString => EmptyString
  end.

Fixpoint take (n : nat) (s : string) : string :=
  match n, s with
  | O, _ => EmptyString
  | S n', String c s' => String c (take n' s')
  | S _, EmptyString => EmptyString
  end.

(** Backtracking over a greedy repetition: try [least + extra] characters,
    then one fewer, down to [least]; the first continuation that succeeds
    wins. *)
Fixpoint longest_first {A} (k : nat -> option A) (least extra : nat) : option A :=
  match k (least + extra) with
  | Some r => Some r
  | None =>
      match extra with
      | O => None
      | S e => longest_first k least e
      end
  end.

(** [run items s opened groups]: match [items] at the front of [s].
    [opened] holds the subject as it was at each group still open, [groups]
    the text of the groups closed so far (last closed first). *)
Fixpoint run (items : list item) (s : string)
         (opened : list string) (groups : list string) : option (list string) :=
  match items with
  | [] => Some (rev groups)
  | Lit text :: items' =>
      match eat text s with
      | Some s' => run items' s' opened groups
      | None => None
      end
  | Class p :: items' =>
      match s with
      | String c s' => if p c then run items' s' opened groups else None
      | EmptyString => None
      end
  | Rep least p :: items' =>
      let n := span p s in
      if (n <? least)%nat then None
      else longest_first (fun k => run items' (drop k s) opened groups)
                         least (n - least)
  | Open :: items' => run items' s (s :: opened) groups
  | Close :: items' =>
      match opened with
      | start :: opened' =>
          run items' s opened'
              (take (String.length start - String.length s) start :: groups)
      | [] => None
      end
  end.

(** [re.match(pattern, s)]: anchored at the start of [s] only; returns the
    captured groups, [None] when there is no match. *)
Definition match_ (pattern : list item) (s : string) : option (list string) :=
  run pattern s [] [].

(** [.]: any character but the newline. *)
Definition dot (c : ascii) : bool := negb (Ascii.eqb c "010"%char).

(** [\s]. *)
Definition space : ascii -> bool := Py.isspace_char.

Definition in_range (lo hi c : ascii) : bool :=
  (N_of_ascii lo <=? N_of_ascii c)%N && (N_of_ascii c <=? N_of_ascii hi)%N.

(** [[_a-zA-Z]]. *)
Definition ident_start (c : ascii) : bool :=
  Ascii.eqb c "_"%char || in_range "a"%char "z"%char c || in_range "A"%char "Z"%char c.

(** [[_a-zA-Z0-9]]. *)
Definition ident_char (c : ascii) : bool :=
  ident_start c || in_range "0"%char "9"%char c.

End Re.

(* ===================================================================== *)
(** ** Values, exceptions and the operators of the evaluator              *)
(* ===================================================================== *)

(** What [parse_value] returns and the evaluator's stack holds: an [int] or
    a [list] whose items are again values. *)
Inductive Value :=
| VInt (i : Z)
| VList (items : list Value).

(** The exceptions the methods can end in.  [SyntaxError] is the one the
    source raises itself (and the only one its entry point catches); the
    others come from the built-in operations it calls.  [RecursionError]
    stands for an exhausted nesting bound in [parse_value_at]; [parse_value]
    never ends in it (lemma [parse_value_total]). *)
Inductive exn :=
| SyntaxError (msg : string)
| IndexError (msg : string)
| ZeroDivisionError
| TypeError
| ValueError
| OverflowError
| MemoryError
| RecursionError.

Module Op.

Local Open Scope Z_scope.

(** [a == b]. *)
Fixpoint eq (a b : Value) : bool :=
  match a, b with
  | VInt x, VInt y => x =? y
  | VList xs, VList ys =>
      (fix items xs ys :=
         match xs, ys with
         | [], [] => true
         | x :: xs', y :: ys' => eq x y && items xs' ys'
         | _, _ => false
         end) xs ys
  | _, _ => false
  end.

(** [v > w]: integers by value; lists at the first pair of items that are
    not equal, by length when one is a prefix of the other; an [int]
    against a [list] is a [TypeError]. *)
Fixpoint gt (v w : Value) : exn + bool :=
  match v, w with
  | VInt x, VInt y => inr (y <? x)
  | VList xs, VList ys =>
      (fix items xs ys :=
         match xs, ys with
         | x :: xs', y :: ys' => if eq x y then items xs' ys' else gt x y
         | _ :: _, [] => inr true
         | [], _ => inr false
         end) xs ys
  | _, _ => inl TypeError
  end.

(** [items * n].  The count has to fit a machine index of 64 bits, else
    [OverflowError].  A count below one, or an empty list, gives a new empty
    list.  A result of more than [2^60 - 1] items is refused with
    [MemoryError] by the size checks made before the item array is
    allocated. *)
Definition repeat_list (items : list Value) (n : Z) : exn + Value :=
  if (n <? - 2 ^ 63) || (2 ^ 63 - 1 <? n) then inl OverflowError
  else if (n <=? 0) || (match items with [] => true | _ => false end)
  then inr (VList [])
  else if 2 ^ 60 - 1 <? Z.of_nat (length items) * n then inl MemoryError
  else inr (VList (concat (List.repeat items (Z.to_nat n)))).

(** [a + b]. *)
Definition add (a b : Value) : exn + Value :=
  match a, b with
  | VInt x, VInt y => inr (VInt (x + y))
  | VList xs, VList ys => inr (VList (xs ++ ys))
  | _, _ => inl TypeError
  end.

(** [a - b]. *)
Definition sub (a b : Value) : exn + Value :=
  match a, b with
  | VInt x, VInt y => inr (VInt (x - y))
  | _, _ => inl TypeError
  end.

(** [a * b]. *)
Definition mul (a b : Value) : exn + Value :=
  match a, b with
  | VInt x, VInt y => inr (VInt (x * y))
  | VList xs, VInt n => repeat_list xs n
  | VInt n, VList xs => repeat_list xs n
  | VList _, VList _ => inl TypeError
  end.

(** [a // b]. *)
Definition floordiv (a b : Value) : exn + Value :=
  match a, b with
  | VInt x, VInt y => if y =? 0 then inl ZeroDivisionError else inr (VInt (x / y))
  | _, _ => inl TypeError
  end.

(** [a % b]. *)
Definition mod_ (a b : Value) : exn + Value :=
  match a, b with
  | VInt x, VInt y => if y =? 0 then inl ZeroDivisionError else inr (VInt (x mod y))
  | _, _ => inl TypeError
  end.

(** [max(a, b)]: [b] when [b > a], else [a]. *)
Definition max (a b : Value) : exn + Value :=
  match gt b a with
  | inr true => inr b
  | inr false => inr a
  | inl e => inl e
  end.

(** [int(s)] at a string that passed [isdigit]: the superscript digits are
    digits for [isdigit] and a [ValueError] for [int], and so is a string
    of more digits than the conversion limit, leading zeros counted. *)
Definition int (s : string) : exn + Z :=
  if Py.all_chars Py.isdecimal_char s && Py.truthy s
  then if (Py.int_max_str_digits <? String.length s)%nat then inl ValueError
       else inr (Py.decimal_value 0 s)
  else inl ValueError.

(** The text of a value: what [str(v)] returns when it returns. *)
Fixpoint text (v : Value) : string :=
  match v with
  | VInt i => Py.decimal_text i
  | VList items => "[" +:+ Py.join ", " (List.map text items) +:+ "]"
  end.

(** The values [str] converts: every integer in them has no more digits
    than the conversion limit, the sign not counted. *)
Fixpoint printable (v : Value) : bool :=
  match v with
  | VInt i =>
      (String.length (Py.decimal_text (Z.abs i)) <=? Py.int_max_str_digits)%nat
  | VList items => List.forallb printable items
  end.

(** [str(v)]: [ValueError] when an integer of [v] exceeds the limit. *)
Definition str (v : Value) : exn + string :=
  if printable v then inr (text v) else inl ValueError.

End Op.

(* ===================================================================== *)
(** ** The XML tree ([xml.etree.ElementTree.Element])                     *)
(* ===================================================================== *)

Inductive Element :=
| mkElement (tag : string) (attrib : list (string * string))
            (text : option string) (children : list Element).

Definition children (e : Element) : list Element :=
  match e with mkElement _ _ _ cs => cs end.

Definition text (e : Element) : option string :=
  match e with mkElement _ _ t _ => t end.

(** [parent.append(child)]. *)
Definition append_child (parent child : Element) : Element :=
  match parent with
  | mkElement tag attrib text cs => mkElement tag attrib text (cs ++ [child])
  end.

(** [e.text = t]. *)
Definition set_text (t : string) (e : Element) : Element :=
  match e with
  | mkElement tag attrib _ cs => mkElement tag attrib (Some t) cs
  end.

(** Apply an update to the child appended last.  [ET.SubElement] returns a
    reference to the node it has just appended, and the source writes
    through that reference. *)
Definition update_last (f : Element -> Element) (parent : Element) : Element :=
  match parent with
  | mkElement tag attrib text cs =>
      match rev cs with
      | last :: before => mkElement tag attrib text (rev before ++ [f last])
      | [] => parent
      end
  end.

(** [ET.tostring(element, encoding='unicode')]: the element and its
    descendants as text, without an XML declaration.  An element with
    neither text nor children is written in the short form. *)
Module ET.

(** The double quote that delimits an attribute value. *)
Definition quot : string := String "034"%char EmptyString.

(** Replace characters one by one. *)
Fixpoint replace_chars (f : ascii -> option string) (s : string) : string :=
  match s with
  | EmptyString => EmptyString
  | String c s' =>
      match f c with
      | Some r => r +:+ replace_chars f s'
      | None => String c (replace_chars f s')
      end
  end.

(** [_escape_cdata]: the three characters that cannot stand in text. *)
Definition escape_cdata : string -> string :=
  replace_chars (fun c =>
    if Ascii.eqb c "&" then Some "&amp;"
    else if Ascii.eqb c "<" then Some "&lt;"
    else if Ascii.eqb c ">" then Some "&gt;"
    else None).

(** [_escape_attrib]: those three, the double quote, and CR, LF, TAB as
    character references. *)
Definition escape_attrib : string -> string :=
  replace_chars (fun c =>
    if Ascii.eqb c "&" then Some "&amp;"
    else if Ascii.eqb c "<" then Some "&lt;"
    else if Ascii.eqb c ">" then Some "&gt;"
    else if Ascii.eqb c "034" then Some "&quot;"
    else if Ascii.eqb c "013" then Some "&#13;"
    else if Ascii.eqb c "010" then Some "&#10;"
    else if Ascii.eqb c "009" then Some "&#09;"
    else None).

Fixpoint concat_str (pieces : list string) : string :=
  match pieces with
  | [] => EmptyString
  | x :: rest => x +:+ concat_str rest
  end.

Definition attribute (item : string * string) : string :=
  " " +:+ fst item +:+ "=" +:+ quot +:+ escape_attrib (snd item) +:+ quot.

Fixpoint serialize (e : Element) : string :=
  match e with
  | mkElement tag attrib text cs =>
      let start := "<" +:+ tag +:+ concat_str (List.map attribute attrib) in
      let has_text := match text with Some t => Py.truthy t | None => false end in
      let has_children := match cs with [] => false | _ => true end in
      if has_text || has_children then
        start +:+ ">"
        +:+ (match text with Some t => escape_cdata t | None => EmptyString end)
        +:+ concat_str (List.map serialize cs)
        +:+ "</" +:+ tag +:+ ">"
      else start +:+ " />"
  end.

Definition tostring (e : Element) : string := serialize e.

End ET.

(* ===================================================================== *)
(** ** The session and its monad                                          *)
(* ===================================================================== *)

(** The fields of a [ConfigParser] object, and what it has printed. *)
Record session := Session {
  constants : gmap string Value;
  xml_root : Element;
  stdout : list string
}.

Definition M (A : Type) : Type := session -> (exn + A) * session.

Definition ret {A} (a : A) : M A := fun self => (inr a, self).

Definition raise {A} (e : exn) : M A := fun self => (inl e, self).

Definition bind {A B} (m : M A) (k : A -> M B) : M B :=
  fun self =>
    match m self with
    | (inr a, self') => k a self'
    | (inl e, self') => (inl e, self')
    end.

Notation "'let*' x ':=' m 'in' k" := (bind m (fun x => k))
  (at level 10, x pattern, m at level 100, k at level 200).

(** The result of a built-in operation, raised when it is an exception. *)
Definition lift {A} (r : exn + A) : M A :=
  match r with
  | inr a => ret a
  | inl e => raise e
  end.

(** [self.constants]. *)
Definition get_constants : M (gmap string Value) :=
  fun self => (inr (constants self), self).

(** [self.constants[name] = v]. *)
Definition set_constant (name : string) (v : Value) : M unit :=
  fun self =>
    (inr tt, Session (<[name := v]> (constants self)) (xml_root self) (stdout self)).

(** An update of the tree reached from [self.xml_root]. *)
Definition update_root (f : Element -> Element) : M unit :=
  fun self => (inr tt, Session (constants self) (f (xml_root self)) (stdout self)).

(** [print(line)]. *)
Definition print (line : string) : M unit :=
  fun self => (inr tt, Session (constants self) (xml_root self) (stdout self ++ [line])).

(** [[f(x) for x in xs]] and [for x in xs: f(x)]: in order, stopping at the
    first exception. *)
Fixpoint for_each {A B} (f : A -> M B) (xs : list A) : M (list B) :=
  match xs with
  | [] => ret []
  | x :: xs' =>
      let* y := f x in
      let* ys := for_each f xs' in
      ret (y :: ys)
  end.

(* ===================================================================== *)
(** ** class ConfigParser                                                 *)
(* ===================================================================== *)

Module ConfigParser.

(** [__init__]: an empty dictionary and the root element [config]. *)
Definition init : session :=
  Session ∅ (mkElement "config" [] None []) [].

(** The pattern of [parse_global], item by item:
    global \s+ ( [_a-zA-Z] [_a-zA-Z0-9]* ) \s* = \s* ( .+ ) ;   *)
Definition global_pattern : list Re.item :=
  [ Re.Lit "global"; Re.Rep 1 Re.space;
    Re.Open; Re.Class Re.ident_start; Re.Rep 0 Re.ident_char; Re.Close;
    Re.Rep 0 Re.space; Re.Lit "="; Re.Rep 0 Re.space;
    Re.Open; Re.Rep 1 Re.dot; Re.Close;
    Re.Lit ";" ].

(** [parse_value] and [parse_array] call each other on ever shorter texts;
    [depth] bounds the nesting of the calls. *)
Fixpoint parse_value_at (depth : nat) (value : string) : M Value :=
  match depth with
  | O => raise RecursionError
  | S depth' =>
      if Py.startswith "array(" value && Py.endswith ")" value then
        (* parse_array *)
        let array_str := Py.slice value 6 (-1) in
        let* items :=
          for_each (fun val => parse_value_at depth' (Py.strip val))
                   (Py.split ","%char array_str) in
        ret (VList items)
      else if Py.isdigit value then
        let* i := lift (Op.int value) in
        ret (VInt i)
      else
        let* constants := get_constants in
        match constants !! value with
        | Some v => ret v
        | None => raise (SyntaxError ("Invalid value: " +:+ value))
        end
  end.

(** A nesting bound that no text can exhaust: every nested call is on a
    strictly shorter text (lemma [parse_value_depth] below). *)
Definition parse_value (value : string) : M Value :=
  parse_value_at (S (String.length value)) value.

Definition parse_array (array_str : string) : M Value :=
  let array_str := Py.slice array_str 6 (-1) in
  let* items :=
    for_each (fun val => parse_value (Py.strip val))
             (Py.split ","%char array_str) in
  ret (VList items).

(** [ET.SubElement(element, "value").text = str(val)]: the right-hand side
    is evaluated first. *)
Definition add_value_child (val : Value) : M unit :=
  let* t := lift (Op.str val) in
  let* _ := update_root (update_last (fun element =>
              append_child element (mkElement "value" [] None []))) in
  update_root (update_last (update_last (set_text t))).

Definition add_to_xml (name : string) (v : Value) : M unit :=
  let* _ := update_root (fun root =>
              append_child root (mkElement "constant" [("name", name)] None [])) in
  match v with
  | VList items =>
      let* _ := for_each add_value_child items in
      ret tt
  | VInt _ =>
      let* t := lift (Op.str v) in
      update_root (update_last (set_text t))
  end.

Definition parse_global (line : string) : M unit :=
  match Re.match_ global_pattern line with
  | None => raise (SyntaxError ("Invalid global declaration: " +:+ line))
  | Some [name; value] =>
      let* v := parse_value value in
      let* _ := set_constant name v in
      add_to_xml name v
  | Some _ => raise ValueError
  end.

(** [stack.pop()]; the top of the stack is the head of the list. *)
Definition pop (stack : list Value) : M (Value * list Value) :=
  match stack with
  | top :: rest => ret (top, rest)
  | [] => raise (IndexError "pop from empty list")
  end.

(** [b, a = stack.pop(), stack.pop()] and [stack.append(op(a, b))]. *)
Definition binary (op : Value -> Value -> exn + Value)
           (stack : list Value) : M (list Value) :=
  let* (b, stack) := pop stack in
  let* (a, stack) := pop stack in
  let* r := lift (op a b) in
  ret (r :: stack).

(** The body of the loop over the tokens. *)
Definition eval_token (token : string) (stack : list Value) : M (list Value) :=
  if Py.isdigit token then
    let* i := lift (Op.int token) in
    ret (VInt i :: stack)
  else
    let* constants := get_constants in
    match constants !! token with
    | Some v => ret (v :: stack)
    | None =>
        if String.eqb token "+" then binary Op.add stack
        else if String.eqb token "-" then binary Op.sub stack
        else if String.eqb token "*" then binary Op.mul stack
        else if String.eqb token "/" then binary Op.floordiv stack
        else if String.eqb token "mod" then binary Op.mod_ stack
        else if String.eqb token "max" then binary Op.max stack
        else raise (SyntaxError ("Unknown token in expression: " +:+ token))
    end.

Fixpoint eval_tokens (tokens : list string) (stack : list Value) : M (list Value) :=
  match tokens with
  | [] => ret stack
  | token :: tokens' =>
      let* stack := eval_token token stack in
      eval_tokens tokens' stack
  end.

Definition evaluate_expression (expression : string) : M Value :=
  let tokens := Py.split_whitespace expression in
  let* stack := eval_tokens tokens [] in
  if negb (length stack =? 1)%nat then
    raise (SyntaxError ("Invalid expression: " +:+ expression))
  else
    let* (result, _) := pop stack in
    let* t := lift (Op.str result) in
    let* _ := print ("Result of expression: " +:+ t) in
    ret result.

Definition parse_line (line : string) : M unit :=
  if negb (Py.truthy line) || Py.startswith "#" line then ret tt
  else if Py.startswith "global " line then parse_global line
  else if Py.startswith "^" line then
    let* _ := evaluate_expression (Py.slice_from line 1) in
    ret tt
  else raise (SyntaxError ("Unknown syntax: " +:+ line)).

(** The loop of [parse_file] over the lines read from the file. *)
Fixpoint parse_lines (lines : list string) : M unit :=
  match lines with
  | [] => ret tt
  | line :: lines' =>
      let* _ := parse_line (Py.strip line) in
      parse_lines lines'
  end.

Definition to_xml : M string :=
  fun self => (inr (ET.tostring (xml_root self)), self).

End ConfigParser.

Import ConfigParser.

(* ===================================================================== *)
(** ** The script                                                         *)
(* ===================================================================== *)

(** How the script ends: it runs to its end, it calls [sys.exit(code)], or
    an exception that it does not catch ends it. *)
Inductive outcome :=
| Finished
| Exit (code : Z)
| Uncaught (e : exn).

(** The body of the script once [sys.argv] holds one path and [lines] has
    been read from that file: what it prints, and how it ends.
    [str(e)] of a [SyntaxError] raised with one argument is that argument. *)
Definition main (lines : list string) : list string * outcome :=
  match parse_lines lines init with
  | (inr _, parser) =>
      match to_xml parser with
      | (inr xml, parser') => ((stdout parser' ++ [xml])%list, Finished)
      | (inl e, parser') => (stdout parser', Uncaught e)
      end
  | (inl (SyntaxError msg), parser) =>
      ((stdout parser ++ ["Syntax error: " +:+ msg])%list, Exit 1)
  | (inl e, parser) => (stdout parser, Uncaught e)
  end.

(* ===================================================================== *)
(** ** Vocabulary of the statements                                       *)
(* ===================================================================== *)

(** [s] has no occurrence of the character [c]. *)
Definition lacks (c : ascii) (s : string) : bool :=
  Py.all_chars (fun x => negb (Ascii.eqb x c)) s.

(** The names the pattern of [parse_global] accepts. *)
Definition is_identifier (s : string) : bool :=
  match s with
  | String c s' => Re.ident_start c && Py.all_chars Re.ident_char s'
  | EmptyString => false
  end.

(** The superscripts of 2, 3 and 1: the characters of Latin-1 that
    [isdigit] accepts and [int] does not. *)
Definition superscript_digit (c : ascii) : bool :=
  let n := N_of_ascii c in ((n =? 178) || (n =? 179) || (n =? 185))%N.

(** Every key of the dictionary is a name that a declaration can bind.
    This holds in every session built by [parse_lines] from [init]
    (lemma [sessions_of_a_fresh_parser]). *)
Definition well_formed (self : session) : Prop :=
  forall key v, constants self !! key = Some v -> is_identifier key = true.

(** Every stored value is one that [str] converts: no integer in it has
    more than 4300 digits.  This too holds in every session built by
    [parse_lines] from [init] (lemma [sessions_of_a_fresh_parser]): a stored
    integer comes from a literal that [int] accepted. *)
Definition printable_table (self : session) : Prop :=
  forall key v, constants self !! key = Some v -> Op.printable v = true.

(** The child of a [constant] node for one item of a list. *)
Definition value_element (val : Value) : Element :=
  mkElement "value" [] (Some (Op.text val)) [].

(** The node [add_to_xml] leaves in the tree for a declaration. *)
Definition constant_element (name : string) (v : Value) : Element :=
  match v with
  | VInt _ => mkElement "constant" [("name", name)] (Some (Op.text v)) []
  | VList items =>
      mkElement "constant" [("name", name)] None
        (List.map value_element items)
  end.

(** The content the specification gives the node of a declaration
    (sections 3 and 4.5): the decimal string of an integer, and for a list
    one [value] child per element, in order, where an element that is a
    list is again a group of [value] children and an element that is an
    integer carries its decimal string.  This definition follows the
    specification, not [add_to_xml]; [constant_element] above is the node of
    the code. *)
Fixpoint spec_value_node (val : Value) : Element :=
  match val with
  | VInt i => mkElement "value" [] (Some (Py.decimal_text i)) []
  | VList items => mkElement "value" [] None (List.map spec_value_node items)
  end.

Definition spec_constant_node (name : string) (v : Value) : Element :=
  match v with
  | VInt i => mkElement "constant" [("name", name)] (Some (Py.decimal_text i)) []
  | VList items =>
      mkElement "constant" [("name", name)] None (List.map spec_value_node items)
  end.

(** An integer, or a list of integers: a value with no list inside a list. *)
Definition flat (v : Value) : bool :=
  match v with
  | VInt _ => true
  | VList items =>
      List.forallb (fun item => match item with VInt _ => true | VList _ => false end)
                   items
  end.

(** The session after a successful declaration of [name] with value [v]. *)
Definition declared (name : string) (v : Value) (self : session) : session :=
  Session (<[name := v]> (constants self))
          (append_child (xml_root self) (constant_element name v))
          (stdout self).

(** The session after an expression line has reported [result]. *)
Definition reported (result : Value) (self : session) : session :=
  Session (constants self) (xml_root self)
          (stdout self ++ ["Result of expression: " +:+ Op.text result]).

(** The binary operators of the evaluator. *)
Definition operators : list string := ["+"; "-"; "*"; "/"; "mod"; "max"].

(** An array literal of three elements. *)
Definition array3 (a b c : string) : string :=
  "array(" +:+ a +:+ "," +:+ b +:+ "," +:+ c +:+ ")".

(** A declaration line in the layout [global name = value;] followed by
    [trailing]. *)
Definition declaration (name value trailing : string) : string :=
  "global " +:+ name +:+ " = " +:+ value +:+ ";" +:+ trailing.

(** Processing [line] succeeds and reports the integer [result]. *)
Definition reports (line : string) (result : Z) (self : session) : Prop :=
  parse_line line self = (inr tt, reported (VInt result) self).

(** A computation that leaves the session as it found it, whatever its
    outcome. *)
Definition reads_only {A} (m : M A) : Prop :=
  forall self, snd (m self) = self.

(** A string of whitespace, possibly empty. *)
Definition whitespace (s : string) : bool := Py.all_chars Py.isspace_char s.

(** What [parse_file] makes of a line before [parse_line] sees it decides
    its kind. *)
Definition is_inert_line (line : string) : bool :=
  negb (Py.truthy (Py.strip line)) || Py.startswith "#" (Py.strip line).

Definition is_declaration_line (line : string) : bool :=
  Py.startswith "global " (Py.strip line).

Definition is_expression_line (line : string) : bool :=
  Py.startswith "^" (Py.strip line).

(** A [constant] node that carries [name]. *)
Definition node_for (name : string) (e : Element) : bool :=
  match e with
  | mkElement tag [(k, n)] _ _ =>
      String.eqb tag "constant" && String.eqb k "name" && String.eqb n name
  | _ => false
  end.

(** The node appended last for [name], if any. *)
Definition last_node (name : string) (root : Element) : option Element :=
  List.find (node_for name) (rev (children root)).

(** Values built from unsigned integers and non-empty lists. *)
Fixpoint plain (v : Value) : bool :=
  match v with
  | VInt i => (0 <=? i)%Z
  | VList items =>
      match items with [] => false | _ => List.forallb plain items end
  end.

(** The text of a [value] child and of a [constant] node in the output. *)
Definition value_xml (val : Value) : string :=
  "<value>" +:+ Op.text val +:+ "</value>".

Definition constant_xml (name : string) (v : Value) : string :=
  "<constant name=" +:+ ET.quot +:+ name +:+ ET.quot +:+ ">"
  +:+ match v with
      | VInt _ => Op.text v
      | VList items => ET.concat_str (List.map value_xml items)
      end
  +:+ "</constant>".

(** The characters of [str(v)]: digits, the sign, brackets, comma, space. *)
Definition str_char (c : ascii) : bool :=
  Py.isdecimal_char c || Ascii.eqb c "-" || Ascii.eqb c "[" || Ascii.eqb c "]"
  || Ascii.eqb c "," || Ascii.eqb c " ".

(** The text of the children of an element, in order. *)
Definition document_body (root : Element) : string :=
  ET.concat_str (List.map ET.serialize (children root)).

(* ===================================================================== *)
(** ** The methods on concrete inputs                                     *)
(* ===================================================================== *)

Example split_empty : Py.split ","%char "" = [""].
Proof. reflexivity. Qed.

Example split_three : Py.split ","%char "1, 2, x" = ["1"; " 2"; " x"].
Proof. reflexivity. Qed.

Example split_whitespace_runs : Py.split_whitespace " 10  3 / " = ["10"; "3"; "/"].
Proof. reflexivity. Qed.

Example strip_both_ends : Py.strip "  a b  " = "a b".
Proof. reflexivity. Qed.

Example slice_interior : Py.slice "array(1,2)" 6 (-1) = "1,2".
Proof. reflexivity. Qed.

Example str_of_values :
  Op.text (VInt (-40)) = "-40" /\ Op.text (VInt 0) = "0" /\
  Op.text (VList [VInt 1; VList [VInt 2; VInt 3]; VList []]) = "[1, [2, 3], []]".
Proof. repeat split. Qed.

Example match_plain :
  Re.match_ global_pattern "global x = 10;" = Some ["x"; "10"].
Proof. reflexivity. Qed.

Example match_tight :
  Re.match_ global_pattern "global  x_1=array(1, 2);" = Some ["x_1"; "array(1, 2)"].
Proof. reflexivity. Qed.

(** The value needs one character: the pattern gives it the space. *)
Example match_gives_back :
  Re.match_ global_pattern "global x = ;" = Some ["x"; " "].
Proof. reflexivity. Qed.

Example match_needs_semicolon :
  Re.match_ global_pattern "global x = 10" = None.
Proof. reflexivity. Qed.

Example match_needs_identifier :
  Re.match_ global_pattern "global 1x = 10;" = None.
Proof. reflexivity. Qed.

Example nested_lists_by_reference :
  fst (parse_lines ["global a = array(1, 2);"; "global b = array(a, 3);"; "^ a b +"] init)
  = inr tt /\
  constants (snd (parse_lines ["global a = array(1, 2);"; "global b = array(a, 3);"] init))
    !! "b" = Some (VList [VList [VInt 1; VInt 2]; VInt 3]).
Proof. split; vm_compute; reflexivity. Qed.

(* ===================================================================== *)
(** ** Strings: facts about the methods                                   *)
(* ===================================================================== *)

Section StringFacts.

Implicit Types (s t a b : string) (c : ascii) (p : ascii -> bool).

Lemma append_cons c a b : String c a +:+ b = String c (a +:+ b).
Proof. reflexivity. Qed.

Lemma append_nil_l a : "" +:+ a = a.
Proof. reflexivity. Qed.

Lemma append_nil_r a : a +:+ "" = a.
Proof. induction a as [|c a IH]; [reflexivity|]. rewrite append_cons, IH. reflexivity. Qed.

Lemma append_assoc a b t : (a +:+ b) +:+ t = a +:+ (b +:+ t).
Proof.
  induction a as [|c a IH]; [reflexivity|].
  rewrite !append_cons, IH. reflexivity.
Qed.

Lemma length_append a b :
  String.length (a +:+ b) = String.length a + String.length b.
Proof.
  induction a as [|c a IH]; [reflexivity|].
  rewrite append_cons. simpl. rewrite IH. reflexivity.
Qed.

Lemma startswith_append a s : Py.startswith a (a +:+ s) = true.
Proof.
  induction a as [|c a IH]; [reflexivity|].
  rewrite append_cons. simpl. rewrite Ascii.eqb_refl, IH. reflexivity.
Qed.

Lemma endswith_append a s : Py.endswith a (s +:+ a) = true.
Proof.
  induction s as [|c s IH].
  - rewrite append_nil_l. destruct a as [|d a]; [reflexivity|].
    change (Py.endswith (String d a) (String d a))
      with (String.eqb (String d a) (String d a) || Py.endswith (String d a) a).
    rewrite String.eqb_refl. reflexivity.
  - rewrite append_cons. simpl. rewrite IH. apply orb_true_r.
Qed.

Lemma startswith_head c a s :
  Py.startswith (String c a) s = true -> exists s', s = String c s'.
Proof.
  destruct s as [|d s]; simpl; [discriminate|].
  intros H. apply andb_true_iff in H as [H _].
  apply Ascii.eqb_eq in H. subst. eauto.
Qed.

Lemma substring_length_le n m s : String.length (String.substring n m s) <= m.
Proof.
  revert n m. induction s as [|c s IH]; intros [|n] [|m]; simpl; try lia.
  - specialize (IH 0 m). lia.
  - apply (IH n 0).
  - apply (IH n (S m)).
Qed.

Lemma substring_middle a s b :
  String.substring (String.length a) (String.length s) (a +:+ s +:+ b) = s.
Proof.
  induction a as [|c a IH].
  - rewrite append_nil_l. simpl.
    induction s as [|d s IHs].
    + destruct b; reflexivity.
    + rewrite append_cons. simpl. rewrite IHs. reflexivity.
  - rewrite append_cons. simpl. exact IH.
Qed.

Lemma slice_shorter s lo :
  s <> "" -> String.length (Py.slice s lo (-1)) < String.length s.
Proof.
  intros Hs. unfold Py.slice. cbv zeta.
  match goal with
  | |- String.length (String.substring ?n ?m s) < _ =>
      pose proof (substring_length_le n m s) as H;
      assert (m < String.length s); [|lia]
  end.
  clear H. destruct s as [|c s]; [congruence|].
  change (String.length (String c s)) with (S (String.length s)).
  change (-1 <? 0)%Z with true. cbv iota.
  destruct (lo <? 0)%Z eqn:E; lia.
Qed.

Lemma slice_array s : Py.slice ("array(" +:+ s +:+ ")") 6 (-1) = s.
Proof.
  unfold Py.slice. rewrite !length_append.
  change (String.length "array(") with 6. change (String.length ")") with 1.
  replace (Z.to_nat _) with (String.length "array(") by (simpl; lia).
  replace (Z.to_nat _) with (String.length s) by (simpl; lia).
  apply substring_middle.
Qed.

Lemma split_nonempty sep s : Py.split sep s <> [].
Proof.
  destruct s as [|c s]; simpl; [discriminate|].
  destruct (Ascii.eqb c sep); [discriminate|].
  destruct (Py.split sep s); discriminate.
Qed.

Lemma split_lacks sep s : lacks sep s = true -> Py.split sep s = [s].
Proof.
  induction s as [|c s IH]; [reflexivity|].
  unfold lacks. simpl. intros H. apply andb_true_iff in H as [Hc Hs].
  apply negb_true_iff in Hc. rewrite Hc, (IH Hs). reflexivity.
Qed.

Lemma split_append sep a s :
  lacks sep a = true ->
  Py.split sep (a +:+ String sep s) = a :: Py.split sep s.
Proof.
  induction a as [|c a IH].
  - intros _. rewrite append_nil_l. simpl. rewrite Ascii.eqb_refl. reflexivity.
  - unfold lacks. simpl. intros H. apply andb_true_iff in H as [Hc Ha].
    apply negb_true_iff in Hc. rewrite Hc, (IH Ha). reflexivity.
Qed.

Lemma split_length_append sep a s :
  length (Py.split sep (a +:+ String sep s)) =
  length (Py.split sep a) + length (Py.split sep s).
Proof.
  induction a as [|c a IH].
  - rewrite append_nil_l. cbn [Py.split]. rewrite Ascii.eqb_refl. reflexivity.
  - rewrite append_cons. cbn [Py.split]. destruct (Ascii.eqb c sep).
    + cbn [length]. rewrite IH. reflexivity.
    + pose proof (split_nonempty sep (a +:+ String sep s)) as H1.
      pose proof (split_nonempty sep a) as H2.
      destruct (Py.split sep (a +:+ String sep s)) as [|x xs]; [congruence|].
      destruct (Py.split sep a) as [|y ys]; [congruence|].
      cbn [length] in *. exact IH.
Qed.

Lemma split_length_comma sep s :
  lacks sep s = false -> 1 < length (Py.split sep s).
Proof.
  induction s as [|c s IH]; [discriminate|].
  unfold lacks. cbn [Py.all_chars Py.split].
  destruct (Ascii.eqb c sep) eqn:E.
  - intros _. pose proof (split_nonempty sep s) as H.
    destruct (Py.split sep s); [congruence|]. cbn [length]. lia.
  - cbn [negb andb]. intros H. specialize (IH H).
    destruct (Py.split sep s) as [|x xs]; cbn [length] in *; lia.
Qed.

Lemma split_piece_length sep s x :
  In x (Py.split sep s) -> String.length x <= String.length s.
Proof.
  revert x. induction s as [|c s IH]; intros x; simpl.
  - intros [<-|[]]. simpl. lia.
  - destruct (Ascii.eqb c sep).
    + intros [<-|H]; simpl; [lia|]. specialize (IH _ H). lia.
    + destruct (Py.split sep s) as [|piece pieces] eqn:E.
      * intros [<-|[]]. simpl. lia.
      * intros [<-|H]; simpl.
        -- specialize (IH piece (or_introl eq_refl)). lia.
        -- specialize (IH x (or_intror H)). lia.
Qed.

Lemma lstrip_length s : String.length (Py.lstrip s) <= String.length s.
Proof.
  induction s as [|c s IH]; simpl; [lia|].
  destruct (Py.isspace_char c); simpl; lia.
Qed.

Lemma rstrip_length s : String.length (Py.rstrip s) <= String.length s.
Proof.
  induction s as [|c s IH]; simpl; [lia|].
  destruct (Py.rstrip s); [destruct (Py.isspace_char c)|]; simpl in *; lia.
Qed.

Lemma strip_length s : String.length (Py.strip s) <= String.length s.
Proof.
  unfold Py.strip. pose proof (rstrip_length (Py.lstrip s)).
  pose proof (lstrip_length s). lia.
Qed.

End StringFacts.

(* ===================================================================== *)
(** ** The monad: computations that only read the session                 *)
(* ===================================================================== *)

Lemma reads_only_ret {A} (a : A) : reads_only (ret a).
Proof. intros self. reflexivity. Qed.

Lemma reads_only_raise {A} (e : exn) : reads_only (raise (A := A) e).
Proof. intros self. reflexivity. Qed.

Lemma reads_only_lift {A} (r : exn + A) : reads_only (lift r).
Proof. destruct r; intros self; reflexivity. Qed.

Lemma reads_only_bind {A B} (m : M A) (k : A -> M B) :
  reads_only m -> (forall a, reads_only (k a)) -> reads_only (bind m k).
Proof.
  intros Hm Hk self. unfold bind. specialize (Hm self).
  destruct (m self) as [[e|a] self']; simpl in *; subst; [reflexivity|].
  apply (Hk a).
Qed.

Lemma reads_only_for_each {A B} (f : A -> M B) (xs : list A) :
  (forall x, reads_only (f x)) -> reads_only (for_each f xs).
Proof.
  intros Hf. induction xs as [|x xs IH]; simpl.
  - apply reads_only_ret.
  - apply reads_only_bind; [apply Hf|]. intros y.
    apply reads_only_bind; [apply IH|]. intros ys. intros self. reflexivity.
Qed.

Lemma reads_only_result {A} (m : M A) self :
  reads_only m -> m self = (fst (m self), self).
Proof. intros H. specialize (H self). destruct (m self). simpl in *. congruence. Qed.

Lemma for_each_ext {A B} (f g : A -> M B) (xs : list A) :
  (forall x self, In x xs -> f x self = g x self) ->
  forall self, for_each f xs self = for_each g xs self.
Proof.
  induction xs as [|x xs IH]; intros H self; [reflexivity|].
  simpl. unfold bind. rewrite (H x self (or_introl eq_refl)).
  destruct (g x self) as [[e|y] self']; [reflexivity|].
  rewrite IH; [reflexivity|]. intros z s Hz. apply H. right. exact Hz.
Qed.

Lemma reads_only_get_constants : reads_only get_constants.
Proof. intros self. reflexivity. Qed.

Lemma reads_only_pop stack : reads_only (pop stack).
Proof. destruct stack; intros self; reflexivity. Qed.

Lemma reads_only_binary op stack : reads_only (binary op stack).
Proof.
  unfold binary. apply reads_only_bind; [apply reads_only_pop|]. intros [b s1].
  apply reads_only_bind; [apply reads_only_pop|]. intros [a s2].
  apply reads_only_bind; [apply reads_only_lift|]. intros r.
  apply reads_only_ret.
Qed.

Lemma reads_only_eval_token token stack : reads_only (eval_token token stack).
Proof.
  unfold eval_token. destruct (Py.isdigit token).
  - apply reads_only_bind; [apply reads_only_lift|]. intros i. apply reads_only_ret.
  - apply reads_only_bind; [apply reads_only_get_constants|]. intros cs.
    destruct (cs !! token); [apply reads_only_ret|].
    repeat match goal with
           | |- reads_only (if ?c then _ else _) => destruct c
           end;
      first [apply reads_only_binary | apply reads_only_raise].
Qed.

Lemma reads_only_eval_tokens tokens stack : reads_only (eval_tokens tokens stack).
Proof.
  revert stack. induction tokens as [|token tokens IH]; intros stack; simpl.
  - apply reads_only_ret.
  - apply reads_only_bind; [apply reads_only_eval_token|]. exact IH.
Qed.

Lemma parse_value_at_S depth value :
  parse_value_at (S depth) value =
  if Py.startswith "array(" value && Py.endswith ")" value then
    let* items :=
      for_each (fun val => parse_value_at depth (Py.strip val))
               (Py.split ","%char (Py.slice value 6 (-1))) in
    ret (VList items)
  else if Py.isdigit value then
    let* i := lift (Op.int value) in ret (VInt i)
  else
    let* constants := get_constants in
    match constants !! value with
    | Some v => ret v
    | None => raise (SyntaxError ("Invalid value: " +:+ value))
    end.
Proof. reflexivity. Qed.

Lemma reads_only_parse_value_at depth value : reads_only (parse_value_at depth value).
Proof.
  revert value. induction depth as [|depth IH]; intros value.
  - apply reads_only_raise.
  - rewrite parse_value_at_S. destruct (Py.startswith "array(" value && Py.endswith ")" value).
    + apply reads_only_bind.
      * apply reads_only_for_each. intros val. apply IH.
      * intros items. apply reads_only_ret.
    + destruct (Py.isdigit value).
      * apply reads_only_bind; [apply reads_only_lift|]. intros i. apply reads_only_ret.
      * apply reads_only_bind; [apply reads_only_get_constants|]. intros cs.
        destruct (cs !! value); [apply reads_only_ret|apply reads_only_raise].
Qed.

Lemma reads_only_parse_value value : reads_only (parse_value value).
Proof. apply reads_only_parse_value_at. Qed.

(* ===================================================================== *)
(** ** [parse_value]: the nesting bound is never reached                  *)
(* ===================================================================== *)

Lemma parse_value_depth d1 d2 value self :
  String.length value < d1 -> String.length value < d2 ->
  parse_value_at d1 value self = parse_value_at d2 value self.
Proof.
  revert d2 value self. induction d1 as [|d1 IH]; intros d2 value self H1 H2; [lia|].
  destruct d2 as [|d2]; [lia|]. rewrite !parse_value_at_S.
  destruct (Py.startswith "array(" value && Py.endswith ")" value) eqn:E; [|reflexivity].
  unfold bind.
  rewrite (for_each_ext _ (fun val => parse_value_at d2 (Py.strip val))); [reflexivity|].
  intros val s Hin. apply andb_true_iff in E as [E _].
  assert (value <> "") as Hne by (intros ->; discriminate).
  pose proof (slice_shorter value 6 Hne).
  pose proof (split_piece_length _ _ _ Hin).
  pose proof (strip_length val).
  apply IH; lia.
Qed.

(** One step of [parse_value], as the source reads. *)
Lemma parse_value_unfold value self :
  parse_value value self =
  (if Py.startswith "array(" value && Py.endswith ")" value then
     parse_array value
   else if Py.isdigit value then
     let* i := lift (Op.int value) in ret (VInt i)
   else
     let* constants := get_constants in
     match constants !! value with
     | Some v => ret v
     | None => raise (SyntaxError ("Invalid value: " +:+ value))
     end) self.
Proof.
  unfold parse_value at 1. rewrite parse_value_at_S.
  destruct (Py.startswith "array(" value && Py.endswith ")" value) eqn:E; [|reflexivity].
  unfold parse_array, bind.
  rewrite (for_each_ext _ (fun val => parse_value (Py.strip val))); [reflexivity|].
  intros val s Hin. unfold parse_value. apply andb_true_iff in E as [E _].
  assert (value <> "") as Hne by (intros ->; discriminate).
  pose proof (slice_shorter value 6 Hne).
  pose proof (split_piece_length _ _ _ Hin).
  pose proof (strip_length val).
  apply parse_value_depth; lia.
Qed.

(** The nesting bound is not an outcome of [parse_value]. *)
Lemma parse_value_total value self :
  fst (parse_value value self) <> inl RecursionError.
Proof.
  remember (String.length value) as n eqn:Hn.
  revert value Hn self. induction n as [n IH] using lt_wf_ind. intros value Hn self.
  rewrite parse_value_unfold.
  destruct (Py.startswith "array(" value && Py.endswith ")" value) eqn:E.
  - unfold parse_array, bind.
    apply andb_true_iff in E as [E _].
    assert (value <> "") as Hne by (intros ->; discriminate).
    clear E. pose proof (slice_shorter value 6 Hne) as Hs.
    assert (forall xs s,
              (forall x, In x xs ->
                 String.length x <= String.length (Py.slice value 6 (-1))) ->
              fst (for_each (fun val => parse_value (Py.strip val)) xs s)
              <> inl RecursionError) as Hall.
    { induction xs as [|x xs IHxs]; intros s Hx; [discriminate|].
      cbn [for_each]. unfold bind.
      pose proof (strip_length x). pose proof (Hx x (or_introl eq_refl)).
      assert (String.length (Py.strip x) < n) as Hlt by lia.
      pose proof (IH _ Hlt (Py.strip x) eq_refl s) as IHx.
      destruct (parse_value (Py.strip x) s) as [[e|y] s']; cbn [fst] in *;
        [intros Heq; apply IHx; injection Heq as ->; reflexivity|].
      specialize (IHxs s' (fun z Hz => Hx z (or_intror Hz))).
      destruct (for_each _ xs s') as [[e|ys] s'']; cbn [fst] in *; [exact IHxs|discriminate]. }
    specialize (Hall (Py.split "," (Py.slice value 6 (-1))) self
                     (fun x Hx => split_piece_length _ _ _ Hx)).
    destruct (for_each _ _ self) as [[e|ys] s']; cbn [fst] in *;
      [intros Heq; apply Hall; injection Heq as ->; reflexivity|discriminate].
  - destruct (Py.isdigit value).
    + unfold bind, Op.int.
      destruct (Py.all_chars Py.isdecimal_char value && Py.truthy value);
        [destruct (Py.int_max_str_digits <? String.length value)%nat|];
        cbn [lift raise ret fst]; discriminate.
    + unfold bind, get_constants. destruct (constants self !! value); cbn; discriminate.
Qed.

(* ===================================================================== *)
(** ** [add_to_xml]: the node it builds                                   *)
(* ===================================================================== *)

Lemma update_last_snoc f tag attrib txt cs e :
  update_last f (mkElement tag attrib txt (cs ++ [e])) =
  mkElement tag attrib txt (cs ++ [f e]).
Proof.
  unfold update_last. rewrite rev_unit, rev_involutive. reflexivity.
Qed.

Lemma str_printable v : Op.printable v = true -> Op.str v = inr (Op.text v).
Proof. intros H. unfold Op.str. rewrite H. reflexivity. Qed.

Lemma str_unprintable v : Op.printable v = false -> Op.str v = inl ValueError.
Proof. intros H. unfold Op.str. rewrite H. reflexivity. Qed.

Lemma add_value_child_snoc val consts tag attrib txt cs ctag cattrib ctxt kids out :
  Op.printable val = true ->
  add_value_child val
    (Session consts
       (mkElement tag attrib txt (cs ++ [mkElement ctag cattrib ctxt kids])) out) =
  (inr tt,
   Session consts
     (mkElement tag attrib txt
        (cs ++ [mkElement ctag cattrib ctxt (kids ++ [value_element val])])) out).
Proof.
  intros Hval.
  unfold add_value_child, bind at 1. rewrite (str_printable _ Hval).
  cbn [lift ret]. unfold bind, update_root. cbn [constants xml_root stdout].
  rewrite update_last_snoc. cbn [append_child].
  rewrite update_last_snoc, update_last_snoc. reflexivity.
Qed.

Lemma add_value_children items consts tag attrib txt cs ctag cattrib ctxt kids out :
  List.forallb Op.printable items = true ->
  for_each add_value_child items
    (Session consts
       (mkElement tag attrib txt (cs ++ [mkElement ctag cattrib ctxt kids])) out) =
  (inr (List.map (fun _ => tt) items),
   Session consts
     (mkElement tag attrib txt
        (cs ++ [mkElement ctag cattrib ctxt (kids ++ List.map value_element items)]))
     out).
Proof.
  revert kids. induction items as [|val items IH]; intros kids Hall.
  - cbn [for_each List.map]. rewrite app_nil_r. reflexivity.
  - cbn [List.forallb] in Hall. apply andb_true_iff in Hall as [Hval Hall].
    cbn [for_each List.map]. unfold bind at 1.
    rewrite (add_value_child_snoc _ _ _ _ _ _ _ _ _ _ _ Hval).
    unfold bind at 1. rewrite (IH _ Hall). rewrite <- app_assoc. reflexivity.
Qed.

Lemma add_value_children_fail items self :
  List.forallb Op.printable items = false ->
  fst (for_each add_value_child items self) = inl ValueError.
Proof.
  revert self. induction items as [|val items IH]; intros self; [discriminate|].
  cbn [List.forallb for_each]. unfold bind at 1.
  destruct (Op.printable val) eqn:Hval.
  - cbn [andb]. intros Hall.
    destruct (add_value_child val self) as [[e|u] self1] eqn:E.
    + unfold add_value_child, bind at 1 in E. rewrite (str_printable _ Hval) in E.
      cbn [lift ret] in E. unfold bind, update_root in E. discriminate E.
    + unfold bind at 1. specialize (IH self1 Hall).
      destruct (for_each add_value_child items self1) as [[e|us] self2];
        cbn [fst] in *; [exact IH|discriminate].
  - intros _. unfold add_value_child, bind at 1.
    rewrite (str_unprintable _ Hval). reflexivity.
Qed.

(** What [add_to_xml] does with a value that [str] converts. *)
Lemma add_to_xml_appends name v self :
  Op.printable v = true ->
  add_to_xml name v self =
  (inr tt,
   Session (constants self)
           (append_child (xml_root self) (constant_element name v))
           (stdout self)).
Proof.
  intros Hv. destruct self as [consts [tag attrib txt cs] out].
  unfold add_to_xml, bind at 1, update_root. cbn [constants xml_root stdout append_child].
  destruct v as [i|items].
  - unfold bind. rewrite (str_printable _ Hv). cbn [lift ret].
    cbn [constants xml_root stdout]. rewrite update_last_snoc. reflexivity.
  - unfold bind. rewrite (add_value_children items consts tag attrib txt cs
                            "constant" [("name", name)] None [] out Hv).
    reflexivity.
Qed.

(** With any other value it raises the [ValueError] of [str], after the
    [constant] node has been appended. *)
Lemma add_to_xml_fails name v self :
  Op.printable v = false -> fst (add_to_xml name v self) = inl ValueError.
Proof.
  intros Hv. unfold add_to_xml, bind at 1, update_root.
  destruct v as [i|items].
  - unfold bind. rewrite (str_unprintable _ Hv). reflexivity.
  - unfold bind at 1.
    pose proof (add_value_children_fail items
                  (Session (constants self)
                     (append_child (xml_root self)
                        (mkElement "constant" [("name", name)] None []))
                     (stdout self)) Hv) as H.
    destruct (for_each add_value_child items _) as [[e|us] self1];
      cbn [fst] in *; [injection H as ->; reflexivity|discriminate].
Qed.

(* ===================================================================== *)
(** ** The matcher on a declaration                                       *)
(* ===================================================================== *)

Section Matcher.

Implicit Types (s t a : string) (c : ascii) (p : ascii -> bool)
         (items : list Re.item) (opened groups : list string).

Lemma run_lit text items s s' opened groups :
  Re.eat text s = Some s' ->
  Re.run (Re.Lit text :: items) s opened groups = Re.run items s' opened groups.
Proof. intros H. cbn [Re.run]. rewrite H. reflexivity. Qed.

Lemma run_lit_fail text items s opened groups :
  Re.eat text s = None ->
  Re.run (Re.Lit text :: items) s opened groups = None.
Proof. intros H. cbn [Re.run]. rewrite H. reflexivity. Qed.

Lemma run_class p items c s opened groups :
  p c = true ->
  Re.run (Re.Class p :: items) (String c s) opened groups =
  Re.run items s opened groups.
Proof. intros H. cbn [Re.run]. rewrite H. reflexivity. Qed.

Lemma run_open items s opened groups :
  Re.run (Re.Open :: items) s opened groups = Re.run items s (s :: opened) groups.
Proof. reflexivity. Qed.

Lemma run_close items s start opened groups :
  Re.run (Re.Close :: items) s (start :: opened) groups =
  Re.run items s opened
         (Re.take (String.length start - String.length s) start :: groups).
Proof. reflexivity. Qed.

Lemma longest_first_found {A} (k : nat -> option A) least extra m r :
  least <= m <= least + extra ->
  k m = Some r ->
  (forall j, m < j <= least + extra -> k j = None) ->
  Re.longest_first k least extra = Some r.
Proof.
  revert m. induction extra as [|extra IH]; intros m Hm Hk Hlater.
  - replace m with (least + 0) in Hk by lia. cbn [Re.longest_first]. rewrite Hk. reflexivity.
  - cbn [Re.longest_first].
    destruct (Nat.eq_dec m (least + S extra)) as [->|Hne].
    + rewrite Hk. reflexivity.
    + rewrite (Hlater (least + S extra)) by lia.
      apply (IH m); [lia|exact Hk|]. intros j Hj. apply Hlater. lia.
Qed.

(** A greedy repetition gives back characters until the rest of the pattern
    matches: the longest run whose continuation succeeds is the one taken. *)
Lemma run_rep least p items s opened groups m r :
  least <= m <= Re.span p s ->
  Re.run items (Re.drop m s) opened groups = Some r ->
  (forall j, m < j <= Re.span p s ->
             Re.run items (Re.drop j s) opened groups = None) ->
  Re.run (Re.Rep least p :: items) s opened groups = Some r.
Proof.
  intros Hm Hk Hlater. cbn [Re.run]. cbv zeta.
  destruct (Nat.ltb_spec (Re.span p s) least) as [Hlt|Hge]; [lia|].
  apply (longest_first_found _ least _ m); [lia|exact Hk|].
  intros j Hj. apply Hlater. lia.
Qed.

Lemma eat_append text s : Re.eat text (text +:+ s) = Some s.
Proof.
  induction text as [|c text IH]; [destruct s; reflexivity|].
  rewrite append_cons. cbn [Re.eat]. rewrite Ascii.eqb_refl. exact IH.
Qed.

Lemma span_append p a s :
  Py.all_chars p a = true ->
  Re.span p (a +:+ s) = String.length a + Re.span p s.
Proof.
  induction a as [|c a IH]; [reflexivity|].
  cbn [Py.all_chars]. intros H. apply andb_true_iff in H as [Hc Ha].
  rewrite append_cons. cbn [Re.span String.length]. rewrite Hc, (IH Ha). reflexivity.
Qed.

Lemma span_stop p c s : p c = false -> Re.span p (String c s) = 0.
Proof. intros H. cbn [Re.span]. rewrite H. reflexivity. Qed.

Lemma drop_append a s : Re.drop (String.length a) (a +:+ s) = s.
Proof.
  induction a as [|c a IH]; [destruct s; reflexivity|].
  rewrite append_cons. exact IH.
Qed.

Lemma drop_append_more a s i :
  Re.drop (String.length a + i) (a +:+ s) = Re.drop i s.
Proof.
  induction a as [|c a IH]; [reflexivity|].
  rewrite append_cons. exact IH.
Qed.

Lemma take_append a s : Re.take (String.length a) (a +:+ s) = a.
Proof.
  induction a as [|c a IH]; [destruct s; reflexivity|].
  rewrite append_cons. cbn [String.length Re.take]. rewrite IH. reflexivity.
Qed.

Lemma eat_drop_lacks c t i :
  lacks c t = true -> Re.eat (String c "") (Re.drop i t) = None.
Proof.
  revert i. induction t as [|d t IH]; intros i H.
  - destruct i; reflexivity.
  - unfold lacks in H. cbn [Py.all_chars] in H. apply andb_true_iff in H as [Hd Ht].
    destruct i as [|i]; [|exact (IH i Ht)].
    cbn [Re.drop Re.eat]. apply negb_true_iff in Hd.
    rewrite Ascii.eqb_sym, Hd. reflexivity.
Qed.

Lemma ident_start_not_space c : Re.ident_start c = true -> Py.isspace_char c = false.
Proof.
  destruct c as [[] [] [] [] [] [] [] []]; vm_compute; congruence.
Qed.

Lemma digit_not_space c : Py.isdigit_char c = true -> Py.isspace_char c = false.
Proof.
  destruct c as [[] [] [] [] [] [] [] []]; vm_compute; congruence.
Qed.

(** The groups of the pattern on a declaration in the usual layout, with
    any text [t] free of [;] after the last [;]. *)
Lemma match_declaration c name' d v' t :
  Re.ident_start c = true ->
  Py.all_chars Re.ident_char name' = true ->
  Py.isspace_char d = false ->
  lacks "010"%char (String d v') = true ->
  lacks ";"%char t = true ->
  Re.match_ global_pattern
    ("global " +:+ String c name' +:+ " = " +:+ String d v' +:+ ";" +:+ t) =
  Some [String c name'; String d v'].
Proof.
  intros Hc Hname Hd Hv Ht.
  set (name := String c name'). set (v := String d v').
  unfold Re.match_, global_pattern.
  rewrite (run_lit "global" _ _ (" " +:+ name +:+ " = " +:+ v +:+ ";" +:+ t))
    by reflexivity.
  (* \s+ takes the one space: the name does not start with a space *)
  apply (run_rep _ _ _ _ _ _ 1).
  { subst name. change (" " +:+ String c name' +:+ ?r)
      with (String " " (String c (name' +:+ r))).
    cbn [Re.span]. change (Re.space " ") with true. cbv iota.
    unfold Re.space. rewrite (ident_start_not_space c Hc). lia. }
  2:{ intros j Hj. exfalso. subst name.
      change (" " +:+ String c name' +:+ ?r)
        with (String " " (String c (name' +:+ r))) in Hj.
      cbn [Re.span] in Hj. change (Re.space " ") with true in Hj. cbv iota in Hj.
      unfold Re.space in Hj. rewrite (ident_start_not_space c Hc) in Hj. lia. }
  change (Re.drop 1 (" " +:+ name +:+ ?r)) with (name +:+ r).
  rewrite run_open. subst name. rewrite append_cons.
  rewrite (run_class _ _ _ _ _ _ Hc).
  (* [_a-zA-Z0-9]* takes the rest of the name *)
  assert (Re.span Re.ident_char (name' +:+ " = " +:+ v +:+ ";" +:+ t)
          = String.length name') as Hspan.
  { rewrite (span_append _ _ _ Hname). change (" = " +:+ ?r) with (String " " ("= " +:+ r)).
    rewrite span_stop by reflexivity. lia. }
  apply (run_rep _ _ _ _ _ _ (String.length name')); [lia| |intros j Hj; lia].
  rewrite drop_append, run_close.
  replace (String.length (String c (name' +:+ " = " +:+ v +:+ ";" +:+ t))
           - String.length (" = " +:+ v +:+ ";" +:+ t))
    with (String.length (String c name'))
    by (cbn [String.length]; rewrite length_append; lia).
  rewrite <- append_cons, take_append.
  (* \s*, =, \s* *)
  assert (Re.span Re.space (" = " +:+ v +:+ ";" +:+ t) = 1) as Heq by reflexivity.
  apply (run_rep _ _ _ _ _ _ 1); [lia| |intros j Hj; lia].
  change (Re.drop 1 (" = " +:+ ?r)) with ("= " +:+ r).
  rewrite (run_lit "=" _ _ (" " +:+ v +:+ ";" +:+ t)) by reflexivity.
  assert (Re.span Re.space (" " +:+ v +:+ ";" +:+ t) = 1) as Hsp.
  { subst v. change (" " +:+ String d v' +:+ ?r) with (String " " (String d (v' +:+ r))).
    cbn [Re.span]. change (Re.space " ") with true. cbv iota.
    unfold Re.space. rewrite Hd. reflexivity. }
  apply (run_rep _ _ _ _ _ _ 1); [lia| |intros j Hj; lia].
  change (Re.drop 1 (" " +:+ ?r)) with r.
  rewrite run_open.
  (* .+ runs to the end of the line and gives back as far as the last ; *)
  assert (Py.all_chars Re.dot v = true) as Hdot.
  { clear -Hv. unfold lacks in Hv. exact Hv. }
  assert (Re.span Re.dot (v +:+ ";" +:+ t) = String.length v + S (Re.span Re.dot t)) as Hall.
  { rewrite (span_append _ _ _ Hdot). change (";" +:+ t) with (String ";" t).
    cbn [Re.span]. change (Re.dot ";") with true. reflexivity. }
  apply (run_rep _ _ _ _ _ _ (String.length v)).
  - subst v. cbn [String.length] in *. lia.
  - rewrite drop_append, run_close.
    replace (String.length (v +:+ ";" +:+ t) - String.length (";" +:+ t))
      with (String.length v) by (rewrite length_append; lia).
    rewrite take_append.
    rewrite (run_lit ";" _ _ t) by reflexivity. reflexivity.
  - intros j Hj. rewrite run_close. apply run_lit_fail.
    replace j with (String.length v + S (j - String.length v - 1)) by lia.
    rewrite drop_append_more. change (";" +:+ t) with (String ";" t).
    cbn [Re.drop]. apply eat_drop_lacks. exact Ht.
Qed.

Lemma longest_first_some {A} (k : nat -> option A) least extra r :
  Re.longest_first k least extra = Some r ->
  exists j, least <= j <= least + extra /\ k j = Some r.
Proof.
  induction extra as [|extra IH]; cbn [Re.longest_first].
  - destruct (k (least + 0)) eqn:E; [|discriminate].
    intros [= <-]. exists (least + 0). split; [lia|exact E].
  - destruct (k (least + S extra)) eqn:E.
    + intros [= <-]. exists (least + S extra). split; [lia|exact E].
    + intros H. destruct (IH H) as (j & Hj & Hk). exists j. split; [lia|exact Hk].
Qed.

Lemma run_rep_some least p items s opened groups r :
  Re.run (Re.Rep least p :: items) s opened groups = Some r ->
  exists j, least <= j <= Re.span p s /\
            Re.run items (Re.drop j s) opened groups = Some r.
Proof.
  cbn [Re.run]. cbv zeta.
  destruct (Nat.ltb_spec (Re.span p s) least) as [Hlt|Hge]; [discriminate|].
  intros H. apply longest_first_some in H as (j & Hj & Hk).
  exists j. split; [lia|exact Hk].
Qed.

(** Groups already closed stay as they are in the result. *)
Lemma run_keeps_groups items s opened groups r :
  Re.run items s opened groups = Some r ->
  exists more, r = (rev groups ++ more)%list.
Proof.
  revert s opened groups.
  induction items as [|[text|p|least p| |] items IH]; intros s opened groups H.
  - cbn [Re.run] in H. injection H as <-. exists []. rewrite app_nil_r. reflexivity.
  - cbn [Re.run] in H. destruct (Re.eat text s); [|discriminate]. exact (IH _ _ _ H).
  - cbn [Re.run] in H. destruct s as [|c s]; [discriminate|].
    destruct (p c); [|discriminate]. exact (IH _ _ _ H).
  - apply run_rep_some in H as (j & _ & H). exact (IH _ _ _ H).
  - rewrite run_open in H. exact (IH _ _ _ H).
  - destruct opened as [|start opened]; [discriminate|].
    rewrite run_close in H. destruct (IH _ _ _ H) as [more ->].
    cbn [rev]. rewrite <- app_assoc. eauto.
Qed.

Lemma span_le_length p s : Re.span p s <= String.length s.
Proof.
  induction s as [|c s IH]; cbn [Re.span String.length]; [lia|].
  destruct (p c); lia.
Qed.

Lemma length_drop j s :
  j <= String.length s -> String.length (Re.drop j s) = String.length s - j.
Proof.
  revert j. induction s as [|c s IH]; intros [|j] H; cbn [Re.drop String.length] in *;
    try lia.
  apply IH. lia.
Qed.

Lemma all_chars_take_span p j s :
  j <= Re.span p s -> Py.all_chars p (Re.take j s) = true.
Proof.
  revert j. induction s as [|c s IH]; intros [|j] H; try reflexivity.
  cbn [Re.span] in H. cbn [Re.take Py.all_chars].
  destruct (p c); [|lia]. rewrite IH by lia. reflexivity.
Qed.

Lemma run_lit_some text items s opened groups r :
  Re.run (Re.Lit text :: items) s opened groups = Some r ->
  exists s', Re.eat text s = Some s' /\ Re.run items s' opened groups = Some r.
Proof.
  cbn [Re.run]. destruct (Re.eat text s) as [s'|]; [|discriminate]. eauto.
Qed.

Lemma run_class_some p items s opened groups r :
  Re.run (Re.Class p :: items) s opened groups = Some r ->
  exists c s', s = String c s' /\ p c = true /\
               Re.run items s' opened groups = Some r.
Proof.
  cbn [Re.run]. destruct s as [|c s']; [discriminate|].
  destruct (p c) eqn:E; [|discriminate]. eauto.
Qed.

(** Whatever the line, the first group of the pattern is an identifier. *)
Lemma match_name_identifier line name value :
  Re.match_ global_pattern line = Some [name; value] -> is_identifier name = true.
Proof.
  unfold Re.match_, global_pattern. intros H.
  apply run_lit_some in H as (s1 & _ & H).
  apply run_rep_some in H as (j1 & _ & H).
  rewrite run_open in H.
  apply run_class_some in H as (c & s3 & E & Hc & H). rewrite E in H.
  apply run_rep_some in H as (j2 & Hj2 & H).
  rewrite run_close in H. apply run_keeps_groups in H as [more Hr].
  cbn [rev app] in Hr. injection Hr as -> _.
  pose proof (span_le_length Re.ident_char s3).
  rewrite length_drop by lia. cbn [String.length].
  replace (S (String.length s3) - (String.length s3 - j2)) with (S j2) by lia.
  cbn [Re.take is_identifier]. rewrite Hc.
  rewrite all_chars_take_span by lia. reflexivity.
Qed.

End Matcher.

(* ===================================================================== *)
(** ** Values that [str] converts                                         *)
(* ===================================================================== *)

Lemma for_each_length {A B} (f : A -> M B) xs ys self :
  fst (for_each f xs self) = inr ys -> length ys = length xs.
Proof.
  revert ys self. induction xs as [|x xs IH]; intros ys self.
  - cbn. intros [= <-]. reflexivity.
  - cbn [for_each]. unfold bind.
    destruct (f x self) as [[e|y] self1]; [discriminate|].
    destruct (for_each f xs self1) as [[e|ys1] self2] eqn:E; [discriminate|].
    cbn. intros [= <-]. cbn [length]. f_equal.
    apply (IH ys1 self1). rewrite E. reflexivity.
Qed.

Lemma for_each_results {A B} (f : A -> M B) xs ys self :
  (forall x, reads_only (f x)) ->
  fst (for_each f xs self) = inr ys ->
  Forall2 (fun x y => fst (f x self) = inr y) xs ys.
Proof.
  intros Hf. revert ys. induction xs as [|x xs IH]; intros ys.
  - cbn. intros [= <-]. constructor.
  - cbn [for_each]. unfold bind.
    rewrite (reads_only_result _ self (Hf x)).
    destruct (fst (f x self)) as [e|y] eqn:Hy; [discriminate|].
    rewrite (reads_only_result _ self (reads_only_for_each f xs Hf)).
    destruct (fst (for_each f xs self)) as [e|ys1] eqn:Hys; [discriminate|].
    cbn. intros [= <-]. constructor; [exact Hy|]. apply IH. reflexivity.
Qed.

Lemma decimal_value_nonneg s acc :
  (0 <= acc)%Z -> Py.all_chars Py.isdecimal_char s = true ->
  (0 <= Py.decimal_value acc s)%Z.
Proof.
  revert acc. induction s as [|c s IH]; intros acc Hacc H; [exact Hacc|].
  cbn [Py.all_chars Py.decimal_value] in *. apply andb_true_iff in H as [Hc Hs].
  apply IH; [|exact Hs].
  unfold Py.isdecimal_char in Hc. apply andb_true_iff in Hc as [H1 H2].
  apply N.leb_le in H1. lia.
Qed.

Lemma string_of_uint_decimal d :
  Py.all_chars Py.isdecimal_char (NilEmpty.string_of_uint d) = true.
Proof. induction d; cbn [NilEmpty.string_of_uint Py.all_chars]; try rewrite IHd; reflexivity. Qed.

Lemma decimal_value_of_uint d acc z :
  z = Z.pos acc ->
  Py.decimal_value z (NilEmpty.string_of_uint d) = Z.pos (Pos.of_uint_acc d acc).
Proof.
  revert acc z. induction d; intros acc z ->;
    cbn [NilEmpty.string_of_uint Py.decimal_value Pos.of_uint_acc];
    [reflexivity|..]; apply IHd;
    match goal with
    | |- context [N_of_ascii ?c] =>
        let n := eval vm_compute in (Z.of_N (N_of_ascii c)) in
        change (Z.of_N (N_of_ascii c)) with n
    end; lia.
Qed.

Lemma decimal_value_of_uint_0 d :
  Py.decimal_value 0 (NilEmpty.string_of_uint d) = Z.of_N (Pos.of_uint d).
Proof.
  induction d; cbn [NilEmpty.string_of_uint Py.decimal_value Pos.of_uint];
    [reflexivity|exact IHd|..];
    (erewrite decimal_value_of_uint by reflexivity; reflexivity).
Qed.

Lemma string_of_uint_length d :
  String.length (NilEmpty.string_of_uint d) = Decimal.nb_digits d.
Proof. induction d; cbn [NilEmpty.string_of_uint String.length Decimal.nb_digits]; congruence. Qed.

Lemma decimal_char_cases c :
  Py.isdecimal_char c = true ->
  c = "0"%char \/ c = "1"%char \/ c = "2"%char \/ c = "3"%char \/ c = "4"%char \/
  c = "5"%char \/ c = "6"%char \/ c = "7"%char \/ c = "8"%char \/ c = "9"%char.
Proof.
  destruct c as [[] [] [] [] [] [] [] []]; vm_compute; intros H;
    first [discriminate H | tauto].
Qed.

(** A string of decimal digits is the text of a [Decimal.uint]. *)
Lemma decimal_string_uint s :
  Py.all_chars Py.isdecimal_char s = true ->
  exists d, NilEmpty.string_of_uint d = s.
Proof.
  induction s as [|c s IH]; [exists Decimal.Nil; reflexivity|].
  cbn [Py.all_chars]. intros H. apply andb_true_iff in H as [Hc Hs].
  destruct (IH Hs) as [d <-].
  destruct (decimal_char_cases c Hc) as [->|[->|[->|[->|[->|[->|[->|[->|[->| ->]]]]]]]]];
    [exists (Decimal.D0 d)|exists (Decimal.D1 d)|exists (Decimal.D2 d)
    |exists (Decimal.D3 d)|exists (Decimal.D4 d)|exists (Decimal.D5 d)
    |exists (Decimal.D6 d)|exists (Decimal.D7 d)|exists (Decimal.D8 d)
    |exists (Decimal.D9 d)]; reflexivity.
Qed.

(** The text of the integer a literal denotes is no longer than the
    literal: leading zeros apart, it is the literal. *)
Lemma decimal_text_length s :
  s <> "" -> Py.all_chars Py.isdecimal_char s = true ->
  String.length (Py.decimal_text (Py.decimal_value 0 s)) <= String.length s.
Proof.
  intros Hne Hs. destruct (decimal_string_uint s Hs) as [d <-].
  rewrite decimal_value_of_uint_0, string_of_uint_length.
  assert (d <> Decimal.Nil) as Hd by (intros ->; apply Hne; reflexivity).
  unfold Py.decimal_text.
  pose proof (DecimalFacts.nb_digits_unorm d Hd) as Hlen.
  assert (Z.to_int (Z.of_N (Pos.of_uint d)) = Decimal.Pos (Decimal.unorm d)) as ->.
  { rewrite <- DecimalPos.Unsigned.to_of. destruct (Pos.of_uint d); reflexivity. }
  cbn [NilZero.string_of_int].
  assert (NilZero.string_of_uint (Decimal.unorm d)
          = NilEmpty.string_of_uint (Decimal.unorm d)) as ->.
  { assert (Decimal.unorm d <> Decimal.Nil) as Hnn
      by (unfold Decimal.unorm; destruct (Decimal.nzhead d); discriminate).
    destruct (Decimal.unorm d); [now elim Hnn|reflexivity..]. }
  rewrite string_of_uint_length. exact Hlen.
Qed.

Lemma int_printable s i : Op.int s = inr i -> Op.printable (VInt i) = true.
Proof.
  unfold Op.int.
  destruct (Py.all_chars Py.isdecimal_char s && Py.truthy s) eqn:Hd; [|discriminate].
  destruct (Nat.ltb_spec Py.int_max_str_digits (String.length s)) as [Hlong|Hlen];
    [discriminate|].
  intros [= <-]. apply andb_true_iff in Hd as [Hd Hne].
  cbn [Op.printable]. rewrite Z.abs_eq by (apply decimal_value_nonneg; [lia|exact Hd]).
  apply Nat.leb_le.
  assert (s <> "") as Hs by (intros ->; discriminate Hne).
  pose proof (decimal_text_length s Hs Hd). lia.
Qed.

(** What [parse_value] returns has a text, when every constant of the
    session has one. *)
Lemma parse_value_at_printable depth value v self :
  printable_table self ->
  fst (parse_value_at depth value self) = inr v -> Op.printable v = true.
Proof.
  intros Htable. revert value v.
  induction depth as [|depth IH]; intros value v; [discriminate|].
  rewrite parse_value_at_S.
  destruct (Py.startswith "array(" value && Py.endswith ")" value).
  - unfold bind.
    rewrite (reads_only_result _ self
               (reads_only_for_each _ _ (fun val => reads_only_parse_value_at depth _))).
    destruct (fst (for_each _ _ self)) as [e|items] eqn:E; [discriminate|].
    cbn. intros [= <-].
    apply for_each_results in E;
      [|intros val; apply reads_only_parse_value_at].
    cbn [Op.printable].
    induction E as [|x y xs ys Hxy _ IHE]; [reflexivity|].
    cbn [List.forallb]. rewrite (IH _ _ Hxy), IHE. reflexivity.
  - destruct (Py.isdigit value).
    + unfold bind. destruct (Op.int value) as [e|i] eqn:Hi; [discriminate|].
      cbn. intros [= <-]. exact (int_printable _ _ Hi).
    + unfold bind, get_constants.
      destruct (constants self !! value) as [w|] eqn:Hw; [|discriminate].
      cbn. intros [= <-]. exact (Htable _ _ Hw).
Qed.

Lemma parse_value_printable value v self :
  printable_table self ->
  fst (parse_value value self) = inr v -> Op.printable v = true.
Proof. apply parse_value_at_printable. Qed.

Lemma printable_table_init : printable_table init.
Proof. intros key v H. cbn in H. rewrite lookup_empty in H. discriminate. Qed.

Lemma printable_table_declared name v self :
  Op.printable v = true -> printable_table self ->
  printable_table (declared name v self).
Proof.
  intros Hv Htable key w. cbn [declared constants].
  destruct (decide (name = key)) as [<-|Hne].
  - rewrite lookup_insert_eq. intros [= <-]. exact Hv.
  - rewrite lookup_insert_ne by exact Hne. apply Htable.
Qed.

Lemma printable_table_reported result self :
  printable_table self -> printable_table (reported result self).
Proof. intros H. exact H. Qed.

(* ===================================================================== *)
(** ** Outcomes of the methods                                            *)
(* ===================================================================== *)

Lemma parse_global_matched line name value v self :
  Re.match_ global_pattern line = Some [name; value] ->
  fst (parse_value value self) = inr v ->
  Op.printable v = true ->
  parse_global line self = (inr tt, declared name v self).
Proof.
  intros H Hv Hp. unfold parse_global. rewrite H. unfold bind at 1.
  rewrite (reads_only_result _ self (reads_only_parse_value value)), Hv.
  unfold bind, set_constant. rewrite (add_to_xml_appends _ _ _ Hp). reflexivity.
Qed.

Lemma parse_global_literal_fails line name value e self :
  Re.match_ global_pattern line = Some [name; value] ->
  fst (parse_value value self) = inl e ->
  parse_global line self = (inl e, self).
Proof.
  intros H Hv. unfold parse_global. rewrite H. unfold bind at 1.
  rewrite (reads_only_result _ self (reads_only_parse_value value)), Hv.
  reflexivity.
Qed.

(** In a session whose constants all have a text, a matched declaration
    either fails in [parse_value] and leaves the session as it was, or
    binds the name and appends its node. *)
Lemma parse_global_outcome line name value self :
  printable_table self ->
  Re.match_ global_pattern line = Some [name; value] ->
  parse_global line self =
  match fst (parse_value value self) with
  | inr v => (inr tt, declared name v self)
  | inl e => (inl e, self)
  end.
Proof.
  intros Htable H.
  destruct (fst (parse_value value self)) as [e|v] eqn:Hv.
  - exact (parse_global_literal_fails _ _ _ _ _ H Hv).
  - exact (parse_global_matched _ _ _ _ _ H Hv (parse_value_printable _ _ _ Htable Hv)).
Qed.

Lemma parse_global_unmatched line self :
  Re.match_ global_pattern line = None ->
  parse_global line self =
  (inl (SyntaxError ("Invalid global declaration: " +:+ line)), self).
Proof. intros H. unfold parse_global. rewrite H. reflexivity. Qed.

Lemma match_two_groups line r :
  Re.match_ global_pattern line = Some r -> exists name value, r = [name; value].
Proof.
  unfold Re.match_, global_pattern. intros H.
  apply run_lit_some in H as (s1 & _ & H).
  apply run_rep_some in H as (j1 & _ & H).
  rewrite run_open in H.
  apply run_class_some in H as (c & s3 & _ & _ & H).
  apply run_rep_some in H as (j2 & _ & H).
  rewrite run_close in H.
  apply run_rep_some in H as (j3 & _ & H).
  apply run_lit_some in H as (s4 & _ & H).
  apply run_rep_some in H as (j4 & _ & H).
  rewrite run_open in H.
  apply run_rep_some in H as (j5 & _ & H).
  rewrite run_close in H.
  apply run_lit_some in H as (s5 & _ & H).
  cbn [Re.run rev app] in H. injection H as <-. eauto.
Qed.

(** A declaration that succeeds has bound a value that [str] converts. *)
Lemma parse_global_success line self self' :
  parse_global line self = (inr tt, self') ->
  exists name value v,
    Re.match_ global_pattern line = Some [name; value] /\
    fst (parse_value value self) = inr v /\
    Op.printable v = true /\
    self' = declared name v self.
Proof.
  unfold parse_global.
  destruct (Re.match_ global_pattern line) as [r|] eqn:E; [|discriminate].
  destruct (match_two_groups _ _ E) as (name & value & ->).
  unfold bind at 1.
  rewrite (reads_only_result _ self (reads_only_parse_value value)).
  destruct (fst (parse_value value self)) as [e|v] eqn:Hv; [discriminate|].
  destruct (Op.printable v) eqn:Hp.
  - unfold bind, set_constant. rewrite (add_to_xml_appends _ _ _ Hp).
    intros [= <-]. exists name, value, v. repeat split; assumption.
  - unfold bind, set_constant.
    pose proof (add_to_xml_fails name v
                  (Session (<[name:=v]> (constants self)) (xml_root self) (stdout self))
                  Hp) as Hfail.
    destruct (add_to_xml name v _) as [[e|u] self1]; [discriminate|].
    discriminate Hfail.
Qed.

Lemma evaluate_expression_outcome expression self :
  evaluate_expression expression self =
  match fst (eval_tokens (Py.split_whitespace expression) [] self) with
  | inl e => (inl e, self)
  | inr [result] =>
      if Op.printable result then (inr result, reported result self)
      else (inl ValueError, self)
  | inr _ => (inl (SyntaxError ("Invalid expression: " +:+ expression)), self)
  end.
Proof.
  unfold evaluate_expression. cbv zeta. unfold bind at 1.
  rewrite (reads_only_result _ self (reads_only_eval_tokens _ [])).
  destruct (fst (eval_tokens _ [] self)) as [e|[|result [|x stack]]]; try reflexivity.
  cbn [fst]. unfold bind, pop, Op.str. cbn [negb length Nat.eqb ret].
  destruct (Op.printable result); reflexivity.
Qed.

Lemma eval_tokens_app pre post stack self :
  eval_tokens (pre ++ post) stack self =
  match fst (eval_tokens pre stack self) with
  | inl e => (inl e, self)
  | inr stack' => eval_tokens post stack' self
  end.
Proof.
  revert stack. induction pre as [|token pre IH]; intros stack; [reflexivity|].
  cbn [app eval_tokens]. unfold bind.
  rewrite (reads_only_result _ self (reads_only_eval_token token stack)).
  destruct (fst (eval_token token stack self)) as [e|stack1]; [reflexivity|].
  apply IH.
Qed.

(* ===================================================================== *)
(** ** The keys of the dictionary are identifiers                         *)
(* ===================================================================== *)

Lemma well_formed_init : well_formed init.
Proof. intros key v H. cbn in H. rewrite lookup_empty in H. discriminate. Qed.

Lemma well_formed_declared name v self :
  is_identifier name = true -> well_formed self -> well_formed (declared name v self).
Proof.
  intros Hname Hwf key w. cbn [declared constants].
  destruct (decide (name = key)) as [<-|Hne].
  - intros _. exact Hname.
  - rewrite lookup_insert_ne by exact Hne. apply Hwf.
Qed.

Lemma well_formed_missing key self :
  well_formed self -> is_identifier key = false -> constants self !! key = None.
Proof.
  intros Hwf Hkey. destruct (constants self !! key) as [v|] eqn:E; [|reflexivity].
  rewrite (Hwf _ _ E) in Hkey. discriminate.
Qed.

Lemma parse_line_well_formed line self :
  printable_table self -> well_formed self ->
  well_formed (snd (parse_line line self)).
Proof.
  intros Htable Hwf. unfold parse_line.
  destruct (negb (Py.truthy line) || Py.startswith "#" line); [exact Hwf|].
  destruct (Py.startswith "global " line).
  - destruct (Re.match_ global_pattern line) as [r|] eqn:E.
    + destruct (match_two_groups _ _ E) as (name & value & ->).
      rewrite (parse_global_outcome _ _ _ _ Htable E).
      destruct (fst (parse_value value self)); [exact Hwf|].
      apply well_formed_declared; [|exact Hwf].
      exact (match_name_identifier _ _ _ E).
    + rewrite (parse_global_unmatched _ _ E). exact Hwf.
  - destruct (Py.startswith "^" line); [|exact Hwf].
    unfold bind. rewrite evaluate_expression_outcome.
    destruct (fst (eval_tokens _ [] self)) as [e|[|result [|x stack]]];
      try exact Hwf.
    destruct (Op.printable result); exact Hwf.
Qed.

Lemma parse_line_printable line self :
  printable_table self -> printable_table (snd (parse_line line self)).
Proof.
  intros Htable. unfold parse_line.
  destruct (negb (Py.truthy line) || Py.startswith "#" line); [exact Htable|].
  destruct (Py.startswith "global " line).
  - destruct (Re.match_ global_pattern line) as [r|] eqn:E.
    + destruct (match_two_groups _ _ E) as (name & value & ->).
      rewrite (parse_global_outcome _ _ _ _ Htable E).
      destruct (fst (parse_value value self)) as [e|v] eqn:Hv; [exact Htable|].
      apply printable_table_declared; [|exact Htable].
      exact (parse_value_printable _ _ _ Htable Hv).
    + rewrite (parse_global_unmatched _ _ E). exact Htable.
  - destruct (Py.startswith "^" line); [|exact Htable].
    unfold bind. rewrite evaluate_expression_outcome.
    destruct (fst (eval_tokens _ [] self)) as [e|[|result [|x stack]]];
      try exact Htable.
    destruct (Op.printable result); exact Htable.
Qed.

(** Every session that [parse_lines] reaches from a fresh parser has
    identifiers as keys and values that [str] converts. *)
Lemma parse_lines_printable lines self :
  printable_table self -> printable_table (snd (parse_lines lines self)).
Proof.
  revert self. induction lines as [|line lines IH]; intros self Htable; [exact Htable|].
  cbn [parse_lines]. unfold bind.
  pose proof (parse_line_printable (Py.strip line) self Htable) as H.
  destruct (parse_line (Py.strip line) self) as [[e|[]] self']; [exact H|].
  apply IH. exact H.
Qed.

Lemma parse_lines_well_formed lines self :
  printable_table self -> well_formed self ->
  well_formed (snd (parse_lines lines self)).
Proof.
  revert self. induction lines as [|line lines IH]; intros self Htable Hwf;
    [exact Hwf|].
  cbn [parse_lines]. unfold bind.
  pose proof (parse_line_well_formed (Py.strip line) self Htable Hwf) as H.
  pose proof (parse_line_printable (Py.strip line) self Htable) as H'.
  destruct (parse_line (Py.strip line) self) as [[e|[]] self']; [exact H|].
  apply IH; assumption.
Qed.

(** Both hold in every session of a fresh parser, whatever lines it has
    processed and whether or not the run failed. *)
Lemma sessions_of_a_fresh_parser lines :
  printable_table (snd (parse_lines lines init)) /\
  well_formed (snd (parse_lines lines init)).
Proof.
  split.
  - apply parse_lines_printable, printable_table_init.
  - apply parse_lines_well_formed; [exact printable_table_init|exact well_formed_init].
Qed.

(* ===================================================================== *)
(** ** Lines and their outcomes                                           *)
(* ===================================================================== *)

Lemma substring_full s : String.substring 0 (String.length s) s = s.
Proof. induction s as [|c s IH]; [reflexivity|]. cbn. rewrite IH. reflexivity. Qed.

Lemma slice_from_tail c s : Py.slice_from (String c s) 1 = s.
Proof.
  unfold Py.slice_from, Py.slice. cbv zeta.
  change (1 <? 0)%Z with false. cbv iota.
  destruct (Z.ltb_spec (Z.of_nat (String.length (String c s))) 0) as [H|H]; [lia|].
  replace (Z.to_nat (Z.min 1 _)) with 1
    by (cbn [String.length]; lia).
  replace (Z.to_nat _) with (String.length s) by (cbn [String.length]; lia).
  cbn [String.substring]. apply substring_full.
Qed.

Lemma parse_line_declaration rest self :
  parse_line ("global " +:+ rest) self = parse_global ("global " +:+ rest) self.
Proof. reflexivity. Qed.

Lemma parse_line_expression rest self :
  parse_line (String "^" rest) self =
  (let* _ := evaluate_expression rest in ret tt) self.
Proof.
  unfold parse_line. change (negb _ || _) with false. cbv iota.
  change (Py.startswith "global " (String "^" rest)) with false. cbv iota.
  change (Py.startswith "^" (String "^" rest)) with true. cbv iota.
  rewrite slice_from_tail. reflexivity.
Qed.

Lemma eval_token_digits token i stack self :
  Py.isdigit token = true -> Op.int token = inr i ->
  eval_token token stack self = (inr (VInt i :: stack), self).
Proof. intros Hd Hi. unfold eval_token. rewrite Hd. unfold bind. rewrite Hi. reflexivity. Qed.

Lemma eval_token_unbound token stack self :
  Py.isdigit token = false -> constants self !! token = None ->
  eval_token token stack self =
  (if String.eqb token "+" then binary Op.add stack
   else if String.eqb token "-" then binary Op.sub stack
   else if String.eqb token "*" then binary Op.mul stack
   else if String.eqb token "/" then binary Op.floordiv stack
   else if String.eqb token "mod" then binary Op.mod_ stack
   else if String.eqb token "max" then binary Op.max stack
   else raise (SyntaxError ("Unknown token in expression: " +:+ token))) self.
Proof.
  intros Hd Hc. unfold eval_token. rewrite Hd. unfold bind at 1, get_constants.
  rewrite Hc. reflexivity.
Qed.

Lemma eval_token_underflow op stack self :
  In op operators -> constants self !! op = None -> length stack < 2 ->
  eval_token op stack self = (inl (IndexError "pop from empty list"), self).
Proof.
  intros Hop Hc Hlen.
  assert (Py.isdigit op = false) as Hd.
  { unfold operators in Hop. cbn [In] in Hop.
    destruct Hop as [<-|[<-|[<-|[<-|[<-|[<-|[]]]]]]]; reflexivity. }
  rewrite (eval_token_unbound _ _ _ Hd Hc).
  destruct stack as [|x [|y stack]]; [| |cbn [length] in Hlen; lia];
    unfold operators in Hop; cbn [In] in Hop;
    destruct Hop as [<-|[<-|[<-|[<-|[<-|[<-|[]]]]]]]; reflexivity.
Qed.

(** A text that [parse_value] accepts in a well-formed session starts with a
    character that is not whitespace. *)
Lemma parse_value_head value v self :
  well_formed self -> fst (parse_value value self) = inr v ->
  exists d value', value = String d value' /\ Py.isspace_char d = false.
Proof.
  intros Hwf. rewrite parse_value_unfold.
  destruct (Py.startswith "array(" value && Py.endswith ")" value) eqn:E.
  - intros _. apply andb_true_iff in E as [E _].
    apply startswith_head in E as [value' ->]. eauto.
  - destruct (Py.isdigit value) eqn:Hd.
    + intros _. destruct value as [|d value']; [discriminate|].
      cbn [Py.isdigit Py.all_chars] in Hd. apply andb_true_iff in Hd as [Hd _].
      exists d, value'. split; [reflexivity|]. apply digit_not_space, Hd.
    + unfold bind, get_constants.
      destruct (constants self !! value) as [w|] eqn:Hc; [|discriminate].
      intros _. pose proof (Hwf _ _ Hc) as Hid.
      destruct value as [|d value']; [discriminate|].
      cbn [is_identifier] in Hid. apply andb_true_iff in Hid as [Hid _].
      exists d, value'. split; [reflexivity|]. apply ident_start_not_space, Hid.
Qed.

(** A declaration in the usual layout, whatever follows its last [;]. *)
Lemma declaration_line name value trailing v self :
  printable_table self ->
  well_formed self ->
  is_identifier name = true ->
  lacks "010"%char value = true ->
  lacks ";"%char trailing = true ->
  fst (parse_value value self) = inr v ->
  parse_line (declaration name value trailing) self = (inr tt, declared name v self).
Proof.
  intros Htable Hwf Hname Hnl Htr Hv. unfold declaration.
  rewrite parse_line_declaration.
  pose proof (parse_value_printable _ _ _ Htable Hv) as Hp.
  destruct (parse_value_head _ _ _ Hwf Hv) as (d & value' & -> & Hd).
  destruct name as [|c name']; [discriminate|].
  cbn [is_identifier] in Hname. apply andb_true_iff in Hname as [Hc Hname'].
  apply (parse_global_matched _ (String c name') (String d value')); [|exact Hv|exact Hp].
  apply match_declaration; assumption.
Qed.

(* ===================================================================== *)
(** ** The directive dispatcher                                           *)
(* ===================================================================== *)

(** C9.  An empty line and a line that begins with [#] are ignored: the
    call succeeds and the session is unchanged.  A line that is not empty
    and begins with none of [#], [global ] and [^] raises
    [SyntaxError("Unknown syntax: <line>")], again with the session
    unchanged; [bogus line] is such a line. *)
Theorem parse_line_ignores_or_rejects (line : string) (self : session) :
  (line = "" \/ Py.startswith "#" line = true ->
   parse_line line self = (inr tt, self)) /\
  (line <> "" ->
   Py.startswith "#" line = false ->
   Py.startswith "global " line = false ->
   Py.startswith "^" line = false ->
   parse_line line self = (inl (SyntaxError ("Unknown syntax: " +:+ line)), self)) /\
  parse_line "bogus line" self =
  (inl (SyntaxError "Unknown syntax: bogus line"), self).
Proof.
  split; [|split].
  - intros [->|H]; [reflexivity|].
    unfold parse_line. rewrite H, orb_true_r. reflexivity.
  - intros Hne Hc Hg He. unfold parse_line. rewrite Hc, Hg, He.
    destruct line; [congruence|reflexivity].
  - reflexivity.
Qed.

Lemma parse_line_ignores_or_rejects_witness :
  parse_line "# a comment" init = (inr tt, init) /\
  parse_line "globalx = 1;" init =
  (inl (SyntaxError "Unknown syntax: globalx = 1;"), init).
Proof.
  split.
  - apply (proj1 (parse_line_ignores_or_rejects "# a comment" init)).
    right. reflexivity.
  - apply (proj1 (proj2 (parse_line_ignores_or_rejects "globalx = 1;" init)));
      [discriminate|reflexivity|reflexivity|reflexivity].
Defined.

(* ===================================================================== *)
(** ** The expression evaluator                                           *)
(* ===================================================================== *)

(** C8.  Evaluating an expression leaves the dictionary and the tree as
    they were, whatever the outcome.  When it succeeds it prints exactly one
    line, the one that carries the result it returns; when it fails it
    prints nothing.  The same holds for the expression line [^rest] handed
    to [parse_line]. *)
Theorem evaluator_frame (rest : string) (self : session) :
  let out := evaluate_expression rest self in
  constants (snd out) = constants self /\
  xml_root (snd out) = xml_root self /\
  stdout (snd out) =
    match fst out with
    | inr result => (stdout self ++ ["Result of expression: " +:+ Op.text result])%list
    | inl _ => stdout self
    end /\
  parse_line (String "^" rest) self =
    match out with
    | (inr _, self') => (inr tt, self')
    | (inl e, self') => (inl e, self')
    end.
Proof.
  cbv zeta. rewrite parse_line_expression. unfold bind.
  rewrite evaluate_expression_outcome.
  destruct (fst (eval_tokens _ [] self)) as [e|[|result [|x stack]]];
    try destruct (Op.printable result); repeat split.
Qed.

Example evaluate_sum :
  evaluate_expression " 3 4 +" init = (inr (VInt 7), reported (VInt 7) init).
Proof. reflexivity. Qed.

(** C4.  With the integer [a] below the integer [b] on the stack and [b]
    not zero, the token [/] leaves [a / b] and the token [mod] leaves
    [a mod b], where [a = b * (a / b) + a mod b] and the remainder is zero
    or has the sign of [b] and is smaller than [b] in size: the quotient is
    rounded toward negative infinity.  With 7 subtracted from 0 to obtain
    -7, dividing by 2 gives -4 and the remainder is 1. *)
Theorem floor_division_and_modulo (a b : Z) (stack : list Value) (self : session) :
  b <> 0%Z ->
  constants self !! "/" = None ->
  constants self !! "mod" = None ->
  eval_token "/" (VInt b :: VInt a :: stack) self
    = (inr (VInt (a / b) :: stack), self) /\
  eval_token "mod" (VInt b :: VInt a :: stack) self
    = (inr (VInt (a mod b) :: stack), self) /\
  (a = b * (a / b) + a mod b)%Z /\
  (0 <= a mod b < b \/ b < a mod b <= 0)%Z /\
  evaluate_expression "0 7 - 2 /" init = (inr (VInt (-4)), reported (VInt (-4)) init) /\
  evaluate_expression "0 7 - 2 mod" init = (inr (VInt 1), reported (VInt 1) init).
Proof.
  intros Hb Hdiv Hmod. repeat split.
  - rewrite (eval_token_unbound "/" _ _ eq_refl Hdiv).
    cbn [String.eqb Ascii.eqb Bool.eqb]. unfold binary, bind, pop, ret, lift, Op.floordiv.
    destruct (Z.eqb_spec b 0); [contradiction|reflexivity].
  - rewrite (eval_token_unbound "mod" _ _ eq_refl Hmod).
    cbn [String.eqb Ascii.eqb Bool.eqb]. unfold binary, bind, pop, ret, lift, Op.mod_.
    destruct (Z.eqb_spec b 0); [contradiction|reflexivity].
  - apply Z.div_mod. exact Hb.
  - destruct (Z.lt_trichotomy b 0) as [Hlt|[Heq|Hgt]]; [right|contradiction|left].
    + pose proof (Z.mod_neg_bound a b Hlt). lia.
    + pose proof (Z.mod_pos_bound a b Hgt). lia.
Qed.

Lemma floor_division_and_modulo_witness :
  eval_token "/" [VInt 2; VInt (-7)] init = (inr [VInt (-4)], init) /\
  eval_token "mod" [VInt (-3); VInt 7] init = (inr [VInt (-2)], init).
Proof.
  split.
  - apply (proj1 (floor_division_and_modulo (-7) 2 [] init
                    ltac:(lia) eq_refl eq_refl)).
  - apply (proj1 (proj2 (floor_division_and_modulo 7 (-3) [] init
                           ltac:(lia) eq_refl eq_refl))).
Defined.

(** One token of a concrete expression: digits are pushed, an operator that
    is not a key of the dictionary is applied. *)
Ltac eval_digits tok val :=
  cbn [eval_tokens]; unfold bind at 1;
  rewrite (eval_token_digits tok val _ _ eq_refl eq_refl).

Ltac eval_operator tok Hfree :=
  cbn [eval_tokens]; unfold bind at 1;
  rewrite (eval_token_unbound tok _ _ eq_refl Hfree);
  cbn [String.eqb Ascii.eqb Bool.eqb].

(** C5, counterexample.  From a fresh parser the line [^ -10 3 /] does not
    report -4. *)
Lemma negative_literal_not_reported : ~ reports "^ -10 3 /" (-4) init.
Proof. unfold reports. intros H. vm_compute in H. discriminate H. Qed.

(** C5, as the code has it.  In a session whose keys are identifiers,
    [^ 10 3 /] reports 3; [^ -10 3 /] raises
    [SyntaxError("Unknown token in expression: -10")] and changes nothing,
    because only unsigned digit strings are integer operands; -10 is
    obtained as [0 10 -], and [^ 0 10 - 3 /] reports -4. *)
Theorem division_scenarios (self : session) :
  well_formed self ->
  reports "^ 10 3 /" 3 self /\
  parse_line "^ -10 3 /" self
    = (inl (SyntaxError "Unknown token in expression: -10"), self) /\
  reports "^ 0 10 - 3 /" (-4) self.
Proof.
  intros Hwf.
  pose proof (well_formed_missing "/" self Hwf eq_refl) as Hdiv.
  pose proof (well_formed_missing "-" self Hwf eq_refl) as Hsub.
  pose proof (well_formed_missing "-10" self Hwf eq_refl) as Hneg.
  unfold reports. repeat split.
  - change "^ 10 3 /" with (String "^" " 10 3 /").
    rewrite parse_line_expression. unfold bind at 1.
    rewrite evaluate_expression_outcome.
    change (Py.split_whitespace " 10 3 /") with ["10"; "3"; "/"].
    eval_digits "10" 10%Z. eval_digits "3" 3%Z. eval_operator "/" Hdiv.
    reflexivity.
  - change "^ -10 3 /" with (String "^" " -10 3 /").
    rewrite parse_line_expression. unfold bind at 1.
    rewrite evaluate_expression_outcome.
    change (Py.split_whitespace " -10 3 /") with ["-10"; "3"; "/"].
    eval_operator "-10" Hneg. reflexivity.
  - change "^ 0 10 - 3 /" with (String "^" " 0 10 - 3 /").
    rewrite parse_line_expression. unfold bind at 1.
    rewrite evaluate_expression_outcome.
    change (Py.split_whitespace " 0 10 - 3 /") with ["0"; "10"; "-"; "3"; "/"].
    eval_digits "0" 0%Z. eval_digits "10" 10%Z. eval_operator "-" Hsub.
    unfold binary at 1, bind at 1. cbn [pop ret].
    unfold bind at 1. cbn [pop ret]. unfold bind at 1. cbn [lift Op.sub ret].
    eval_digits "3" 3%Z. eval_operator "/" Hdiv.
    reflexivity.
Qed.

Lemma division_scenarios_witness :
  reports "^ 10 3 /" 3 init /\
  parse_line "^ -10 3 /" init
    = (inl (SyntaxError "Unknown token in expression: -10"), init) /\
  reports "^ 0 10 - 3 /" (-4) init.
Proof. apply (division_scenarios init). exact well_formed_init. Defined.

(** The line [^ 1 +] does not end in a [SyntaxError], the one exception
    the script catches. *)
Lemma underflow_is_not_syntax_error :
  ~ exists msg self', parse_line "^ 1 +" init = (inl (SyntaxError msg), self').
Proof. intros (msg & self' & H). vm_compute in H. discriminate H. Qed.

(** C6.  What the code does on a stack underflow.  When the tokens before
    an operator leave fewer than two values on the stack, and the operator
    is not the name of a constant (the names [mod] and [max] can be
    declared, and are then operands), evaluation stops with the
    [IndexError("pop from empty list")] of the [pop]: no [SyntaxError] is
    raised, nothing is printed and the session is unchanged.  [^ 1 +] ends
    this way.  The other malformed expressions, an unknown token and a
    stack that does not hold one value at the end, raise [SyntaxError],
    which is what the script catches. *)
Theorem operator_underflow (expression op : string) (pre post : list string)
        (stack : list Value) (self : session) :
  Py.split_whitespace expression = (pre ++ op :: post)%list ->
  In op operators ->
  constants self !! op = None ->
  fst (eval_tokens pre [] self) = inr stack ->
  length stack < 2 ->
  evaluate_expression expression self
    = (inl (IndexError "pop from empty list"), self) /\
  parse_line "^ 1 +" init = (inl (IndexError "pop from empty list"), init).
Proof.
  intros Hsplit Hop Hfree Hpre Hlen. split; [|reflexivity].
  rewrite evaluate_expression_outcome, Hsplit, eval_tokens_app, Hpre.
  cbn [eval_tokens]. unfold bind.
  rewrite (eval_token_underflow _ _ _ Hop Hfree Hlen). reflexivity.
Qed.

Lemma operator_underflow_witness :
  evaluate_expression "2 3 + max 5" init
    = (inl (IndexError "pop from empty list"), init).
Proof.
  refine (proj1 (operator_underflow "2 3 + max 5" "max" ["2"; "3"; "+"] ["5"]
                   [VInt 5] init eq_refl _ eq_refl eq_refl _)).
  - cbn. tauto.
  - cbn. lia.
Defined.

(** A constant may be called [mod]; the token [mod] then pushes its value. *)
Example shadowed_operator :
  parse_lines ["global mod = 5;"; "^ mod"] init
  = (inr tt, reported (VInt 5) (declared "mod" (VInt 5) init)).
Proof. vm_compute. reflexivity. Qed.

(* ===================================================================== *)
(** ** Array literals                                                     *)
(* ===================================================================== *)

Lemma array3_wrapped a b c :
  array3 a b c = "array(" +:+ (a +:+ "," +:+ b +:+ "," +:+ c) +:+ ")".
Proof. unfold array3. rewrite !append_assoc. reflexivity. Qed.

Lemma parse_value_array interior self :
  parse_value ("array(" +:+ interior +:+ ")") self =
  (let* items := for_each (fun val => parse_value (Py.strip val))
                          (Py.split "," interior) in
   ret (VList items)) self.
Proof.
  rewrite parse_value_unfold, startswith_append.
  rewrite <- (append_assoc "array(" interior ")"), endswith_append.
  rewrite (append_assoc "array(" interior ")").
  cbn [andb]. unfold parse_array. rewrite slice_array. reflexivity.
Qed.

(** C1, counterexample.  With [array(1,2)] as first element the three
    elements parse, to [[1, 2]], 3 and 4, and the literal built from them
    does not parse to the list of the three values. *)
Lemma nested_array_is_cut :
  ~ (forall (a b c : string) (va vb vc : Value) (self : session),
       fst (parse_value a self) = inr va ->
       fst (parse_value b self) = inr vb ->
       fst (parse_value c self) = inr vc ->
       fst (parse_value (array3 a b c) self) = inr (VList [va; vb; vc])).
Proof.
  intros H.
  specialize (H "array(1,2)" "3" "4" (VList [VInt 1; VInt 2]) (VInt 3) (VInt 4) init
                eq_refl eq_refl eq_refl).
  vm_compute in H. discriminate H.
Qed.

(** C1, as the code has it.  The interior of an array literal is cut at
    every comma, nested or not.  When none of [a], [b], [c] contains a
    comma (an integer, a name, a nested array of one element), the literal
    [array(a,b,c)] parses to the list of what the three stripped elements
    parse to, in order, the first failure being the failure of the whole.
    Whatever the elements, a list that the literal parses to has one item
    for every piece between commas: as many items as [a], [b] and [c] have
    pieces together.  So when some element contains a comma, as a nested
    array of two or more elements does, the literal never parses to a list
    of three items: it fails, or yields more than three. *)
Theorem array_of_three (a b c : string) (self : session) :
  (lacks ","%char a = true ->
   lacks ","%char b = true ->
   lacks ","%char c = true ->
   parse_value (array3 a b c) self =
   (let* va := parse_value (Py.strip a) in
    let* vb := parse_value (Py.strip b) in
    let* vc := parse_value (Py.strip c) in
    ret (VList [va; vb; vc])) self) /\
  (forall v, fst (parse_value (array3 a b c) self) = inr v ->
     exists items,
       v = VList items /\
       length items = length (Py.split "," a) + length (Py.split "," b)
                      + length (Py.split "," c)) /\
  (lacks ","%char a && lacks ","%char b && lacks ","%char c = false ->
   forall v, fst (parse_value (array3 a b c) self) = inr v ->
     exists items, v = VList items /\ 3 < length items).
Proof.
  assert (forall v, fst (parse_value (array3 a b c) self) = inr v ->
            exists items,
              v = VList items /\
              length items = length (Py.split "," a) + length (Py.split "," b)
                             + length (Py.split "," c)) as Hcount.
  { intros v. rewrite array3_wrapped, parse_value_array. unfold bind.
    destruct (for_each _ _ self) as [[e|items] self1] eqn:E; [discriminate|].
    cbn. intros [= <-]. exists items. split; [reflexivity|].
    rewrite (for_each_length _ _ items self ltac:(rewrite E; reflexivity)).
    change ("," +:+ b +:+ "," +:+ c) with (String "," (b +:+ String "," c)).
    rewrite !split_length_append. lia. }
  split; [|split].
  - intros Ha Hb Hc. rewrite array3_wrapped, parse_value_array.
    change ("," +:+ b +:+ "," +:+ c) with (String "," (b +:+ String "," c)).
    rewrite (split_append _ _ _ Ha), (split_append _ _ _ Hb), (split_lacks _ _ Hc).
    cbn [for_each]. unfold bind, ret.
    destruct (parse_value (Py.strip a) self) as [[e|va] s1]; [reflexivity|].
    destruct (parse_value (Py.strip b) s1) as [[e|vb] s2]; [reflexivity|].
    destruct (parse_value (Py.strip c) s2) as [[e|vc] s3]; reflexivity.
  - exact Hcount.
  - intros Hcomma v Hv. destruct (Hcount v Hv) as (items & -> & Hlen).
    exists items. split; [reflexivity|]. rewrite Hlen.
    pose proof (split_nonempty "," a) as Ha.
    pose proof (split_nonempty "," b) as Hb.
    pose proof (split_nonempty "," c) as Hc.
    assert (forall s, 1 <= length (Py.split "," s)) as Hone.
    { intros t. pose proof (split_nonempty "," t).
      destruct (Py.split "," t); [congruence|cbn [length]; lia]. }
    pose proof (Hone a). pose proof (Hone b). pose proof (Hone c).
    destruct (lacks "," a) eqn:Ea;
      [|pose proof (split_length_comma _ _ Ea); lia].
    destruct (lacks "," b) eqn:Eb;
      [|pose proof (split_length_comma _ _ Eb); lia].
    destruct (lacks "," c) eqn:Ec;
      [discriminate|pose proof (split_length_comma _ _ Ec); lia].
Qed.

Lemma array_of_three_witness :
  parse_value "array(array(7), 2,x)" (declared "x" (VInt 10) init)
  = (inr (VList [VList [VInt 7]; VInt 2; VInt 10]), declared "x" (VInt 10) init).
Proof.
  change "array(array(7), 2,x)" with (array3 "array(7)" " 2" "x").
  rewrite (proj1 (array_of_three "array(7)" " 2" "x" (declared "x" (VInt 10) init))
             eq_refl eq_refl eq_refl).
  reflexivity.
Defined.

(** C2, counterexample.  From a fresh parser the line [global z = array();]
    does not succeed with [z] bound to the empty list. *)
Lemma empty_array_not_bound :
  ~ exists self', parse_line "global z = array();" init = (inr tt, self') /\
                  constants self' !! "z" = Some (VList []).
Proof. intros (self' & H & _). vm_compute in H. discriminate H. Qed.

(** C2, as the code has it.  In a session whose keys are identifiers the
    line [global z = array();] raises [SyntaxError("Invalid value: ")] and
    leaves the session as it was: the empty interior is one empty element,
    which is not a value.  A list that an array literal parses to has at
    least one item. *)
Theorem empty_array_rejected (self : session) :
  well_formed self ->
  parse_line "global z = array();" self
    = (inl (SyntaxError "Invalid value: "), self) /\
  forall value items,
    Py.startswith "array(" value && Py.endswith ")" value = true ->
    fst (parse_value value self) = inr (VList items) ->
    items <> [].
Proof.
  intros Hwf. split.
  - pose proof (well_formed_missing "" self Hwf eq_refl) as Hnone.
    change "global z = array();" with ("global " +:+ "z = array();").
    rewrite parse_line_declaration.
    apply (parse_global_literal_fails _ "z" "array()"); [reflexivity|].
    change "array()" with ("array(" +:+ "" +:+ ")").
    rewrite parse_value_array.
    change (Py.split "," "") with [""]. cbn [for_each]. unfold bind at 1 2.
    change (Py.strip "") with "". rewrite parse_value_unfold.
    change (Py.startswith "array(" "" && Py.endswith ")" "") with false.
    change (Py.isdigit "") with false. cbv iota.
    unfold bind, get_constants. rewrite Hnone. reflexivity.
  - intros value items Harr. rewrite parse_value_unfold, Harr.
    unfold parse_array, bind.
    destruct (for_each _ _ self) as [[e|ys] s1] eqn:E; [discriminate|].
    cbn. intros [= <-] ->.
    pose proof (for_each_length _ _ [] self ltac:(rewrite E; reflexivity)) as Hlen.
    pose proof (split_nonempty "," (Py.slice value 6 (-1))) as Hne.
    destruct (Py.split "," (Py.slice value 6 (-1))); [congruence|discriminate].
Qed.

Lemma empty_array_rejected_witness :
  parse_line "global z = array();" init
    = (inl (SyntaxError "Invalid value: "), init).
Proof. apply (proj1 (empty_array_rejected init well_formed_init)). Defined.

(* ===================================================================== *)
(** ** Declarations                                                       *)
(* ===================================================================== *)

Lemma flat_node name v :
  flat v = true -> constant_element name v = spec_constant_node name v.
Proof.
  destruct v as [i|items]; [reflexivity|].
  cbn [flat constant_element spec_constant_node]. intros Hflat. f_equal.
  induction items as [|item items IH]; [reflexivity|].
  cbn [List.forallb] in Hflat. apply andb_true_iff in Hflat as [Hitem Hflat].
  cbn [List.map]. rewrite (IH Hflat).
  destruct item; [reflexivity|discriminate].
Qed.

(** The node of [global y = array(array(7), 2);]: the inner list is one
    [value] child that carries the text [[7]]. *)
Example node_of_a_nested_list :
  parse_line "global y = array(array(7), 2);" init
  = (inr tt,
     Session (<["y" := VList [VList [VInt 7]; VInt 2]]> ∅)
             (mkElement "config" [] None
                [mkElement "constant" [("name", "y")] None
                   [mkElement "value" [] (Some "[7]") [];
                    mkElement "value" [] (Some "2") []]])
             []).
Proof. vm_compute. reflexivity. Qed.

(** C3, counterexample.  The node appended for a valid declaration does not
    always have the content the specification gives it: after
    [global y = array(array(7), 2);] the first child of the node of [y] is
    not a group of [value] nodes. *)
Lemma nested_list_node_is_text :
  ~ (forall (name value : string) (v : Value) (self : session),
       well_formed self ->
       is_identifier name = true ->
       lacks "010"%char value = true ->
       fst (parse_value value self) = inr v ->
       exists self',
         parse_line ("global " +:+ name +:+ " = " +:+ value +:+ ";") self
           = (inr tt, self') /\
         constants self' !! name = Some v /\
         children (xml_root self')
           = (children (xml_root self) ++ [spec_constant_node name v])%list).
Proof.
  intros H.
  destruct (H "y" "array(array(7), 2)" (VList [VList [VInt 7]; VInt 2]) init
              well_formed_init eq_refl eq_refl eq_refl) as (self' & Hrun & _ & Hnode).
  vm_compute in Hrun. injection Hrun as <-.
  vm_compute in Hnode. discriminate Hnode.
Qed.

(** C3, as the code has it.  In a session whose keys are identifiers and
    whose values [str] converts (every session a parser reaches is one), let
    [name] be an identifier and [value] a literal without a newline that
    parses to [v].  Processing [global name = value;] succeeds; afterwards
    [name] is bound to [v], the other fields are as before, and the root has
    one more child, the [constant] node of [name], after the children it
    had.  The content of the node is the text of [v] when [v] is an integer;
    when [v] is a list, it is one [value] child per item, in order, each
    carrying the text of its item: for an item that is itself a list that
    text is what [str] gives, as in [[7]], and no nested group is built.
    For an integer and for a list of integers this is the content the
    specification describes.  Processing [global x = 10;] and then
    [global y = array(1, 2, x);] with a fresh parser gives the dictionary
    [{x: 10, y: [1, 2, 10]}] and a root with two children. *)
Theorem declaration_binds_and_appends
        (name value : string) (v : Value) (self : session) :
  printable_table self ->
  well_formed self ->
  is_identifier name = true ->
  lacks "010"%char value = true ->
  fst (parse_value value self) = inr v ->
  parse_line ("global " +:+ name +:+ " = " +:+ value +:+ ";") self
    = (inr tt, declared name v self) /\
  constants (declared name v self) !! name = Some v /\
  children (xml_root (declared name v self))
    = (children (xml_root self) ++ [constant_element name v])%list /\
  stdout (declared name v self) = stdout self /\
  constant_element name v
    = match v with
      | VInt _ => mkElement "constant" [("name", name)] (Some (Op.text v)) []
      | VList items =>
          mkElement "constant" [("name", name)] None
            (List.map (fun item => mkElement "value" [] (Some (Op.text item)) [])
                      items)
      end /\
  (flat v = true -> constant_element name v = spec_constant_node name v) /\
  parse_lines ["global x = 10;"; "global y = array(1, 2, x);"] init
    = (inr tt,
       Session (<["y" := VList [VInt 1; VInt 2; VInt 10]]> (<["x" := VInt 10]> ∅))
               (mkElement "config" [] None
                  [mkElement "constant" [("name", "x")] (Some "10") [];
                   mkElement "constant" [("name", "y")] None
                     [mkElement "value" [] (Some "1") [];
                      mkElement "value" [] (Some "2") [];
                      mkElement "value" [] (Some "10") []]])
               []).
Proof.
  intros Htable Hwf Hname Hnl Hv. split; [|split; [|split; [|split; [|split; [|split]]]]].
  - exact (declaration_line name value "" v self Htable Hwf Hname Hnl eq_refl Hv).
  - cbn [declared constants]. apply lookup_insert_eq.
  - cbn [declared xml_root]. destruct (xml_root self). reflexivity.
  - reflexivity.
  - destruct v; reflexivity.
  - apply flat_node.
  - vm_compute. reflexivity.
Qed.

Lemma declaration_binds_and_appends_witness :
  parse_line "global y = array(1, 2, x);" (declared "x" (VInt 10) init)
  = (inr tt,
     declared "y" (VList [VInt 1; VInt 2; VInt 10]) (declared "x" (VInt 10) init)).
Proof.
  refine (proj1 (declaration_binds_and_appends "y" "array(1, 2, x)"
                   (VList [VInt 1; VInt 2; VInt 10]) (declared "x" (VInt 10) init)
                   _ _ eq_refl eq_refl eq_refl)).
  - apply printable_table_declared; [reflexivity|exact printable_table_init].
  - apply well_formed_declared; [reflexivity|exact well_formed_init].
Defined.

Lemma parse_global_failure line e self self' :
  printable_table self ->
  parse_global line self = (inl e, self') -> self' = self.
Proof.
  intros Htable.
  destruct (Re.match_ global_pattern line) as [r|] eqn:E.
  - destruct (match_two_groups _ _ E) as (name & value & ->).
    rewrite (parse_global_outcome _ _ _ _ Htable E).
    destruct (fst (parse_value value self)); congruence.
  - rewrite (parse_global_unmatched _ _ E). congruence.
Qed.

(** C7.  A declaration that fails changes nothing.  When the pattern
    matches and the literal does not parse, [parse_global] ends in the
    exception of the literal with the session as it was, so that neither
    the binding nor the node is made when some element of an array fails;
    and whatever makes a declaration line fail, in [parse_global] or seen
    from [parse_line], the session it leaves is the one it was given, in
    every session whose values [str] converts, as those a parser reaches
    are: there [add_to_xml], which runs after the binding is made, does
    not fail. *)
Theorem declaration_is_atomic (line name value : string) (e : exn) (self : session) :
  Re.match_ global_pattern line = Some [name; value] ->
  fst (parse_value value self) = inl e ->
  parse_global line self = (inl e, self) /\
  (printable_table self ->
   forall line' e' self',
     parse_global line' self = (inl e', self') -> self' = self) /\
  (printable_table self ->
   forall rest e' self',
     parse_line ("global " +:+ rest) self = (inl e', self') ->
     constants self' = constants self /\ xml_root self' = xml_root self).
Proof.
  intros Hm He. split; [|split].
  - exact (parse_global_literal_fails _ _ _ _ _ Hm He).
  - intros Htable line' e' self'. apply parse_global_failure, Htable.
  - intros Htable rest e' self'. rewrite parse_line_declaration. intros H.
    apply (parse_global_failure _ _ _ _ Htable) in H. subst. split; reflexivity.
Qed.

(** Why the sessions are taken with values that [str] converts: [x] holds
    an integer of 4301 digits here, and [global y = x;] raises the
    [ValueError] of [str] in [add_to_xml], after [y] is bound and its empty
    node appended.  No run of a parser reaches such a session. *)
Example constant_without_text :
  let big := VInt (10 ^ 4300) in
  parse_line "global y = x;"
             (Session (<["x" := big]> ∅) (mkElement "config" [] None []) [])
  = (inl ValueError,
     Session (<["y" := big]> (<["x" := big]> ∅))
             (mkElement "config" [] None
                [mkElement "constant" [("name", "y")] None []])
             []).
Proof. vm_compute. reflexivity. Qed.

Lemma declaration_is_atomic_witness :
  parse_global "global y = array(1, q);" (declared "x" (VInt 10) init)
  = (inl (SyntaxError "Invalid value: q"), declared "x" (VInt 10) init).
Proof.
  apply (proj1 (declaration_is_atomic "global y = array(1, q);" "y" "array(1, q)"
                  (SyntaxError "Invalid value: q") (declared "x" (VInt 10) init)
                  eq_refl eq_refl)).
Defined.

(** C10.  The pattern is anchored at the start of the line only.  In a
    session whose keys are identifiers and whose values [str] converts
    (every session a parser reaches is one), with [name] an identifier,
    [value] a literal without a newline that parses to [v], and [trailing]
    any text without [;], the line [global name = value;trailing] succeeds
    and does what [global name = value;] does: it binds [name] to [v] and
    appends its node. *)
Theorem trailing_text_is_ignored
        (name value trailing : string) (v : Value) (self : session) :
  printable_table self ->
  well_formed self ->
  is_identifier name = true ->
  lacks "010"%char value = true ->
  lacks ";"%char trailing = true ->
  fst (parse_value value self) = inr v ->
  parse_line ("global " +:+ name +:+ " = " +:+ value +:+ ";" +:+ trailing) self
    = (inr tt, declared name v self) /\
  parse_line ("global " +:+ name +:+ " = " +:+ value +:+ ";" +:+ trailing) self
    = parse_line ("global " +:+ name +:+ " = " +:+ value +:+ ";") self.
Proof.
  intros Htable Hwf Hname Hnl Htr Hv.
  pose proof (declaration_line name value trailing v self Htable Hwf Hname Hnl Htr Hv)
    as H1.
  pose proof (declaration_line name value "" v self Htable Hwf Hname Hnl eq_refl Hv)
    as H2.
  unfold declaration in H1, H2. split; [exact H1|].
  rewrite H1. symmetry. exact H2.
Qed.

Lemma trailing_text_is_ignored_witness :
  parse_line "global x = 10; # ten" init = (inr tt, declared "x" (VInt 10) init).
Proof.
  apply (proj1 (trailing_text_is_ignored "x" "10" " # ten" (VInt 10) init
                  printable_table_init well_formed_init
                  eq_refl eq_refl eq_refl eq_refl)).
Defined.

(** A second [;] after the declaration is taken into the value. *)
Example trailing_semicolon :
  parse_line "global x = 10; y;" init
  = (inl (SyntaxError "Invalid value: 10; y"), init).
Proof. reflexivity. Qed.


(* ===================================================================== *)
(** ** Further properties: the loop over the lines                        *)
(* ===================================================================== *)

Lemma parse_line_failure line e self self' :
  printable_table self ->
  parse_line line self = (inl e, self') -> self' = self.
Proof.
  intros Htable. unfold parse_line.
  destruct (negb (Py.truthy line) || Py.startswith "#" line); [discriminate|].
  destruct (Py.startswith "global " line); [apply parse_global_failure, Htable|].
  destruct (Py.startswith "^" line); [|unfold raise; congruence].
  unfold bind. rewrite evaluate_expression_outcome.
  destruct (fst (eval_tokens _ [] self)) as [e'|[|result [|x stack]]];
    try destruct (Op.printable result); unfold ret; congruence.
Qed.

Lemma parse_lines_app first rest self :
  parse_lines (first ++ rest) self =
  match parse_lines first self with
  | (inr _, self') => parse_lines rest self'
  | (inl e, self') => (inl e, self')
  end.
Proof.
  revert self. induction first as [|line first IH]; intros self; [reflexivity|].
  cbn [app parse_lines]. unfold bind.
  destruct (parse_line (Py.strip line) self) as [[e|[]] self1]; [reflexivity|].
  apply IH.
Qed.

(** X1.  Processing a file is processing its first part and then, when
    that part succeeds, the rest from the session it left; when it fails,
    its exception is the outcome and the rest is not looked at. *)
Theorem lines_run_in_sequence (first rest : list string) (self : session) :
  parse_lines (first ++ rest) self =
  match parse_lines first self with
  | (inr _, self') => parse_lines rest self'
  | (inl e, self') => (inl e, self')
  end.
Proof. apply parse_lines_app. Qed.

(** X2.  The first line that fails ends the run with its exception, and
    the session is the one the lines before it built: the failing line
    leaves no trace and the lines after it have no effect.  The run starts
    in a session whose values [str] converts, as a fresh parser does. *)
Theorem run_stops_at_first_failure
        (before after : list string) (bad : string) (e : exn)
        (self good : session) :
  printable_table self ->
  parse_lines before self = (inr tt, good) ->
  fst (parse_line (Py.strip bad) good) = inl e ->
  parse_lines (before ++ bad :: after) self = (inl e, good).
Proof.
  intros Htable Hbefore Hbad. rewrite parse_lines_app, Hbefore.
  pose proof (parse_lines_printable before self Htable) as Hgood.
  rewrite Hbefore in Hgood. cbn [snd] in Hgood.
  cbn [parse_lines]. unfold bind.
  destruct (parse_line (Py.strip bad) good) as [[e'|u] self'] eqn:E;
    cbn [fst] in Hbad; [|discriminate].
  injection Hbad as ->. apply (parse_line_failure _ _ _ _ Hgood) in E.
  subst. reflexivity.
Qed.

Lemma run_stops_at_first_failure_witness :
  parse_lines ["global x = 1;"; "global y = q;"; "global z = 2;"] init
  = (inl (SyntaxError "Invalid value: q"), declared "x" (VInt 1) init).
Proof.
  apply (run_stops_at_first_failure ["global x = 1;"] ["global z = 2;"]
           "global y = q;" (SyntaxError "Invalid value: q") init
           (declared "x" (VInt 1) init) printable_table_init eq_refl eq_refl).
Defined.

(** X3.  A line that is empty after stripping, or whose first character
    after stripping is [#], can be added or removed anywhere in a file
    without changing the outcome or the session. *)
Theorem inert_lines_do_not_matter
        (before after : list string) (line : string) (self : session) :
  is_inert_line line = true ->
  parse_lines (before ++ line :: after) self = parse_lines (before ++ after) self.
Proof.
  intros H. rewrite !parse_lines_app.
  destruct (parse_lines before self) as [[e|u] self1]; [reflexivity|].
  cbn [parse_lines]. unfold bind, parse_line.
  unfold is_inert_line in H. rewrite H. reflexivity.
Qed.

Lemma inert_lines_do_not_matter_witness :
  parse_lines ["global x = 1;"; "   # the next one is y "; "global y = x;"] init
  = parse_lines ["global x = 1;"; "global y = x;"] init.
Proof.
  apply (inert_lines_do_not_matter ["global x = 1;"] ["global y = x;"]
           "   # the next one is y " init eq_refl).
Defined.

Lemma parse_line_success_counts line self self' :
  parse_line line self = (inr tt, self') ->
  length (stdout self') =
    length (stdout self) + (if Py.startswith "^" line then 1 else 0) /\
  length (children (xml_root self')) =
    length (children (xml_root self))
    + (if Py.startswith "global " line then 1 else 0).
Proof.
  unfold parse_line.
  destruct (negb (Py.truthy line) || Py.startswith "#" line) eqn:Hinert.
  - intros [= <-].
    assert (Py.startswith "^" line = false /\ Py.startswith "global " line = false)
      as [-> ->]; [|lia].
    apply orb_true_iff in Hinert as [H|H].
    + destruct line; [split; reflexivity|discriminate].
    + apply startswith_head in H as [rest ->]. split; reflexivity.
  - destruct (Py.startswith "global " line) eqn:Hg.
    + apply startswith_head in Hg as [rest ->].
      change (Py.startswith "^" (String "g" rest)) with false.
      intros H. apply parse_global_success in H as (name & value & v & _ & _ & _ & ->).
      cbn [declared stdout xml_root].
      destruct (xml_root self) as [tag attrib txt cs].
      cbn [append_child children]. rewrite length_app. cbn [length]. lia.
    + destruct (Py.startswith "^" line); [|discriminate].
      unfold bind. rewrite evaluate_expression_outcome.
      destruct (fst (eval_tokens _ [] self)) as [e'|[|result [|x stack]]];
        try discriminate.
      destruct (Op.printable result); [|discriminate].
      intros [= <-]. cbn [reported stdout xml_root].
      rewrite length_app. cbn [length]. lia.
Qed.

(** X4.  When a file is processed without failure, the tree has gained one
    node for every declaration line and one line has been printed for
    every expression line, no more and no fewer. *)
Theorem one_node_per_declaration_one_report_per_expression
        (lines : list string) (self self' : session) :
  parse_lines lines self = (inr tt, self') ->
  length (children (xml_root self')) =
    length (children (xml_root self))
    + length (List.filter is_declaration_line lines) /\
  length (stdout self') =
    length (stdout self) + length (List.filter is_expression_line lines).
Proof.
  revert self. induction lines as [|line lines IH]; intros self.
  - cbn. intros [= <-]. lia.
  - cbn [parse_lines]. unfold bind.
    destruct (parse_line (Py.strip line) self) as [[e|[]] self1] eqn:E; [discriminate|].
    intros H. destruct (IH _ H) as [IH1 IH2].
    destruct (parse_line_success_counts _ _ _ E) as [H1 H2].
    cbn [List.filter]. unfold is_declaration_line at 1, is_expression_line at 1.
    destruct (Py.startswith "global " (Py.strip line));
      destruct (Py.startswith "^" (Py.strip line)); cbn [length]; lia.
Qed.

Lemma one_node_per_declaration_one_report_per_expression_witness :
  length (children (xml_root
     (declared "y" (VInt 2) (reported (VInt 2) (declared "x" (VInt 1) init))))) = 2 /\
  length (stdout
     (declared "y" (VInt 2) (reported (VInt 2) (declared "x" (VInt 1) init)))) = 1.
Proof.
  apply (one_node_per_declaration_one_report_per_expression
           ["global x = 1;"; "# comment"; "^ x x +"; "global y = 2;"] init
           (declared "y" (VInt 2) (reported (VInt 2) (declared "x" (VInt 1) init)))
           eq_refl).
Defined.

(* ===================================================================== *)
(** ** Further properties: what every session satisfies                   *)
(* ===================================================================== *)

(** The three things a line can do to a session. *)
Lemma parse_line_cases line self :
  printable_table self ->
  snd (parse_line line self) = self \/
  (exists name value v,
      is_identifier name = true /\
      fst (parse_value value self) = inr v /\
      snd (parse_line line self) = declared name v self) \/
  (exists result, snd (parse_line line self) = reported result self).
Proof.
  intros Htable. unfold parse_line.
  destruct (negb (Py.truthy line) || Py.startswith "#" line); [left; reflexivity|].
  destruct (Py.startswith "global " line).
  - destruct (Re.match_ global_pattern line) as [r|] eqn:E.
    + destruct (match_two_groups _ _ E) as (name & value & ->).
      rewrite (parse_global_outcome _ _ _ _ Htable E).
      destruct (fst (parse_value value self)) as [e|v] eqn:Hv; [left; reflexivity|].
      right. left. exists name, value, v.
      split; [exact (match_name_identifier _ _ _ E)|]. split; [exact Hv|reflexivity].
    + rewrite (parse_global_unmatched _ _ E). left. reflexivity.
  - destruct (Py.startswith "^" line); [|left; reflexivity].
    unfold bind. rewrite evaluate_expression_outcome.
    destruct (fst (eval_tokens _ [] self)) as [e|[|result [|x stack]]];
      try (left; reflexivity).
    destruct (Op.printable result); [|left; reflexivity].
    right. right. exists result. reflexivity.
Qed.

(** A property of sessions that declarations and reports keep holds after
    any lines. *)
Lemma parse_lines_invariant (P : session -> Prop) lines self :
  printable_table self ->
  P self ->
  (forall s name value v,
      P s -> is_identifier name = true -> fst (parse_value value s) = inr v ->
      P (declared name v s)) ->
  (forall s result, P s -> P (reported result s)) ->
  P (snd (parse_lines lines self)).
Proof.
  intros Htable H0 Hdecl Hrep. revert self Htable H0.
  induction lines as [|line lines IH]; intros self Htable H0; [exact H0|].
  cbn [parse_lines]. unfold bind.
  pose proof (parse_line_printable (Py.strip line) self Htable) as Htable1.
  assert (P (snd (parse_line (Py.strip line) self))) as H1.
  { destruct (parse_line_cases (Py.strip line) self Htable)
      as [->|[(name & value & v & Hn & Hv & ->)|(result & ->)]];
      [exact H0|exact (Hdecl _ _ _ _ H0 Hn Hv)|exact (Hrep _ _ H0)]. }
  destruct (parse_line (Py.strip line) self) as [[e|[]] self1]; [exact H1|].
  apply IH; assumption.
Qed.

(** X5.  Whatever lines a fresh parser has processed, and whether or not
    the run failed, every key of its dictionary is an identifier of the
    pattern. *)
Theorem keys_are_identifiers (lines : list string) (key : string) (v : Value) :
  constants (snd (parse_lines lines init)) !! key = Some v ->
  is_identifier key = true.
Proof.
  apply (parse_lines_invariant well_formed lines init
           printable_table_init well_formed_init).
  - intros s name value w Hs Hname _. apply well_formed_declared; assumption.
  - intros s result Hs. exact Hs.
Qed.

Lemma keys_are_identifiers_witness : is_identifier "x_1" = true.
Proof.
  apply (keys_are_identifiers ["global x_1 = 4;"; "bogus"] "x_1" (VInt 4)).
  reflexivity.
Defined.

Lemma parse_value_plain depth value v self :
  (forall key w, constants self !! key = Some w -> plain w = true) ->
  fst (parse_value_at depth value self) = inr v -> plain v = true.
Proof.
  intros Htable. revert value v.
  induction depth as [|depth IH]; intros value v; [discriminate|].
  rewrite parse_value_at_S.
  destruct (Py.startswith "array(" value && Py.endswith ")" value).
  - unfold bind.
    rewrite (reads_only_result _ self
               (reads_only_for_each _ _ (fun val => reads_only_parse_value_at depth _))).
    destruct (fst (for_each _ _ self)) as [e|items] eqn:E; [discriminate|].
    cbn. intros [= <-].
    pose proof (for_each_length _ _ _ _ E) as Hlen.
    apply for_each_results in E;
      [|intros val; apply reads_only_parse_value_at].
    pose proof (split_nonempty "," (Py.slice value 6 (-1))) as Hne.
    assert (List.forallb plain items = true) as Hall.
    { clear Hlen Hne. induction E as [|x y xs ys Hxy _ IHE]; [reflexivity|].
      cbn [List.forallb]. rewrite (IH _ _ Hxy), IHE. reflexivity. }
    cbn [plain]. destruct items as [|item items]; [|exact Hall].
    destruct (Py.split "," (Py.slice value 6 (-1))); [congruence|discriminate].
  - destruct (Py.isdigit value).
    + unfold bind, Op.int.
      destruct (Py.all_chars Py.isdecimal_char value && Py.truthy value) eqn:Hd;
        [|discriminate].
      destruct (Py.int_max_str_digits <? String.length value)%nat; [discriminate|].
      cbn. intros [= <-]. cbn [plain]. apply Z.leb_le.
      apply andb_true_iff in Hd as [Hd _]. apply decimal_value_nonneg; [lia|exact Hd].
    + unfold bind, get_constants.
      destruct (constants self !! value) as [w|] eqn:Hw; [|discriminate].
      cbn. intros [= <-]. exact (Htable _ _ Hw).
Qed.

(** X6.  Every value a fresh parser has stored is built from integers that
    are not negative and lists that are not empty, at every depth: no
    expression result reaches the dictionary, and no literal denotes a
    negative integer or an empty list. *)
Theorem stored_values_are_plain (lines : list string) (key : string) (v : Value) :
  constants (snd (parse_lines lines init)) !! key = Some v ->
  plain v = true.
Proof.
  revert key v.
  apply (parse_lines_invariant
           (fun s => forall key v, constants s !! key = Some v -> plain v = true)
           lines init printable_table_init).
  - intros key v H. cbn in H. rewrite lookup_empty in H. discriminate.
  - intros s name value w Hs _ Hw key v. cbn [declared constants].
    destruct (decide (name = key)) as [<-|Hne].
    + rewrite lookup_insert_eq. intros [= <-].
      exact (parse_value_plain _ _ _ _ Hs Hw).
    + rewrite lookup_insert_ne by exact Hne. apply Hs.
  - intros s result Hs. exact Hs.
Qed.

Lemma stored_values_are_plain_witness :
  plain (VList [VList [VInt 1; VInt 2]; VInt 3]) = true.
Proof.
  apply (stored_values_are_plain
           ["global a = array(1, 2);"; "^ 0 5 -"; "global b = array(a, 3);"] "b").
  reflexivity.
Defined.

Lemma last_node_append name root e :
  last_node name (append_child root e) =
  if node_for name e then Some e else last_node name root.
Proof.
  destruct root as [tag attrib txt cs]. unfold last_node.
  cbn [append_child children]. rewrite rev_unit. reflexivity.
Qed.

Lemma node_for_constant key name v :
  node_for key (constant_element name v) = String.eqb name key.
Proof. destruct v; reflexivity. Qed.

(** X7.  The tree and the dictionary agree in every session of a fresh
    parser: for every name, the node appended last for that name is the
    node of the value the dictionary holds for it, and a name without a
    binding has no node. *)
Theorem tree_agrees_with_dictionary (lines : list string) (key : string) :
  let self := snd (parse_lines lines init) in
  last_node key (xml_root self)
  = option_map (constant_element key) (constants self !! key).
Proof.
  cbv zeta. revert key.
  apply (parse_lines_invariant
           (fun s => forall key,
                last_node key (xml_root s)
                = option_map (constant_element key) (constants s !! key))
           lines init printable_table_init).
  - intros key. cbn. rewrite lookup_empty. reflexivity.
  - intros s name value v Hs _ _ key. cbn [declared constants xml_root].
    rewrite last_node_append, node_for_constant.
    destruct (String.eqb_spec name key) as [<-|Hne].
    + rewrite lookup_insert_eq. reflexivity.
    + rewrite lookup_insert_ne by exact Hne. apply Hs.
  - intros s result Hs. exact Hs.
Qed.

(* ===================================================================== *)
(** ** Further properties: scalar literals                                *)
(* ===================================================================== *)

Lemma endswith_outside p c s :
  Py.all_chars p s = true -> p c = false -> Py.endswith (String c "") s = false.
Proof.
  intros Hs Hc. induction s as [|d s IH]; [reflexivity|].
  cbn [Py.all_chars] in Hs. apply andb_true_iff in Hs as [Hd Hs].
  change (Py.endswith (String c "") (String d s))
    with (String.eqb (String d s) (String c "") || Py.endswith (String c "") s).
  rewrite (IH Hs), orb_false_r.
  cbn [String.eqb]. destruct (Ascii.eqb_spec d c) as [->|_]; [congruence|reflexivity].
Qed.

Lemma ident_start_is_ident_char c : Re.ident_start c = true -> Re.ident_char c = true.
Proof. intros H. unfold Re.ident_char. rewrite H. reflexivity. Qed.

Lemma ident_start_not_digit c : Re.ident_start c = true -> Py.isdigit_char c = false.
Proof. destruct c as [[] [] [] [] [] [] [] []]; vm_compute; congruence. Qed.

Lemma digit_not_a c : Py.isdigit_char c = true -> Ascii.eqb "a" c = false.
Proof. destruct c as [[] [] [] [] [] [] [] []]; vm_compute; congruence. Qed.

Lemma decimal_is_digit c : Py.isdecimal_char c = true -> Py.isdigit_char c = true.
Proof. intros H. unfold Py.isdigit_char. rewrite H. reflexivity. Qed.

Lemma all_chars_impl (p q : ascii -> bool) s :
  (forall c, p c = true -> q c = true) ->
  Py.all_chars p s = true -> Py.all_chars q s = true.
Proof.
  intros Hpq. induction s as [|c s IH]; [reflexivity|].
  cbn [Py.all_chars]. intros H. apply andb_true_iff in H as [Hc Hs].
  rewrite (Hpq _ Hc), (IH Hs). reflexivity.
Qed.

Lemma identifier_not_array name :
  is_identifier name = true ->
  Py.startswith "array(" name && Py.endswith ")" name = false.
Proof.
  intros H. destruct name as [|c name]; [reflexivity|].
  cbn [is_identifier] in H. apply andb_true_iff in H as [Hc Hn].
  rewrite (endswith_outside Re.ident_char ")" (String c name)).
  - apply andb_false_r.
  - cbn [Py.all_chars]. rewrite (ident_start_is_ident_char _ Hc), Hn. reflexivity.
  - reflexivity.
Qed.

Lemma identifier_not_digits name :
  is_identifier name = true -> Py.isdigit name = false.
Proof.
  intros H. destruct name as [|c name]; [reflexivity|].
  cbn [is_identifier] in H. apply andb_true_iff in H as [Hc _].
  cbn [Py.isdigit Py.all_chars]. rewrite (ident_start_not_digit _ Hc). reflexivity.
Qed.

Lemma digits_not_array s :
  Py.isdigit s = true -> Py.startswith "array(" s && Py.endswith ")" s = false.
Proof.
  destruct s as [|c s]; [discriminate|].
  cbn [Py.isdigit Py.all_chars]. intros H. apply andb_true_iff in H as [Hc _].
  change (Py.startswith "array(" (String c s))
    with (Ascii.eqb "a" c && Py.startswith "rray(" s).
  rewrite (digit_not_a _ Hc). reflexivity.
Qed.

(** X8.  A literal that is an identifier is a reference and nothing else:
    it parses to the value the dictionary holds for it at that moment, and
    when the dictionary has no such key it raises
    [SyntaxError("Invalid value: <name>")].  No identifier is taken for an
    array or for digits. *)
Theorem identifier_is_a_reference (name : string) (self : session) :
  is_identifier name = true ->
  parse_value name self =
  match constants self !! name with
  | Some v => (inr v, self)
  | None => (inl (SyntaxError ("Invalid value: " +:+ name)), self)
  end.
Proof.
  intros H. rewrite parse_value_unfold.
  rewrite (identifier_not_array _ H), (identifier_not_digits _ H).
  unfold bind, get_constants. destruct (constants self !! name); reflexivity.
Qed.

Lemma identifier_is_a_reference_witness :
  parse_value "array" (declared "array" (VInt 3) init)
  = (inr (VInt 3), declared "array" (VInt 3) init) /\
  parse_value "arr" (declared "array" (VInt 3) init)
  = (inl (SyntaxError "Invalid value: arr"), declared "array" (VInt 3) init).
Proof.
  split.
  - apply (identifier_is_a_reference "array" (declared "array" (VInt 3) init) eq_refl).
  - apply (identifier_is_a_reference "arr" (declared "array" (VInt 3) init) eq_refl).
Defined.

Lemma int_decimal s :
  s <> "" -> Py.all_chars Py.isdecimal_char s = true ->
  Op.int s = if (Py.int_max_str_digits <? String.length s)%nat
             then inl ValueError else inr (Py.decimal_value 0 s).
Proof.
  intros Hne Hs. unfold Op.int. rewrite Hs.
  destruct s; [congruence|reflexivity].
Qed.

Lemma decimal_isdigit s :
  s <> "" -> Py.all_chars Py.isdecimal_char s = true -> Py.isdigit s = true.
Proof.
  intros Hne Hs. destruct s as [|c s]; [congruence|]. cbn [Py.isdigit].
  exact (all_chars_impl _ _ _ decimal_is_digit Hs).
Qed.

Lemma decimal_digits_parse s self :
  s <> "" -> Py.all_chars Py.isdecimal_char s = true ->
  String.length s <= Py.int_max_str_digits ->
  parse_value s self = (inr (VInt (Py.decimal_value 0 s)), self).
Proof.
  intros Hne Hs Hlen. rewrite parse_value_unfold.
  pose proof (decimal_isdigit s Hne Hs) as Hd.
  rewrite (digits_not_array _ Hd), Hd. unfold bind. rewrite (int_decimal s Hne Hs).
  destruct (Nat.ltb_spec Py.int_max_str_digits (String.length s)); [lia|reflexivity].
Qed.

Lemma long_digits_fail s self :
  s <> "" -> Py.all_chars Py.isdecimal_char s = true ->
  Py.int_max_str_digits < String.length s ->
  parse_value s self = (inl ValueError, self).
Proof.
  intros Hne Hs Hlen. rewrite parse_value_unfold.
  pose proof (decimal_isdigit s Hne Hs) as Hd.
  rewrite (digits_not_array _ Hd), Hd. unfold bind. rewrite (int_decimal s Hne Hs).
  destruct (Nat.ltb_spec Py.int_max_str_digits (String.length s)); [reflexivity|lia].
Qed.

(** X9.  A non-empty string of the digits 0 to 9 that is no longer than
    the conversion limit of [int], 4300 characters, parses to the integer
    it writes in base ten, which is not negative, and a leading zero that
    keeps it within the limit does not change it.  A longer one raises
    [ValueError], whatever its digits: leading zeros count. *)
Theorem decimal_literal_value (s : string) (self : session) :
  s <> "" ->
  Py.all_chars Py.isdecimal_char s = true ->
  (String.length s <= Py.int_max_str_digits ->
   parse_value s self = (inr (VInt (Py.decimal_value 0 s)), self)) /\
  (Py.int_max_str_digits < String.length s ->
   parse_value s self = (inl ValueError, self)) /\
  (0 <= Py.decimal_value 0 s)%Z /\
  (String.length s < Py.int_max_str_digits ->
   parse_value (String "0" s) self = parse_value s self).
Proof.
  intros Hne Hs. split; [|split; [|split]].
  - apply decimal_digits_parse; assumption.
  - apply long_digits_fail; assumption.
  - apply decimal_value_nonneg; [lia|exact Hs].
  - intros Hlen.
    assert (Py.all_chars Py.isdecimal_char (String "0" s) = true) as H0.
    { cbn [Py.all_chars]. rewrite Hs. reflexivity. }
    rewrite (decimal_digits_parse (String "0" s) self ltac:(discriminate) H0)
      by (cbn [String.length]; lia).
    rewrite (decimal_digits_parse s self Hne Hs) by lia. reflexivity.
Qed.

Lemma decimal_literal_value_witness :
  parse_value "0042" init = (inr (VInt 42), init).
Proof.
  apply (proj1 (decimal_literal_value "0042" init ltac:(discriminate) eq_refl)).
  unfold Py.int_max_str_digits. cbn [String.length]. lia.
Defined.

Lemma str_int_unsigned n :
  (0 <= n)%Z ->
  Py.decimal_text n <> "" /\
  Py.all_chars Py.isdecimal_char (Py.decimal_text n) = true /\
  Py.decimal_value 0 (Py.decimal_text n) = n.
Proof.
  intros Hn. destruct n as [|p|p]; [repeat split; discriminate| |lia].
  unfold Py.decimal_text. cbn [Z.to_int NilZero.string_of_int].
  pose proof (DecimalPos.Unsigned.of_to p) as Hp.
  assert (NilZero.string_of_uint (Pos.to_uint p)
          = NilEmpty.string_of_uint (Pos.to_uint p)) as ->.
  { destruct (Pos.to_uint p); try reflexivity. discriminate Hp. }
  split; [|split].
  - destruct (Pos.to_uint p); first [discriminate Hp | discriminate].
  - apply string_of_uint_decimal.
  - rewrite decimal_value_of_uint_0, Hp. reflexivity.
Qed.

(** X10.  When [str] converts an integer that is not negative, and it
    does when the integer has at most 4300 digits, the text (that of its
    node in the tree and of its report) is a literal again, and it parses
    to the same integer. *)
Theorem integer_text_parses_back (n : Z) (t : string) (self : session) :
  (0 <= n)%Z ->
  Op.str (VInt n) = inr t ->
  t = Op.text (VInt n) /\
  parse_value t self = (inr (VInt n), self).
Proof.
  intros Hn. unfold Op.str. destruct (Op.printable (VInt n)) eqn:Hp; [|discriminate].
  intros [= <-]. split; [reflexivity|].
  destruct (str_int_unsigned n Hn) as (Hne & Hdec & Hval).
  cbn [Op.printable] in Hp. rewrite Z.abs_eq in Hp by exact Hn.
  apply Nat.leb_le in Hp.
  cbn [Op.text]. rewrite (decimal_digits_parse _ self Hne Hdec Hp), Hval. reflexivity.
Qed.

Lemma integer_text_parses_back_witness :
  parse_value "1200" init = (inr (VInt 1200), init).
Proof.
  apply (proj2 (integer_text_parses_back 1200 "1200" init ltac:(lia) eq_refl)).
Defined.

(** X11.  Of the characters of Latin-1, [isdigit] accepts the digits 0 to 9
    and the superscripts of 1, 2 and 3.  A string of these that holds a
    superscript is sent to [int], which raises [ValueError]: as a literal
    and as a token of an expression alike, and the session is unchanged. *)
Theorem other_digits_raise_value_error
        (s : string) (stack : list Value) (self : session) :
  s <> "" ->
  Py.all_chars (fun c => Py.isdecimal_char c || superscript_digit c) s = true ->
  Py.all_chars Py.isdecimal_char s = false ->
  Py.isdigit s = true /\
  parse_value s self = (inl ValueError, self) /\
  eval_token s stack self = (inl ValueError, self).
Proof.
  intros Hne Hchars Hs.
  assert (Py.isdigit s = true) as Hd.
  { destruct s as [|c s]; [congruence|]. cbn [Py.isdigit].
    refine (all_chars_impl _ _ _ _ Hchars). intros d Hd.
    unfold Py.isdigit_char, superscript_digit in *. cbv zeta in *.
    rewrite !orb_assoc in Hd. exact Hd. }
  split; [exact Hd|]. split.
  - rewrite parse_value_unfold, (digits_not_array _ Hd), Hd.
    unfold bind, Op.int. rewrite Hs. reflexivity.
  - unfold eval_token. rewrite Hd. unfold bind, Op.int. rewrite Hs. reflexivity.
Qed.

Lemma other_digits_raise_value_error_witness :
  parse_value (String "1" (String "178" "")) init = (inl ValueError, init).
Proof.
  apply (proj1 (proj2 (other_digits_raise_value_error (String "1" (String "178" "")) []
                  init ltac:(discriminate) eq_refl eq_refl))).
Defined.

(* ===================================================================== *)
(** ** Further properties: array literals of any length                   *)
(* ===================================================================== *)

Lemma split_join els :
  els <> [] ->
  Forall (fun e => lacks ","%char e = true) els ->
  Py.split "," (Py.join "," els) = els.
Proof.
  intros Hne Hall. induction Hall as [|x rest Hx Hrest IH]; [congruence|].
  destruct rest as [|y rest].
  - cbn [Py.join]. apply split_lacks, Hx.
  - change (Py.join "," (x :: y :: rest))
      with (x +:+ String "," (Py.join "," (y :: rest))).
    rewrite (split_append _ _ _ Hx), IH by discriminate. reflexivity.
Qed.

Lemma for_each_of_results {A B} (f : A -> M B) xs ys self :
  (forall x, reads_only (f x)) ->
  Forall2 (fun x y => fst (f x self) = inr y) xs ys ->
  for_each f xs self = (inr ys, self).
Proof.
  intros Hf H. induction H as [|x y xs ys Hxy _ IH]; [reflexivity|].
  cbn [for_each]. unfold bind.
  rewrite (reads_only_result _ self (Hf x)), Hxy, IH. reflexivity.
Qed.

(** X12.  An array literal of any number of elements, none of which
    contains a comma, parses to the list of the values of its elements in
    order; whitespace around an element is dropped before it is parsed. *)
Theorem array_of_any_length
        (elements : list string) (values : list Value) (self : session) :
  elements <> [] ->
  Forall (fun e => lacks ","%char e = true) elements ->
  Forall2 (fun e v => fst (parse_value (Py.strip e) self) = inr v) elements values ->
  parse_value ("array(" +:+ Py.join "," elements +:+ ")") self
  = (inr (VList values), self).
Proof.
  intros Hne Hcomma Hvalues.
  rewrite parse_value_array, (split_join _ Hne Hcomma). unfold bind.
  rewrite (for_each_of_results _ _ values self); [reflexivity| |exact Hvalues].
  intros val. apply reads_only_parse_value.
Qed.

Lemma array_of_any_length_witness :
  parse_value "array( 1 ,x,array(2),  30)" (declared "x" (VInt 7) init)
  = (inr (VList [VInt 1; VInt 7; VList [VInt 2]; VInt 30]),
     declared "x" (VInt 7) init).
Proof.
  refine (array_of_any_length [" 1 "; "x"; "array(2)"; "  30"]
            [VInt 1; VInt 7; VList [VInt 2]; VInt 30]
            (declared "x" (VInt 7) init) ltac:(discriminate) _ _).
  - repeat constructor.
  - repeat constructor.
Defined.

(* ===================================================================== *)
(** ** Further properties: what a declaration line must look like         *)
(* ===================================================================== *)

Lemma all_chars_append_last p s d :
  p d = false -> Py.all_chars p (s +:+ String d "") = false.
Proof.
  intros Hd. induction s as [|c s IH].
  - rewrite append_nil_l. cbn [Py.all_chars]. rewrite Hd. reflexivity.
  - rewrite append_cons. cbn [Py.all_chars]. rewrite IH. apply andb_false_r.
Qed.

Lemma endswith_last c d s :
  Ascii.eqb d c = false -> Py.endswith (String c "") (s +:+ String d "") = false.
Proof.
  intros Hdc. induction s as [|x s IH].
  - rewrite append_nil_l.
    change (Py.endswith (String c "") (String d ""))
      with (String.eqb (String d "") (String c "") || false).
    cbn [String.eqb]. rewrite Hdc. reflexivity.
  - rewrite append_cons.
    change (Py.endswith (String c "") (String x (s +:+ String d "")))
      with (String.eqb (String x (s +:+ String d "")) (String c "")
            || Py.endswith (String c "") (s +:+ String d "")).
    rewrite IH, orb_false_r. cbn [String.eqb].
    destruct (Ascii.eqb x c); [|reflexivity].
    destruct s; reflexivity.
Qed.

(** A text that ends in a space is not a value. *)
Lemma parse_value_trailing_space s self :
  well_formed self ->
  parse_value (s +:+ " ") self
  = (inl (SyntaxError ("Invalid value: " +:+ s +:+ " ")), self).
Proof.
  intros Hwf. rewrite parse_value_unfold.
  rewrite (endswith_last ")" " " s eq_refl), andb_false_r.
  assert (Py.isdigit (s +:+ " ") = false) as ->.
  { destruct s as [|c s]; [reflexivity|]. rewrite append_cons.
    cbn [Py.isdigit]. rewrite <- append_cons.
    apply all_chars_append_last. reflexivity. }
  unfold bind, get_constants.
  rewrite (well_formed_missing (s +:+ " ") self Hwf); [reflexivity|].
  destruct s as [|c s]; [reflexivity|]. rewrite append_cons.
  cbn [is_identifier]. rewrite (all_chars_append_last Re.ident_char s " " eq_refl).
  apply andb_false_r.
Qed.

Lemma lacks_append c a b :
  lacks c (a +:+ b) = lacks c a && lacks c b.
Proof.
  unfold lacks. induction a as [|x a IH]; [reflexivity|].
  rewrite append_cons. cbn [Py.all_chars]. rewrite IH. apply andb_assoc.
Qed.

(** X13.  The text between [=] and the last [;] is parsed as it stands,
    apart from the whitespace after [=]: a space before the [;] belongs to
    the value, and the declaration fails with
    [SyntaxError("Invalid value: <value> ")], leaving the session
    unchanged, whatever the value is. *)
Theorem space_before_semicolon_is_rejected
        (name rest : string) (d : ascii) (self : session) :
  well_formed self ->
  is_identifier name = true ->
  Py.isspace_char d = false ->
  lacks "010"%char (String d rest) = true ->
  parse_line ("global " +:+ name +:+ " = " +:+ String d rest +:+ " ;") self
  = (inl (SyntaxError ("Invalid value: " +:+ String d rest +:+ " ")), self).
Proof.
  intros Hwf Hname Hd Hnl.
  destruct name as [|c name']; [discriminate|].
  cbn [is_identifier] in Hname. apply andb_true_iff in Hname as [Hc Hname'].
  rewrite parse_line_declaration.
  assert (Re.match_ global_pattern
            ("global " +:+ String c name' +:+ " = " +:+ String d rest +:+ " ;")
          = Some [String c name'; String d (rest +:+ " ")]) as Hm.
  { pose proof (match_declaration c name' d (rest +:+ " ") "" Hc Hname' Hd) as H.
    rewrite <- append_cons in H.
    rewrite (append_assoc (String d rest) " " (";" +:+ "")) in H.
    apply H; [|reflexivity].
    rewrite lacks_append, Hnl. reflexivity. }
  apply (parse_global_literal_fails _ _ _ _ _ Hm).
  rewrite <- append_cons, (parse_value_trailing_space (String d rest) self Hwf).
  reflexivity.
Qed.

Lemma space_before_semicolon_is_rejected_witness :
  parse_line "global x = 10 ;" init = (inl (SyntaxError "Invalid value: 10 "), init).
Proof.
  apply (space_before_semicolon_is_rejected "x" "0" "1" init
           well_formed_init eq_refl eq_refl eq_refl).
Defined.

Lemma lacks_drop c j s : lacks c s = true -> lacks c (Re.drop j s) = true.
Proof.
  revert j. induction s as [|x s IH]; intros [|j] H; try exact H.
  unfold lacks in H. cbn [Py.all_chars] in H. apply andb_true_iff in H as [_ H].
  exact (IH j H).
Qed.

Lemma lacks_eat c text s s' :
  Re.eat text s = Some s' -> lacks c s = true -> lacks c s' = true.
Proof.
  revert s. induction text as [|x text IH]; intros s.
  - cbn. intros [= <-] H. exact H.
  - destruct s as [|y s]; [discriminate|]. cbn [Re.eat].
    destruct (Ascii.eqb x y); [|discriminate].
    intros He H. unfold lacks in H. cbn [Py.all_chars] in H.
    apply andb_true_iff in H as [_ H]. exact (IH _ He H).
Qed.

Lemma eat_needs c s s' :
  Re.eat (String c "") s = Some s' -> lacks c s = false.
Proof.
  destruct s as [|x s]; [discriminate|]. cbn [Re.eat].
  destruct (Ascii.eqb_spec c x) as [->|_]; [|discriminate].
  intros _. unfold lacks. cbn [Py.all_chars]. rewrite Ascii.eqb_refl. reflexivity.
Qed.

Lemma match_needs_equals_and_semicolon line r :
  Re.match_ global_pattern line = Some r ->
  lacks "="%char line = false /\ lacks ";"%char line = false.
Proof.
  unfold Re.match_, global_pattern. intros H.
  assert (forall c, lacks c line = true -> lacks c line = true) as Hline by auto.
  apply run_lit_some in H as (s1 & E1 & H).
  apply run_rep_some in H as (j1 & _ & H).
  rewrite run_open in H.
  apply run_class_some in H as (c & s3 & E3 & _ & H).
  apply run_rep_some in H as (j2 & _ & H).
  rewrite run_close in H.
  apply run_rep_some in H as (j3 & _ & H).
  apply run_lit_some in H as (s4 & E4 & H).
  apply run_rep_some in H as (j4 & _ & H).
  rewrite run_open in H.
  apply run_rep_some in H as (j5 & _ & H).
  rewrite run_close in H.
  apply run_lit_some in H as (s5 & E5 & H).
  assert (forall x, lacks x line = true -> lacks x s3 = true) as H3.
  { intros x Hx. pose proof (lacks_drop x j1 s1 (lacks_eat _ _ _ _ E1 Hx)) as Hd.
    rewrite E3 in Hd. unfold lacks in Hd. cbn [Py.all_chars] in Hd.
    apply andb_true_iff in Hd as [_ Hd]. exact Hd. }
  split.
  - destruct (lacks "=" line) eqn:Hl; [|reflexivity].
    pose proof (lacks_drop _ j3 _ (lacks_drop _ j2 _ (H3 _ Hl))) as Hd.
    rewrite (eat_needs _ _ _ E4) in Hd. discriminate.
  - destruct (lacks ";" line) eqn:Hl; [|reflexivity].
    pose proof (lacks_drop _ j3 _ (lacks_drop _ j2 _ (H3 _ Hl))) as Hd.
    pose proof (lacks_drop _ j5 _ (lacks_drop _ j4 _ (lacks_eat _ _ _ _ E4 Hd))) as Hd'.
    rewrite (eat_needs _ _ _ E5) in Hd'. discriminate.
Qed.

(** X14.  A line that begins with [global ] and has no [=], or no [;],
    raises [SyntaxError("Invalid global declaration: <line>")] and leaves
    the session unchanged. *)
Theorem declaration_needs_equals_and_semicolon (rest : string) (self : session) :
  lacks "="%char rest = true \/ lacks ";"%char rest = true ->
  parse_line ("global " +:+ rest) self
  = (inl (SyntaxError ("Invalid global declaration: " +:+ "global " +:+ rest)), self).
Proof.
  intros H. rewrite parse_line_declaration. apply parse_global_unmatched.
  destruct (Re.match_ global_pattern ("global " +:+ rest)) as [r|] eqn:E;
    [|reflexivity].
  apply match_needs_equals_and_semicolon in E as [He Hs].
  rewrite lacks_append in He, Hs. cbn [andb] in He, Hs.
  change (lacks "=" "global ") with true in He.
  change (lacks ";" "global ") with true in Hs.
  cbn [andb] in He, Hs. destruct H as [H|H]; congruence.
Qed.

Lemma declaration_needs_equals_and_semicolon_witness :
  parse_line "global x = 10" init
  = (inl (SyntaxError "Invalid global declaration: global x = 10"), init) /\
  parse_line "global x 10;" init
  = (inl (SyntaxError "Invalid global declaration: global x 10;"), init).
Proof.
  split.
  - apply (declaration_needs_equals_and_semicolon "x = 10" init). right. reflexivity.
  - apply (declaration_needs_equals_and_semicolon "x 10;" init). left. reflexivity.
Defined.

Lemma space_not_ident_char c : Py.isspace_char c = true -> Re.ident_char c = false.
Proof. destruct c as [[] [] [] [] [] [] [] []]; vm_compute; congruence. Qed.

Lemma span_whitespace_then p ws c s :
  Py.all_chars p ws = true -> p c = false ->
  Re.span p (ws +:+ String c s) = String.length ws.
Proof.
  intros Hws Hc. rewrite (span_append _ _ _ Hws), (span_stop _ _ _ Hc). lia.
Qed.

(** The groups of the pattern when the three stretches of whitespace of a
    declaration are arbitrary. *)
Lemma match_declaration_spaced ws1 c name' ws2 ws3 d v' t :
  whitespace ws1 = true -> ws1 <> "" ->
  whitespace ws2 = true ->
  whitespace ws3 = true ->
  Re.ident_start c = true ->
  Py.all_chars Re.ident_char name' = true ->
  Py.isspace_char d = false ->
  lacks "010"%char (String d v') = true ->
  lacks ";"%char t = true ->
  Re.match_ global_pattern
    ("global" +:+ ws1 +:+ String c name' +:+ ws2 +:+ "=" +:+ ws3
     +:+ String d v' +:+ ";" +:+ t) =
  Some [String c name'; String d v'].
Proof.
  intros Hws1 Hne1 Hws2 Hws3 Hc Hname Hd Hv Ht.
  set (v := String d v').
  unfold Re.match_, global_pattern.
  rewrite (run_lit _ _ _ _ _ _ (eat_append "global" _)).
  (* \s+ *)
  assert (Re.span Re.space
            (ws1 +:+ String c name' +:+ ws2 +:+ "=" +:+ ws3 +:+ v +:+ ";" +:+ t)
          = String.length ws1) as Hs1.
  { rewrite append_cons.
    apply span_whitespace_then; [exact Hws1|exact (ident_start_not_space c Hc)]. }
  assert (1 <= String.length ws1) as Hlen1
    by (destruct ws1; [congruence|cbn [String.length]; lia]).
  apply (run_rep _ _ _ _ _ _ (String.length ws1)); [lia| |intros j Hj; lia].
  rewrite drop_append, run_open, append_cons, (run_class _ _ _ _ _ _ Hc).
  (* [_a-zA-Z0-9]* *)
  assert (Re.span Re.ident_char (name' +:+ ws2 +:+ "=" +:+ ws3 +:+ v +:+ ";" +:+ t)
          = String.length name') as Hs2.
  { rewrite (span_append _ _ _ Hname).
    destruct ws2 as [|x ws2].
    - rewrite append_nil_l.
      change ("=" +:+ ?r) with (String "=" r).
      rewrite span_stop by reflexivity. lia.
    - rewrite append_cons. unfold whitespace in Hws2.
      cbn [Py.all_chars] in Hws2. apply andb_true_iff in Hws2 as [Hx _].
      rewrite (span_stop _ _ _ (space_not_ident_char x Hx)). lia. }
  apply (run_rep _ _ _ _ _ _ (String.length name')); [lia| |intros j Hj; lia].
  rewrite drop_append, run_close.
  replace (String.length
             (String c (name' +:+ ws2 +:+ "=" +:+ ws3 +:+ v +:+ ";" +:+ t))
           - String.length (ws2 +:+ "=" +:+ ws3 +:+ v +:+ ";" +:+ t))
    with (String.length (String c name'))
    by (cbn [String.length]; rewrite (length_append name'); lia).
  rewrite <- append_cons, take_append.
  (* \s* = \s* *)
  assert (Re.span Re.space (ws2 +:+ "=" +:+ ws3 +:+ v +:+ ";" +:+ t)
          = String.length ws2) as Hs3.
  { change ("=" +:+ ?r) with (String "=" r).
    apply span_whitespace_then; [exact Hws2|reflexivity]. }
  apply (run_rep _ _ _ _ _ _ (String.length ws2)); [lia| |intros j Hj; lia].
  rewrite drop_append, (run_lit _ _ _ _ _ _ (eat_append "=" _)).
  assert (Re.span Re.space (ws3 +:+ v +:+ ";" +:+ t) = String.length ws3) as Hs4.
  { subst v. rewrite append_cons.
    apply span_whitespace_then; [exact Hws3|exact Hd]. }
  apply (run_rep _ _ _ _ _ _ (String.length ws3)); [lia| |intros j Hj; lia].
  rewrite drop_append, run_open.
  (* .+ ; *)
  assert (Py.all_chars Re.dot v = true) as Hdot by exact Hv.
  assert (Re.span Re.dot (v +:+ ";" +:+ t) = String.length v + S (Re.span Re.dot t))
    as Hall.
  { rewrite (span_append _ _ _ Hdot). change (";" +:+ t) with (String ";" t).
    cbn [Re.span]. change (Re.dot ";") with true. reflexivity. }
  apply (run_rep _ _ _ _ _ _ (String.length v)).
  - subst v. cbn [String.length] in *. lia.
  - rewrite drop_append, run_close.
    replace (String.length (v +:+ ";" +:+ t) - String.length (";" +:+ t))
      with (String.length v) by (rewrite length_append; lia).
    rewrite take_append.
    rewrite (run_lit ";" _ _ t) by reflexivity. reflexivity.
  - intros j Hj. rewrite run_close. apply run_lit_fail.
    replace j with (String.length v + S (j - String.length v - 1)) by lia.
    rewrite drop_append_more. change (";" +:+ t) with (String ";" t).
    cbn [Re.drop]. apply eat_drop_lacks. exact Ht.
Qed.

(** X15.  Whitespace is free in three places of a declaration: after
    [global ], before [=] and after [=], each may hold any run of
    whitespace characters, the last two also none.  The line then does
    what [global name = value;] does, in a session whose keys are
    identifiers and whose values [str] converts. *)
Theorem spacing_of_a_declaration_is_free
        (name value ws1 ws2 ws3 : string) (v : Value) (self : session) :
  printable_table self ->
  well_formed self ->
  is_identifier name = true ->
  lacks "010"%char value = true ->
  fst (parse_value value self) = inr v ->
  whitespace ws1 = true -> whitespace ws2 = true -> whitespace ws3 = true ->
  parse_line ("global " +:+ ws1 +:+ name +:+ ws2 +:+ "=" +:+ ws3 +:+ value +:+ ";") self
  = (inr tt, declared name v self).
Proof.
  intros Htable Hwf Hname Hnl Hv H1 H2 H3.
  rewrite parse_line_declaration.
  pose proof (parse_value_printable _ _ _ Htable Hv) as Hp.
  destruct (parse_value_head _ _ _ Hwf Hv) as (d & value' & -> & Hd).
  destruct name as [|c name']; [discriminate|].
  cbn [is_identifier] in Hname. apply andb_true_iff in Hname as [Hc Hname'].
  apply (parse_global_matched _ (String c name') (String d value'));
    [|exact Hv|exact Hp].
  change ("global " +:+ ws1 +:+ ?r) with ("global" +:+ String " " ws1 +:+ r).
  change (String d value' +:+ ";") with (String d value' +:+ ";" +:+ "").
  apply match_declaration_spaced; try assumption; try reflexivity; discriminate.
Qed.

Lemma spacing_of_a_declaration_is_free_witness :
  parse_line "global    total=array(1,2);" init
  = (inr tt, declared "total" (VList [VInt 1; VInt 2]) init).
Proof.
  apply (spacing_of_a_declaration_is_free "total" "array(1,2)" "   " "" ""
           (VList [VInt 1; VInt 2]) init printable_table_init well_formed_init
           eq_refl eq_refl eq_refl eq_refl eq_refl eq_refl).
Defined.

(** X16.  The dispatcher asks for a space after [global], the pattern for
    any whitespace.  With another whitespace character there (a tab), a
    declaration that the pattern would accept is never given to it: the
    line raises [SyntaxError("Unknown syntax: <line>")] and the session is
    unchanged. *)
Theorem only_a_space_after_global
        (c d : ascii) (name rest : string) (self : session) :
  Py.isspace_char c = true ->
  c <> " "%char ->
  is_identifier name = true ->
  Py.isspace_char d = false ->
  lacks "010"%char (String d rest) = true ->
  let line := "global" +:+ String c name +:+ " = " +:+ String d rest +:+ ";" in
  Re.match_ global_pattern line = Some [name; String d rest] /\
  parse_line line self = (inl (SyntaxError ("Unknown syntax: " +:+ line)), self).
Proof.
  intros Hc Hsp Hname Hd Hnl. cbv zeta. split.
  - destruct name as [|x name']; [discriminate|].
    cbn [is_identifier] in Hname. apply andb_true_iff in Hname as [Hx Hname'].
    change ("global" +:+ String c (String x name') +:+ " = " +:+ String d rest +:+ ";")
      with ("global" +:+ String c "" +:+ String x name' +:+ " " +:+ "=" +:+ " "
            +:+ String d rest +:+ ";" +:+ "").
    apply match_declaration_spaced; try assumption; try reflexivity; try discriminate.
    unfold whitespace. cbn [Py.all_chars]. rewrite Hc. reflexivity.
  - unfold parse_line.
    change (negb (Py.truthy ("global" +:+ String c name +:+ ?r))
            || Py.startswith "#" ("global" +:+ String c name +:+ ?r)) with false.
    change (Py.startswith "global " ("global" +:+ String c name +:+ ?r))
      with (Ascii.eqb " " c && true).
    change (Py.startswith "^" ("global" +:+ String c name +:+ ?r)) with false.
    destruct (Ascii.eqb_spec " " c) as [E|_]; [congruence|reflexivity].
Qed.

Lemma only_a_space_after_global_witness :
  parse_line (String "g" (String "l" (String "o" (String "b" (String "a" (String "l"
                (String "009" "x = 1;"))))))) init
  = (inl (SyntaxError ("Unknown syntax: " +:+
        String "g" (String "l" (String "o" (String "b" (String "a" (String "l"
                (String "009" "x = 1;")))))))), init).
Proof.
  apply (proj2 (only_a_space_after_global "009" "1" "x" "" init
                  eq_refl ltac:(discriminate) eq_refl eq_refl eq_refl)).
Defined.

(* ===================================================================== *)
(** ** Further properties: declaring a name again                         *)
(* ===================================================================== *)

Lemma rstrip_append_nonspace a d :
  Py.isspace_char d = false ->
  Py.rstrip (a +:+ String d "") = a +:+ String d "".
Proof.
  intros Hd. induction a as [|c a IH].
  - rewrite append_nil_l. cbn [Py.rstrip]. rewrite Hd. reflexivity.
  - rewrite append_cons. cbn [Py.rstrip]. rewrite IH.
    destruct a; reflexivity.
Qed.

Lemma strip_declaration name value :
  Py.strip (declaration name value "") = declaration name value "".
Proof.
  unfold declaration, Py.strip.
  change (Py.lstrip ("global " +:+ ?r)) with ("global " +:+ r).
  change ("global " +:+ name +:+ " = " +:+ value +:+ ";" +:+ "")
    with (String "g" ("lobal " +:+ name +:+ " = " +:+ value +:+ ";")).
  rewrite <- (append_assoc " = " value ";"), <- (append_assoc name _ ";"),
          <- (append_assoc "lobal " _ ";"), <- append_cons.
  apply rstrip_append_nonspace. reflexivity.
Qed.

Lemma identifier_lacks c name :
  Re.ident_char c = false -> is_identifier name = true -> lacks c name = true.
Proof.
  intros Hc H. destruct name as [|x name]; [reflexivity|].
  cbn [is_identifier] in H. apply andb_true_iff in H as [Hx Hn].
  assert (forall y, Re.ident_char y = true -> negb (Ascii.eqb y c) = true) as Himp.
  { intros y Hy. destruct (Ascii.eqb_spec y c) as [->|_]; [congruence|reflexivity]. }
  unfold lacks. cbn [Py.all_chars].
  rewrite (Himp _ (ident_start_is_ident_char _ Hx)).
  exact (all_chars_impl _ _ _ Himp Hn).
Qed.

(** X17.  Declaring a name again replaces its binding and adds a second
    node; it does not reach back.  After [global x = l1;], [global y = x;]
    and [global x = l2;], [y] still holds the value [x] had when [y] was
    declared, [x] holds the new value, and the tree has the three nodes in
    the order of the lines, the first node of [x] included.  The session
    at the start has identifiers as keys and values that [str] converts. *)
Theorem redeclaration_does_not_reach_back
        (x y l1 l2 : string) (v1 v2 : Value) (self : session) :
  printable_table self ->
  well_formed self ->
  is_identifier x = true -> is_identifier y = true -> x <> y ->
  lacks "010"%char l1 = true -> lacks "010"%char l2 = true ->
  fst (parse_value l1 self) = inr v1 ->
  fst (parse_value l2 (declared y v1 (declared x v1 self))) = inr v2 ->
  let final := declared x v2 (declared y v1 (declared x v1 self)) in
  parse_lines [declaration x l1 ""; declaration y x ""; declaration x l2 ""] self
    = (inr tt, final) /\
  constants final !! x = Some v2 /\
  constants final !! y = Some v1 /\
  children (xml_root final)
    = (children (xml_root self)
       ++ [constant_element x v1; constant_element y v1; constant_element x v2])%list.
Proof.
  intros Htable Hwf Hx Hy Hxy Hl1 Hl2 Hv1 Hv2. cbv zeta.
  pose proof (well_formed_declared x v1 self Hx Hwf) as Hwf1.
  pose proof (well_formed_declared y v1 _ Hy Hwf1) as Hwf2.
  pose proof (parse_value_printable _ _ _ Htable Hv1) as Hp1.
  pose proof (printable_table_declared x v1 self Hp1 Htable) as Htable1.
  pose proof (printable_table_declared y v1 _ Hp1 Htable1) as Htable2.
  split; [|split; [|split]].
  - cbn [parse_lines]. unfold bind. rewrite !strip_declaration.
    rewrite (declaration_line x l1 "" v1 self Htable Hwf Hx Hl1 eq_refl Hv1).
    rewrite (declaration_line y x "" v1 (declared x v1 self) Htable1 Hwf1 Hy
               (identifier_lacks "010" x eq_refl Hx) eq_refl).
    + rewrite (declaration_line x l2 "" v2 _ Htable2 Hwf2 Hx Hl2 eq_refl Hv2).
      reflexivity.
    + rewrite (identifier_is_a_reference x _ Hx). cbn [declared constants].
      rewrite lookup_insert_eq. reflexivity.
  - cbn [declared constants]. apply lookup_insert_eq.
  - cbn [declared constants].
    rewrite lookup_insert_ne by exact Hxy. apply lookup_insert_eq.
  - cbn [declared xml_root]. destruct (xml_root self) as [tag attrib txt cs].
    cbn [append_child children]. rewrite <- !app_assoc. reflexivity.
Qed.

Lemma redeclaration_does_not_reach_back_witness :
  parse_lines ["global x = 1;"; "global y = x;"; "global x = array(x, y);"] init
  = (inr tt,
     declared "x" (VList [VInt 1; VInt 1])
       (declared "y" (VInt 1) (declared "x" (VInt 1) init))).
Proof.
  apply (proj1 (redeclaration_does_not_reach_back "x" "y" "1" "array(x, y)"
                  (VInt 1) (VList [VInt 1; VInt 1]) init
                  printable_table_init well_formed_init
                  eq_refl eq_refl ltac:(discriminate) eq_refl eq_refl eq_refl eq_refl)).
Defined.

(* ===================================================================== *)
(** ** Further properties: the evaluator                                  *)
(* ===================================================================== *)

Lemma eval_token_applies token op stack self :
  Py.isdigit token = false -> constants self !! token = None ->
  (if String.eqb token "+" then binary Op.add stack
   else if String.eqb token "-" then binary Op.sub stack
   else if String.eqb token "*" then binary Op.mul stack
   else if String.eqb token "/" then binary Op.floordiv stack
   else if String.eqb token "mod" then binary Op.mod_ stack
   else if String.eqb token "max" then binary Op.max stack
   else raise (SyntaxError ("Unknown token in expression: " +:+ token)))
  = binary op stack ->
  eval_token token stack self = binary op stack self.
Proof. intros Hd Hc <-. apply eval_token_unbound; assumption. Qed.

Lemma binary_two op a b stack self :
  binary op (b :: a :: stack) self =
  match op a b with
  | inr r => (inr (r :: stack), self)
  | inl e => (inl e, self)
  end.
Proof. unfold binary, bind, pop, ret, lift. destruct (op a b); reflexivity. Qed.

(** X18.  On two integers the tokens [+], [-], [*] and [max] leave the
    sum, the difference, the product and the greater of the two, with the
    operand pushed first on the left: [a b -] is [a - b].  The values
    below the two operands stay as they are. *)
Theorem integer_operators (a b : Z) (stack : list Value) (self : session) :
  well_formed self ->
  constants self !! "max" = None ->
  eval_token "+" (VInt b :: VInt a :: stack) self
    = (inr (VInt (a + b) :: stack), self) /\
  eval_token "-" (VInt b :: VInt a :: stack) self
    = (inr (VInt (a - b) :: stack), self) /\
  eval_token "*" (VInt b :: VInt a :: stack) self
    = (inr (VInt (a * b) :: stack), self) /\
  eval_token "max" (VInt b :: VInt a :: stack) self
    = (inr (VInt (Z.max a b) :: stack), self).
Proof.
  intros Hwf Hmax.
  pose proof (well_formed_missing "+" self Hwf eq_refl) as Hadd.
  pose proof (well_formed_missing "-" self Hwf eq_refl) as Hsub.
  pose proof (well_formed_missing "*" self Hwf eq_refl) as Hmul.
  split; [|split; [|split]].
  - rewrite (eval_token_applies "+" Op.add _ _ eq_refl Hadd eq_refl), binary_two.
    reflexivity.
  - rewrite (eval_token_applies "-" Op.sub _ _ eq_refl Hsub eq_refl), binary_two.
    reflexivity.
  - rewrite (eval_token_applies "*" Op.mul _ _ eq_refl Hmul eq_refl), binary_two.
    reflexivity.
  - rewrite (eval_token_applies "max" Op.max _ _ eq_refl Hmax eq_refl), binary_two.
    unfold Op.max. cbn [Op.gt].
    destruct (Z.ltb_spec a b);
      [rewrite Z.max_r by lia|rewrite Z.max_l by lia]; reflexivity.
Qed.

Lemma integer_operators_witness :
  eval_token "-" [VInt 7; VInt 2] init = (inr [VInt (-5)], init).
Proof.
  apply (proj1 (proj2 (integer_operators 2 7 [] init well_formed_init eq_refl))).
Defined.

(** X19.  Dividing by zero is not a [SyntaxError]: when [/] or [mod] finds
    the integer 0 on top of an integer, the evaluation ends in
    [ZeroDivisionError], prints nothing and leaves the session as it
    was. *)
Theorem division_by_zero_escapes
        (expression op : string) (before after : list string)
        (a : Z) (stack : list Value) (self : session) :
  Py.split_whitespace expression = (before ++ op :: after)%list ->
  op = "/" \/ op = "mod" ->
  constants self !! op = None ->
  fst (eval_tokens before [] self) = inr (VInt 0 :: VInt a :: stack) ->
  evaluate_expression expression self = (inl ZeroDivisionError, self).
Proof.
  intros Hsplit Hop Hfree Hbefore.
  rewrite evaluate_expression_outcome, Hsplit, eval_tokens_app, Hbefore.
  cbn [eval_tokens]. unfold bind.
  destruct Hop as [-> | ->].
  - rewrite (eval_token_applies "/" Op.floordiv _ _ eq_refl Hfree eq_refl), binary_two.
    reflexivity.
  - rewrite (eval_token_applies "mod" Op.mod_ _ _ eq_refl Hfree eq_refl), binary_two.
    reflexivity.
Qed.

Lemma division_by_zero_escapes_witness :
  evaluate_expression "8 2 2 - mod" init = (inl ZeroDivisionError, init).
Proof.
  refine (division_by_zero_escapes "8 2 2 - mod" "mod" ["8"; "2"; "2"; "-"] []
            8 [] init eq_refl _ eq_refl eq_refl).
  right. reflexivity.
Defined.

(** X20.  A constant that holds a list can be an operand.  [+] joins two
    lists; [-], [/] and [mod] raise [TypeError] as soon as one operand is
    a list, and so does [+] between a list and an integer.  [TypeError] is
    not a [SyntaxError], and the session is unchanged. *)
Theorem list_operands
        (xs ys : list Value) (v : Value) (a : Z) (stack : list Value) (self : session) :
  well_formed self ->
  constants self !! "mod" = None ->
  eval_token "+" (VList ys :: VList xs :: stack) self
    = (inr (VList (xs ++ ys) :: stack), self) /\
  eval_token "+" (VInt a :: VList xs :: stack) self = (inl TypeError, self) /\
  eval_token "+" (VList xs :: VInt a :: stack) self = (inl TypeError, self) /\
  (forall op, In op ["-"; "/"; "mod"] ->
     eval_token op (VList xs :: v :: stack) self = (inl TypeError, self) /\
     eval_token op (v :: VList xs :: stack) self = (inl TypeError, self)).
Proof.
  intros Hwf Hmod.
  pose proof (well_formed_missing "+" self Hwf eq_refl) as Hadd.
  pose proof (well_formed_missing "-" self Hwf eq_refl) as Hsub.
  pose proof (well_formed_missing "/" self Hwf eq_refl) as Hdiv.
  split; [|split; [|split]].
  - rewrite (eval_token_applies "+" Op.add _ _ eq_refl Hadd eq_refl), binary_two.
    reflexivity.
  - rewrite (eval_token_applies "+" Op.add _ _ eq_refl Hadd eq_refl), binary_two.
    reflexivity.
  - rewrite (eval_token_applies "+" Op.add _ _ eq_refl Hadd eq_refl), binary_two.
    reflexivity.
  - intros op Hop. cbn [In] in Hop.
    destruct Hop as [<-|[<-|[<-|[]]]]; split.
    + rewrite (eval_token_applies "-" Op.sub _ _ eq_refl Hsub eq_refl), binary_two.
      destruct v; reflexivity.
    + rewrite (eval_token_applies "-" Op.sub _ _ eq_refl Hsub eq_refl), binary_two.
      destruct v; reflexivity.
    + rewrite (eval_token_applies "/" Op.floordiv _ _ eq_refl Hdiv eq_refl), binary_two.
      destruct v; reflexivity.
    + rewrite (eval_token_applies "/" Op.floordiv _ _ eq_refl Hdiv eq_refl), binary_two.
      destruct v; reflexivity.
    + rewrite (eval_token_applies "mod" Op.mod_ _ _ eq_refl Hmod eq_refl), binary_two.
      destruct v; reflexivity.
    + rewrite (eval_token_applies "mod" Op.mod_ _ _ eq_refl Hmod eq_refl), binary_two.
      destruct v; reflexivity.
Qed.

Lemma list_operands_witness :
  eval_token "+" [VList [VInt 3]; VList [VInt 1; VInt 2]] init
  = (inr [VList [VInt 1; VInt 2; VInt 3]], init).
Proof.
  apply (proj1 (list_operands [VInt 1; VInt 2] [VInt 3] (VInt 0) 0 [] init
                  well_formed_init eq_refl)).
Defined.

Lemma split_where_none p s :
  Py.all_chars (fun c => negb (p c)) s = true -> Py.split_where p s = [s].
Proof.
  induction s as [|c s IH]; [reflexivity|].
  cbn [Py.all_chars Py.split_where]. intros H. apply andb_true_iff in H as [Hc Hs].
  apply negb_true_iff in Hc. rewrite Hc, (IH Hs). reflexivity.
Qed.

Lemma ident_char_not_space c : Re.ident_char c = true -> negb (Py.isspace_char c) = true.
Proof.
  intros H. destruct (Py.isspace_char c) eqn:E; [|reflexivity].
  rewrite (space_not_ident_char c E) in H. discriminate.
Qed.

Lemma identifier_is_one_token name :
  is_identifier name = true ->
  Py.split_whitespace name = [name] /\
  Py.split_whitespace (String " " name) = [name].
Proof.
  intros H. destruct name as [|c name]; [discriminate|].
  cbn [is_identifier] in H. apply andb_true_iff in H as [Hc Hn].
  assert (Py.split_where Py.isspace_char (String c name) = [String c name]) as E.
  { apply split_where_none. cbn [Py.all_chars].
    rewrite (ident_char_not_space _ (ident_start_is_ident_char _ Hc)).
    exact (all_chars_impl _ _ _ ident_char_not_space Hn). }
  unfold Py.split_whitespace. split.
  - rewrite E. reflexivity.
  - change (Py.split_where Py.isspace_char (String " " (String c name)))
      with ("" :: Py.split_where Py.isspace_char (String c name)).
    rewrite E. reflexivity.
Qed.

(** X21.  An expression that is a single declared name reports the value
    of that name as it stands, an integer or a list alike; [mod] and [max]
    are names like any other once they are declared.  The values of the
    session are ones that [str] converts, as they are in every session a
    parser reaches. *)
Theorem name_as_expression (name : string) (v : Value) (self : session) :
  printable_table self ->
  is_identifier name = true ->
  constants self !! name = Some v ->
  parse_line ("^" +:+ name) self = (inr tt, reported v self) /\
  parse_line ("^ " +:+ name) self = (inr tt, reported v self).
Proof.
  intros Htable Hname Hv.
  pose proof (Htable _ _ Hv) as Hp.
  destruct (identifier_is_one_token name Hname) as [H1 H2].
  assert (eval_tokens [name] [] self = (inr [v], self)) as He.
  { cbn [eval_tokens]. unfold bind, eval_token.
    rewrite (identifier_not_digits _ Hname). unfold bind, get_constants.
    rewrite Hv. reflexivity. }
  split.
  - change ("^" +:+ name) with (String "^" name).
    rewrite parse_line_expression. unfold bind.
    rewrite evaluate_expression_outcome, H1, He. cbn [fst]. rewrite Hp. reflexivity.
  - change ("^ " +:+ name) with (String "^" (String " " name)).
    rewrite parse_line_expression. unfold bind.
    rewrite evaluate_expression_outcome, H2, He. cbn [fst]. rewrite Hp. reflexivity.
Qed.

Lemma name_as_expression_witness :
  parse_line "^ max" (declared "max" (VList [VInt 1; VInt 2]) init)
  = (inr tt, reported (VList [VInt 1; VInt 2])
               (declared "max" (VList [VInt 1; VInt 2]) init)).
Proof.
  refine (proj2 (name_as_expression "max" (VList [VInt 1; VInt 2])
                   (declared "max" (VList [VInt 1; VInt 2]) init) _ eq_refl eq_refl)).
  apply printable_table_declared; [reflexivity|exact printable_table_init].
Defined.

Lemma eval_tokens_decimal tokens stack self :
  Forall (fun t => t <> "" /\ Py.all_chars Py.isdecimal_char t = true /\
                   String.length t <= Py.int_max_str_digits) tokens ->
  eval_tokens tokens stack self
  = (inr (rev (List.map (fun t => VInt (Py.decimal_value 0 t)) tokens) ++ stack)%list,
     self).
Proof.
  intros H. revert stack.
  induction H as [|t tokens (Hne & Ht & Hlen) _ IH]; intros stack.
  - reflexivity.
  - cbn [eval_tokens List.map rev]. unfold bind.
    rewrite (eval_token_digits t (Py.decimal_value 0 t)).
    + rewrite IH, <- app_assoc. reflexivity.
    + exact (decimal_isdigit t Hne Ht).
    + rewrite (int_decimal t Hne Ht).
      destruct (Nat.ltb_spec Py.int_max_str_digits (String.length t));
        [lia|reflexivity].
Qed.

(** X22.  An expression made of integers alone, each of at most 4300
    digits, is valid only when it is one integer: with none (an empty
    expression) or with two or more, every token is read and then
    [SyntaxError("Invalid expression: ...")] is raised, nothing is printed
    and the session is unchanged. *)
Theorem operands_without_operator
        (expression : string) (tokens : list string) (self : session) :
  Py.split_whitespace expression = tokens ->
  Forall (fun t => t <> "" /\ Py.all_chars Py.isdecimal_char t = true /\
                   String.length t <= Py.int_max_str_digits) tokens ->
  length tokens <> 1 ->
  evaluate_expression expression self
  = (inl (SyntaxError ("Invalid expression: " +:+ expression)), self).
Proof.
  intros Hsplit Htokens Hlen.
  rewrite evaluate_expression_outcome, Hsplit, (eval_tokens_decimal _ _ _ Htokens).
  cbn [fst]. rewrite app_nil_r.
  destruct tokens as [|t1 [|t2 tokens]]; [reflexivity|cbn in Hlen; congruence|].
  cbn [List.map rev].
  destruct (rev (List.map _ tokens)) as [|x [|y rest]]; reflexivity.
Qed.

Lemma operands_without_operator_witness :
  evaluate_expression "  " init = (inl (SyntaxError "Invalid expression:   "), init) /\
  evaluate_expression "1 2" init = (inl (SyntaxError "Invalid expression: 1 2"), init).
Proof.
  split.
  - apply (operands_without_operator "  " [] init eq_refl);
      [constructor|discriminate].
  - apply (operands_without_operator "1 2" ["1"; "2"] init eq_refl);
      [|discriminate].
    repeat constructor; first [discriminate | unfold Py.int_max_str_digits; lia].
Defined.

Lemma eval_token_below token stack stack' below self :
  fst (eval_token token stack self) = inr stack' ->
  fst (eval_token token (stack ++ below) self) = inr (stack' ++ below)%list.
Proof.
  unfold eval_token. destruct (Py.isdigit token).
  - unfold bind. destruct (lift (Op.int token) self) as [[e|i] s1]; [discriminate|].
    cbn. intros [= <-]. reflexivity.
  - unfold bind, get_constants. destruct (constants self !! token).
    + cbn. intros [= <-]. reflexivity.
    + assert (forall op,
                fst (binary op stack self) = inr stack' ->
                fst (binary op (stack ++ below) self) = inr (stack' ++ below)%list)
        as Hbin.
      { intros op. destruct stack as [|b [|a stack]]; [discriminate|discriminate|].
        cbn [app]. rewrite !binary_two.
        destruct (op a b); [discriminate|]. cbn. intros [= <-]. reflexivity. }
      repeat match goal with
             | |- context [if ?c then _ else _] => destruct c
             end; first [apply Hbin | discriminate].
Qed.

Lemma eval_tokens_below tokens stack stack' below self :
  fst (eval_tokens tokens stack self) = inr stack' ->
  fst (eval_tokens tokens (stack ++ below) self) = inr (stack' ++ below)%list.
Proof.
  revert stack. induction tokens as [|token tokens IH]; intros stack.
  - cbn. intros [= <-]. reflexivity.
  - cbn [eval_tokens]. unfold bind.
    rewrite (reads_only_result _ self (reads_only_eval_token token stack)).
    rewrite (reads_only_result _ self (reads_only_eval_token token (stack ++ below))).
    destruct (fst (eval_token token stack self)) as [e|stack1] eqn:E; [discriminate|].
    rewrite (eval_token_below _ _ _ below _ E). apply IH.
Qed.

(** X23.  Postfix expressions compose.  Tokens that evaluate on a stack
    give the same result on a deeper one and leave what lies below as it
    is; so when two token sequences evaluate on their own, the second
    after the first leaves the values of the first below the values of the
    second. *)
Theorem postfix_expressions_compose
        (first second : list string) (stack1 stack2 below : list Value)
        (self : session) :
  fst (eval_tokens first [] self) = inr stack1 ->
  fst (eval_tokens second [] self) = inr stack2 ->
  fst (eval_tokens first below self) = inr (stack1 ++ below)%list /\
  fst (eval_tokens (first ++ second) [] self) = inr (stack2 ++ stack1)%list.
Proof.
  intros H1 H2. split.
  - exact (eval_tokens_below first [] stack1 below self H1).
  - rewrite eval_tokens_app, H1.
    exact (eval_tokens_below second [] stack2 stack1 self H2).
Qed.

Lemma postfix_expressions_compose_witness :
  fst (eval_tokens (["1"; "2"; "+"] ++ ["4"; "5"; "*"]) [] init)
  = inr [VInt 20; VInt 3].
Proof.
  apply (proj2 (postfix_expressions_compose ["1"; "2"; "+"] ["4"; "5"; "*"]
                  [VInt 3] [VInt 20] [] init eq_refl eq_refl)).
Defined.

(* ===================================================================== *)
(** ** Further properties: the document                                   *)
(* ===================================================================== *)

Lemma Value_induction (P : Value -> Prop) :
  (forall i, P (VInt i)) ->
  (forall items, Forall P items -> P (VList items)) ->
  forall v, P v.
Proof.
  intros Hint Hlist. fix IH 1. intros [i|items]; [apply Hint|].
  apply Hlist. induction items as [|x xs IHxs]; constructor; [apply IH|exact IHxs].
Qed.

Lemma all_chars_append p a b :
  Py.all_chars p (a +:+ b) = Py.all_chars p a && Py.all_chars p b.
Proof.
  induction a as [|c a IH]; [reflexivity|].
  rewrite append_cons. cbn [Py.all_chars]. rewrite IH. apply andb_assoc.
Qed.

Lemma all_chars_join p sep pieces :
  Py.all_chars p sep = true ->
  Forall (fun x => Py.all_chars p x = true) pieces ->
  Py.all_chars p (Py.join sep pieces) = true.
Proof.
  intros Hsep H. induction H as [|x rest Hx _ IH]; [reflexivity|].
  destruct rest as [|y rest]; [exact Hx|].
  change (Py.join sep (x :: y :: rest)) with (x +:+ sep +:+ Py.join sep (y :: rest)).
  rewrite !all_chars_append, Hx, Hsep, IH. reflexivity.
Qed.

Lemma str_int_chars i : Py.all_chars str_char (Py.decimal_text i) = true.
Proof.
  assert (forall d, Py.all_chars str_char (NilZero.string_of_uint d) = true) as H.
  { intros d.
    assert (Py.all_chars str_char (NilEmpty.string_of_uint d) = true) as Hd.
    { apply (all_chars_impl Py.isdecimal_char); [|apply string_of_uint_decimal].
      intros c Hc. unfold str_char. rewrite Hc. reflexivity. }
    destruct d; exact Hd. }
  unfold Py.decimal_text. destruct (Z.to_int i) as [d|d]; cbn [NilZero.string_of_int].
  - apply H.
  - cbn [Py.all_chars]. rewrite H. reflexivity.
Qed.

Lemma str_chars v : Py.all_chars str_char (Op.text v) = true.
Proof.
  induction v as [i|items IH] using Value_induction.
  - apply str_int_chars.
  - cbn [Op.text]. rewrite !all_chars_append.
    rewrite all_chars_join; [reflexivity|reflexivity|].
    induction IH as [|x xs Hx _ IHxs]; constructor; assumption.
Qed.

Lemma str_nonempty v : Py.truthy (Op.text v) = true.
Proof.
  destruct v as [i|items]; [|reflexivity].
  cbn [Op.text]. unfold Py.decimal_text.
  destruct (Z.to_int i) as [d|d]; cbn [NilZero.string_of_int]; [|reflexivity].
  destruct d; reflexivity.
Qed.

Lemma replace_chars_same f s :
  Py.all_chars (fun c => match f c with None => true | Some _ => false end) s = true ->
  ET.replace_chars f s = s.
Proof.
  induction s as [|c s IH]; [reflexivity|].
  cbn [Py.all_chars ET.replace_chars]. intros H. apply andb_true_iff in H as [Hc Hs].
  destruct (f c); [discriminate|]. rewrite (IH Hs). reflexivity.
Qed.

Lemma escape_cdata_str v : ET.escape_cdata (Op.text v) = Op.text v.
Proof.
  apply replace_chars_same.
  apply (all_chars_impl str_char); [|apply str_chars].
  intros c. destruct c as [[] [] [] [] [] [] [] []]; vm_compute; congruence.
Qed.

Lemma escape_attrib_identifier name :
  is_identifier name = true -> ET.escape_attrib name = name.
Proof.
  intros H. apply replace_chars_same.
  destruct name as [|x name]; [reflexivity|].
  cbn [is_identifier] in H. apply andb_true_iff in H as [Hx Hn].
  assert (forall c, Re.ident_char c = true ->
            match (if Ascii.eqb c "&" then Some "&amp;"
                   else if Ascii.eqb c "<" then Some "&lt;"
                   else if Ascii.eqb c ">" then Some "&gt;"
                   else if Ascii.eqb c "034" then Some "&quot;"
                   else if Ascii.eqb c "013" then Some "&#13;"
                   else if Ascii.eqb c "010" then Some "&#10;"
                   else if Ascii.eqb c "009" then Some "&#09;"
                   else None) with None => true | Some _ => false end = true) as Himp.
  { intros c. destruct c as [[] [] [] [] [] [] [] []]; vm_compute; congruence. }
  cbn [Py.all_chars]. rewrite (Himp _ (ident_start_is_ident_char _ Hx)).
  exact (all_chars_impl _ _ _ Himp Hn).
Qed.

Lemma concat_str_app xs ys :
  ET.concat_str (xs ++ ys) = ET.concat_str xs +:+ ET.concat_str ys.
Proof.
  induction xs as [|x xs IH]; [reflexivity|].
  cbn [app ET.concat_str]. rewrite IH, append_assoc. reflexivity.
Qed.

Lemma serialize_value_element val :
  ET.serialize (value_element val) = value_xml val.
Proof.
  unfold value_element, value_xml. cbn [ET.serialize List.map ET.concat_str].
  rewrite (str_nonempty val), escape_cdata_str. reflexivity.
Qed.

Lemma serialize_value_elements items :
  ET.concat_str (List.map ET.serialize (List.map value_element items))
  = ET.concat_str (List.map value_xml items).
Proof.
  induction items as [|val items IH]; [reflexivity|].
  cbn [List.map ET.concat_str]. rewrite serialize_value_element, IH. reflexivity.
Qed.

Lemma serialize_constant_element name v :
  is_identifier name = true -> plain v = true ->
  ET.serialize (constant_element name v) = constant_xml name v.
Proof.
  intros Hname Hv. unfold constant_xml. destruct v as [i|items].
  - cbn [constant_element ET.serialize List.map ET.concat_str].
    rewrite (str_nonempty (VInt i)), escape_cdata_str.
    unfold ET.attribute. cbn [fst snd]. rewrite (escape_attrib_identifier _ Hname).
    cbn [orb]. rewrite !append_assoc, ?append_nil_r. reflexivity.
  - cbn [constant_element ET.serialize].
    destruct items as [|item items]; [discriminate|].
    rewrite serialize_value_elements.
    cbn [List.map ET.concat_str orb].
    unfold ET.attribute. cbn [fst snd]. rewrite (escape_attrib_identifier _ Hname).
    rewrite !append_assoc, ?append_nil_r. reflexivity.
Qed.

(** X24.  The text [to_xml] returns.  For a fresh parser that has
    processed any lines it is [<config />] while nothing is declared, and
    otherwise the elements of the declarations between [<config>] and
    [</config>].  A further declaration of [name] with value [v] adds one
    element after those already there: [<constant name="name">] followed
    by the text of an integer, or by one [<value>] element per item of a
    list, and closed by [</constant>]; nothing is escaped or reordered. *)
Theorem document_grows_by_one_element
        (lines : list string) (name value : string) (v : Value) :
  let self := snd (parse_lines lines init) in
  is_identifier name = true ->
  fst (parse_value value self) = inr v ->
  fst (to_xml self)
    = inr (match children (xml_root self) with
           | [] => "<config />"
           | _ => "<config>" +:+ document_body (xml_root self) +:+ "</config>"
           end) /\
  fst (to_xml (declared name v self))
    = inr ("<config>" +:+ document_body (xml_root self)
           +:+ constant_xml name v +:+ "</config>").
Proof.
  cbv zeta. intros Hname Hv.
  assert ((exists cs, xml_root (snd (parse_lines lines init))
                      = mkElement "config" [] None cs) /\
          (forall key w, constants (snd (parse_lines lines init)) !! key = Some w ->
                         plain w = true)) as [[cs Hroot] Hplain].
  { apply (parse_lines_invariant
             (fun s => (exists cs, xml_root s = mkElement "config" [] None cs) /\
                       (forall key w, constants s !! key = Some w -> plain w = true))
             lines init printable_table_init).
    - split; [exists []; reflexivity|].
      intros key w H. cbn in H. rewrite lookup_empty in H. discriminate.
    - intros s n val w [[cs Hcs] Hp] _ Hw. split.
      + cbn [declared xml_root]. rewrite Hcs. cbn [append_child]. eauto.
      + intros key u. cbn [declared constants].
        destruct (decide (n = key)) as [<-|Hne].
        * rewrite lookup_insert_eq. intros [= <-].
          exact (parse_value_plain _ _ _ _ Hp Hw).
        * rewrite lookup_insert_ne by exact Hne. apply Hp.
    - intros s result Hs. exact Hs. }
  pose proof (parse_value_plain _ _ _ _ Hplain Hv) as Hv'.
  unfold to_xml, ET.tostring, document_body. cbn [fst declared xml_root].
  rewrite Hroot. cbn [append_child children]. split.
  - destruct cs as [|e cs]; [reflexivity|]. reflexivity.
  - cbn [ET.serialize]. rewrite List.map_app, concat_str_app.
    cbn [List.map ET.concat_str].
    rewrite (serialize_constant_element _ _ Hname Hv').
    destruct (cs ++ [constant_element name v])%list eqn:E;
      [destruct cs; discriminate|].
    cbn [orb]. rewrite !append_assoc, ?append_nil_r. reflexivity.
Qed.

Lemma document_grows_by_one_element_witness :
  fst (to_xml (declared "y" (VList [VInt 1; VInt 10])
                 (snd (parse_lines ["global x = 10;"] init))))
  = inr ("<config>" +:+ "<constant name=" +:+ ET.quot +:+ "x" +:+ ET.quot
         +:+ ">10</constant>"
         +:+ "<constant name=" +:+ ET.quot +:+ "y" +:+ ET.quot
         +:+ "><value>1</value><value>10</value></constant>" +:+ "</config>").
Proof.
  apply (proj2 (document_grows_by_one_element ["global x = 10;"] "y" "array(1, x)"
                  (VList [VInt 1; VInt 10]) eq_refl eq_refl)).
Defined.

(* ===================================================================== *)
(** ** Further properties: the script                                     *)
(* ===================================================================== *)

(** X25.  How the script ends when a line fails.  It has printed what the
    expression lines before that line reported, and nothing of the
    document.  For a [SyntaxError] it then prints [Syntax error: ] with the
    message and exits with status 1; any other exception (from a [pop] on
    an empty stack, a division by zero, a list operand, a digit outside 0
    to 9) is not caught and ends the script.  The lines after the failing
    one play no part. *)
Theorem script_on_a_failing_line
        (before after : list string) (bad : string) (e : exn) (good : session) :
  parse_lines before init = (inr tt, good) ->
  fst (parse_line (Py.strip bad) good) = inl e ->
  main (before ++ bad :: after) =
  match e with
  | SyntaxError msg => ((stdout good ++ ["Syntax error: " +:+ msg])%list, Exit 1)
  | _ => (stdout good, Uncaught e)
  end.
Proof.
  intros Hbefore Hbad. unfold main.
  pose proof (parse_lines_printable before init printable_table_init) as Hgood.
  rewrite Hbefore in Hgood. cbn [snd] in Hgood.
  rewrite parse_lines_app, Hbefore. cbn [parse_lines]. unfold bind.
  destruct (parse_line (Py.strip bad) good) as [[e'|u] self'] eqn:E;
    cbn [fst] in Hbad; [|discriminate].
  injection Hbad as ->. apply (parse_line_failure _ _ _ _ Hgood) in E. subst self'.
  destruct e; reflexivity.
Qed.

Lemma script_on_a_failing_line_witness :
  main ["^ 1 2 +"; "global x = ;"; "^ 3"]
  = (["Result of expression: 3"; "Syntax error: Invalid value:  "], Exit 1) /\
  main ["^ 1 2 +"; "^ 1 +"; "^ 3"]
  = (["Result of expression: 3"], Uncaught (IndexError "pop from empty list")).
Proof.
  split.
  - apply (script_on_a_failing_line ["^ 1 2 +"] ["^ 3"] "global x = ;"
             (SyntaxError "Invalid value:  ") (reported (VInt 3) init)
             eq_refl eq_refl).
  - apply (script_on_a_failing_line ["^ 1 2 +"] ["^ 3"] "^ 1 +"
             (IndexError "pop from empty list") (reported (VInt 3) init)
             eq_refl eq_refl).
Defined.

Lemma parse_lines_inert lines self :
  Forall (fun line => is_inert_line line = true) lines ->
  parse_lines lines self = (inr tt, self).
Proof.
  intros H. induction H as [|line lines Hline _ IH]; [reflexivity|].
  cbn [parse_lines]. unfold bind, parse_line.
  unfold is_inert_line in Hline. rewrite Hline. exact IH.
Qed.

(** X26.  A file of nothing but blank lines and comments, the empty file
    included, makes the script print the empty document [<config />] and
    end normally. *)
Theorem script_on_an_inert_file (lines : list string) :
  Forall (fun line => is_inert_line line = true) lines ->
  main lines = (["<config />"], Finished).
Proof.
  intros H. unfold main. rewrite (parse_lines_inert _ _ H). reflexivity.
Qed.

Lemma script_on_an_inert_file_witness :
  main ["# constants"; "   "; ""; "  # none yet"] = (["<config />"], Finished).
Proof.
  apply (script_on_an_inert_file ["# constants"; "   "; ""; "  # none yet"]).
  repeat constructor.
Defined.

(* ===================================================================== *)
(** ** Further properties: more of the evaluator                          *)
(* ===================================================================== *)




(** X28.  A token that is not a digit string, not a key of the dictionary
    and not one of the six operators (a name that was never declared, a
    signed number) stops the evaluation with
    [SyntaxError("Unknown token in expression: <token>")], whatever the
    stack holds and whatever follows; nothing is printed and the session
    is unchanged. *)
Theorem unknown_token_is_a_syntax_error
        (expression token : string) (before after : list string)
        (stack : list Value) (self : session) :
  Py.split_whitespace expression = (before ++ token :: after)%list ->
  Py.isdigit token = false ->
  constants self !! token = None ->
  ~ In token operators ->
  fst (eval_tokens before [] self) = inr stack ->
  evaluate_expression expression self
  = (inl (SyntaxError ("Unknown token in expression: " +:+ token)), self).
Proof.
  intros Hsplit Hd Hfree Hop Hbefore.
  rewrite evaluate_expression_outcome, Hsplit, eval_tokens_app, Hbefore.
  cbn [eval_tokens]. unfold bind.
  rewrite (eval_token_unbound _ _ _ Hd Hfree).
  unfold operators in Hop. cbn [In] in Hop.
  repeat match goal with
         | |- context [String.eqb token ?op] =>
             destruct (String.eqb_spec token op) as [E|_];
               [exfalso; apply Hop; rewrite E; tauto|]
         end.
  reflexivity.
Qed.

Lemma unknown_token_is_a_syntax_error_witness :
  evaluate_expression "1 y + 2" (declared "x" (VInt 1) init)
  = (inl (SyntaxError "Unknown token in expression: y"), declared "x" (VInt 1) init).
Proof.
  refine (unknown_token_is_a_syntax_error "1 y + 2" "y" ["1"] ["+"; "2"] [VInt 1]
            (declared "x" (VInt 1) init) eq_refl eq_refl eq_refl _ eq_refl).
  cbn. intros H. decompose [or] H; discriminate || assumption.
Defined.
